(** * HeartbeatsData: run segmentation and weekly occupancy

    A shallow embedding of the two copies of the [HeartbeatData] class,
    [src/heartbeats_data.py] (module [TopLevel] below) and
    [src/HeartbeatsData/heartbeats_data.py] (module [Package] below), and
    the properties of [add_hb], [calc_durations] and
    [calc_duration_counts], then of [legend], of [format_time] in
    [plot_times], and of the data that [plot_durations] and
    [plot_duration_counts] hand to matplotlib.

    Python integers are unbounded, so seconds and timeouts are [Z].
    A [dict] keeps insertion order, so the durations mapping is an
    association list whose keys appear in first-insertion order. *)

From Stdlib Require Import ZArith List String Bool Lia DecimalString Sorted
  Permutation.
Import ListNotations.
Local Open Scope Z_scope.

(** ** Time constants (identical in both files) *)

Definition _SECS_IN_MIN : Z := 60.
Definition _MINS_IN_HOUR : Z := 60.
Definition _SECS_IN_HOUR : Z := _MINS_IN_HOUR * _SECS_IN_MIN.
Definition _HOURS_IN_DAY : Z := 24.
Definition _SECS_IN_DAY : Z := _SECS_IN_HOUR * _HOURS_IN_DAY.
Definition _DAYS_IN_WEEK : Z := 7.

(** ** [datetime.date] and [datetime.datetime]

    Only what the class uses: equality of dates ([!=] in the loops, key
    lookup in the durations dict), their order (the spec's chronological
    streams), [weekday()], and the fields [hour], [minute], [second] and
    [date()] of a timestamp. *)

Record date : Type := mkdate { year : Z; month : Z; day : Z }.

Definition date_eqb (a b : date) : bool :=
  (year a =? year b) && (month a =? month b) && (day a =? day b).

(** Python compares dates as the tuples (year, month, day). *)
Definition date_ltb (a b : date) : bool :=
  (year a <? year b)
  || ((year a =? year b)
      && ((month a <? month b) || ((month a =? month b) && (day a <? day b)))).

Definition date_leb (a b : date) : bool := date_ltb a b || date_eqb a b.

(** [date.weekday()] of the Python library:
    [(self.toordinal() + 6) % 7], Monday being 0. *)
Definition _is_leap (y : Z) : bool :=
  (y mod 4 =? 0) && (negb (y mod 100 =? 0) || (y mod 400 =? 0)).

Definition _days_before_year (y : Z) : Z :=
  let y' := y - 1 in y' * 365 + y' / 4 - y' / 100 + y' / 400.

Definition _DAYS_BEFORE_MONTH : list Z :=
  [-1; 0; 31; 59; 90; 120; 151; 181; 212; 243; 273; 304; 334].

Definition _days_before_month (y m : Z) : Z :=
  nth (Z.to_nat m) _DAYS_BEFORE_MONTH 0
  + (if (m >? 2) && _is_leap y then 1 else 0).

Definition toordinal (d : date) : Z :=
  _days_before_year (year d) + _days_before_month (year d) (month d) + day d.

Definition weekday (d : date) : Z := (toordinal d + 6) mod 7.

Record datetime : Type :=
  mkdatetime { dt_date : date; hour : Z; minute : Z; second : Z }.

(** ** The event containers

    [hb_type_counter], [hb_types], [dates] and [secs_since_midnights] are
    bound in the class body, not in [__init__]. *)

Definition counter : Type := list (string * Z).

(** [Counter.__getitem__] gives 0 for a missing key, so [c[k] += 1]
    inserts [k] with 1 at the end or bumps the count in place. *)
Fixpoint counter_incr (c : counter) (k : string) : counter :=
  match c with
  | [] => [(k, 1)]
  | (k', n) :: c' =>
      if String.eqb k' k then (k', n + 1) :: c'
      else (k', n) :: counter_incr c' k
  end.

Record store : Type := mkstore {
  hb_type_counter : counter;
  hb_types : list string;
  dates : list date;
  secs_since_midnights : list Z
}.

Definition empty_store : store := mkstore [] [] [] [].

Definition secs_since_midnight_of (t : datetime) : Z :=
  hour t * _SECS_IN_HOUR + minute t * _SECS_IN_MIN + second t.

(** The body of [add_hb] on the containers it reaches through [self]. *)
Definition add_hb_store (hb_type : string) (timestamp : datetime) (s : store)
  : store :=
  let '(hb_type', cnt) :=
    if String.eqb hb_type ""%string
    then ("Other"%string, hb_type_counter s)
    else (hb_type, counter_incr (hb_type_counter s) hb_type) in
  mkstore cnt
          (hb_types s ++ [hb_type'])
          (dates s ++ [dt_date timestamp])
          (secs_since_midnights s ++ [secs_since_midnight_of timestamp]).

Definition event : Type := (string * date * Z)%type.

(** Python's [zip] of three lists: stops at the shortest. *)
Fixpoint zip3 (a : list string) (b : list date) (c : list Z) : list event :=
  match a, b, c with
  | x :: a', y :: b', z :: c' => (x, y, z) :: zip3 a' b' c'
  | _, _, _ => []
  end.

Definition heartbeats (s : store) : list event :=
  zip3 (hb_types s) (dates s) (secs_since_midnights s).

(** ** The durations mapping *)

Definition duration : Type := (string * Z * Z)%type.
Definition durations_dict : Type := list (date * list duration).

Fixpoint dict_get (m : durations_dict) (k : date) : option (list duration) :=
  match m with
  | [] => None
  | (k', l) :: m' => if date_eqb k' k then Some l else dict_get m' k
  end.

(** [m.setdefault(k, []).append(v)] *)
Fixpoint setdefault_append (m : durations_dict) (k : date) (v : duration)
  : durations_dict :=
  match m with
  | [] => [(k, [v])]
  | (k', l) :: m' =>
      if date_eqb k' k then (k', l ++ [v]) :: m'
      else (k', l) :: setdefault_append m' k v
  end.

(** Comparison of a value with a variable that may still hold [None]. *)
Definition opt_eqb {A : Type} (eqb : A -> A -> bool) (x : A) (o : option A)
  : bool :=
  match o with
  | Some y => eqb x y
  | None => false
  end.

(** ** The occupancy matrix

    A numpy array of shape (rows, cols), as the list of its rows. *)

Definition matrix : Type := list (list Z).

Definition zeros (rows cols : Z) : matrix :=
  repeat (repeat 0 (Z.to_nat cols)) (Z.to_nat rows).

(** A bound of a slice [a:b] on an axis of length [n] ([slice.indices]
    with step 1): a negative bound counts from the end, and both ends are
    clipped to the axis. *)
Definition slice_bound (n i : Z) : Z :=
  if i <? 0 then Z.max (i + n) 0 else Z.min i n.

Fixpoint map_from {A : Type} (f : Z -> A -> A) (i : Z) (l : list A) : list A :=
  match l with
  | [] => []
  | x :: l' => f i x :: map_from f (i + 1) l'
  end.

(** [row[start:stop] += 1], with [incr] the addition of 1 in the array's
    element type. *)
Definition row_slice_incr (incr : Z -> Z) (start stop : Z) (row : list Z)
  : list Z :=
  let n := Z.of_nat (List.length row) in
  let a := slice_bound n start in
  let b := slice_bound n stop in
  map_from (fun j x => if (a <=? j) && (j <? b) then incr x else x) 0 row.

(** [m[r, start:stop] += 1] for a row index [0 <= r < rows]; the loops
    only pass [weekday()] values, which lie in 0..6. *)
Definition slice_incr (incr : Z -> Z) (m : matrix) (r start stop : Z)
  : matrix :=
  map_from (fun i row => if i =? r then row_slice_incr incr start stop row
                         else row) 0 m.

Definition row_sum (row : list Z) : Z := fold_right Z.add 0 row.
Definition matrix_sum (m : matrix) : Z := fold_right Z.add 0 (map row_sum m).

(** The cell [m[r, j]], when it exists. *)
Definition cell (m : matrix) (r j : Z) : option Z :=
  if (r <? 0) || (j <? 0) then None
  else match nth_error m (Z.to_nat r) with
       | Some row => nth_error row (Z.to_nat j)
       | None => None
       end.

(** A run closed by a counting loop: its date, first and last second. *)
Definition run : Type := (date * Z * Z)%type.

Inductive exn : Type := StopIteration.

(** How a call of a method that sets an attribute ends: it returns, or it
    raises; [v] is the attribute as the call leaves it. *)
Inductive outcome (A : Type) : Type :=
| Returned (v : A)
| Raised (e : exn) (v : A).

Arguments Returned {A} v.
Arguments Raised {A} e v.

Definition attr {A : Type} (o : outcome A) : A :=
  match o with Returned v => v | Raised _ v => v end.

Definition raised {A : Type} (o : outcome A) : option exn :=
  match o with Returned _ => None | Raised e _ => Some e end.

(** ** [src/heartbeats_data.py] *)

Module TopLevel.

Record dur_state : Type := mkdur {
  curr_hb_type : option string;
  curr_date : option date;
  curr_start : Z;
  curr_end : Z;
  durations : durations_dict
}.

Definition dur_init : dur_state := mkdur None None 0 0 [].

(** The test of line 66. *)
Definition dur_breaks (timeout : Z) (st : dur_state) (e : event) : bool :=
  let '(hb_type, date, secs_since_midnight) := e in
  negb (opt_eqb String.eqb hb_type (curr_hb_type st))
  || negb (opt_eqb date_eqb date (curr_date st))
  || (secs_since_midnight >? curr_end st + timeout).

(** One iteration of the loop of lines 65-72.  The guard of line 67
    looks at [curr_hb_type] only; lines 69-70 set it together with
    [curr_date], so both are [None] or both are set. *)
Definition dur_body (timeout : Z) (st : dur_state) (e : event) : dur_state :=
  let '(hb_type, date, secs_since_midnight) := e in
  if dur_breaks timeout st e then
    let ds :=
      match curr_hb_type st, curr_date st with
      | Some c, Some d =>
          setdefault_append (durations st) d
                            (c, curr_start st, curr_end st - curr_start st)
      | _, _ => durations st
      end in
    mkdur (Some hb_type) (Some date) secs_since_midnight secs_since_midnight ds
  else
    mkdur (curr_hb_type st) (curr_date st) (curr_start st)
          secs_since_midnight (durations st).

Definition dur_loop (timeout : Z) (st : dur_state) (es : list event)
  : dur_state :=
  fold_left (dur_body timeout) es st.

(** [calc_durations]: the value left in [self.durations]. *)
Definition calc_durations (s : store) (timeout : Z) : durations_dict :=
  durations (dur_loop timeout dur_init (heartbeats s)).

(** The variables [curr_date], [curr_start] and [curr_end] of
    [calc_duration_counts]. *)
Record cnt_state : Type := mkcnt {
  cnt_date : option date;
  cnt_start : Z;
  cnt_end : Z;
  duration_counts : matrix
}.

(** [zeros((_DAYS_IN_WEEK, _SECS_IN_DAY-1))]: float64 cells, which hold
    every count below 2^53 exactly, so [+= 1] is the addition of 1. *)
Definition cnt_init : cnt_state :=
  mkcnt None 0 0 (zeros _DAYS_IN_WEEK (_SECS_IN_DAY - 1)).

(** The test of line 81. *)
Definition cnt_breaks (timeout : Z) (st : cnt_state) (e : event) : bool :=
  let '(hb_type, date, secs_since_midnight) := e in
  negb (opt_eqb date_eqb date (cnt_date st))
  || (secs_since_midnight >? cnt_end st + timeout).

(** One iteration of the loop of lines 80-86. *)
Definition cnt_body (timeout : Z) (st : cnt_state) (e : event) : cnt_state :=
  let '(hb_type, date, secs_since_midnight) := e in
  if cnt_breaks timeout st e then
    let m :=
      match cnt_date st with
      | Some d =>
          slice_incr Z.succ (duration_counts st) (weekday d)
                     (cnt_start st) (cnt_end st + 1)
      | None => duration_counts st
      end in
    mkcnt (Some date) secs_since_midnight secs_since_midnight m
  else
    mkcnt (cnt_date st) (cnt_start st) secs_since_midnight
          (duration_counts st).

Definition cnt_loop (timeout : Z) (st : cnt_state) (es : list event)
  : cnt_state :=
  fold_left (cnt_body timeout) es st.

(** [calc_duration_counts]: the value left in [self.duration_counts]. *)
Definition calc_duration_counts (s : store) (timeout : Z) : matrix :=
  duration_counts (cnt_loop timeout cnt_init (heartbeats s)).

End TopLevel.

(** ** [src/HeartbeatsData/heartbeats_data.py] *)

Module Package.

Record dur_state : Type := mkdur {
  curr_hb_type : string;
  curr_date : date;
  curr_start : Z;
  curr_end : Z;
  durations : durations_dict
}.

(** The test of line 75. *)
Definition dur_breaks (timeout : Z) (st : dur_state) (e : event) : bool :=
  let '(hb_type, hb_date, secs_since_midnight) := e in
  negb (String.eqb hb_type (curr_hb_type st))
  || negb (date_eqb hb_date (curr_date st))
  || (secs_since_midnight >? curr_end st + timeout).

(** One iteration of the loop of lines 74-80. *)
Definition dur_body (timeout : Z) (st : dur_state) (e : event) : dur_state :=
  let '(hb_type, hb_date, secs_since_midnight) := e in
  if dur_breaks timeout st e then
    mkdur hb_type hb_date secs_since_midnight secs_since_midnight
          (setdefault_append (durations st) (curr_date st)
             (curr_hb_type st, curr_start st, curr_end st - curr_start st))
  else
    mkdur (curr_hb_type st) (curr_date st) (curr_start st)
          secs_since_midnight (durations st).

Definition dur_loop (timeout : Z) (st : dur_state) (es : list event)
  : dur_state :=
  fold_left (dur_body timeout) es st.

(** [calc_durations]: [self.durations = {}] comes before
    [next(heartbeats)], which raises [StopIteration] on an exhausted
    iterator. *)
Definition calc_durations (s : store) (timeout : Z)
  : outcome durations_dict :=
  match heartbeats s with
  | [] => Raised StopIteration []
  | (c, d, t) :: es =>
      Returned (durations (dur_loop timeout (mkdur c d t t []) es))
  end.

(** The variables [curr_date], [curr_start] and [curr_end] of
    [calc_duration_counts]. *)
Record cnt_state : Type := mkcnt {
  cnt_date : date;
  cnt_start : Z;
  cnt_end : Z;
  duration_counts : matrix
}.

(** Addition of 1 in [np.int16]: numpy wraps around silently. *)
Definition int16_wrap (z : Z) : Z := (z + 32768) mod 65536 - 32768.
Definition int16_incr (z : Z) : Z := int16_wrap (z + 1).

(** The test of line 91. *)
Definition cnt_breaks (timeout : Z) (st : cnt_state) (e : event) : bool :=
  let '(hb_type, hb_date, secs_since_midnight) := e in
  negb (date_eqb hb_date (cnt_date st))
  || (secs_since_midnight >? cnt_end st + timeout).

(** One iteration of the loop of lines 90-95. *)
Definition cnt_body (timeout : Z) (st : cnt_state) (e : event) : cnt_state :=
  let '(hb_type, hb_date, secs_since_midnight) := e in
  if cnt_breaks timeout st e then
    mkcnt hb_date secs_since_midnight secs_since_midnight
          (slice_incr int16_incr (duration_counts st)
                      (weekday (cnt_date st)) (cnt_start st) (cnt_end st + 1))
  else
    mkcnt (cnt_date st) (cnt_start st) secs_since_midnight
          (duration_counts st).

Definition cnt_loop (timeout : Z) (st : cnt_state) (es : list event)
  : cnt_state :=
  fold_left (cnt_body timeout) es st.

(** [calc_duration_counts]: the matrix is allocated before
    [next(heartbeats)]. *)
Definition calc_duration_counts (s : store) (timeout : Z) : outcome matrix :=
  let z := zeros _DAYS_IN_WEEK (_SECS_IN_DAY - 1) in
  match heartbeats s with
  | [] => Raised StopIteration z
  | (c, d, t) :: es =>
      Returned (duration_counts (cnt_loop timeout (mkcnt d t t z) es))
  end.

End Package.

(** ** Objects, attribute lookup and the class body

    The containers are objects on a heap; the class and every instance
    have a namespace from attribute names to references.  Reading
    [self.x] looks [x] up in the instance's namespace and, when it is not
    there, in the class's; [self.x = v] writes the instance's namespace;
    [self.x.append(v)] changes the object [self.x] refers to. *)

Inductive attr_name : Type :=
| A_hb_type_counter | A_hb_types | A_dates | A_secs_since_midnights
| A_hb_type_color_map | A_colors | A_durations | A_duration_counts
| A_timeout_slider | A_fig | A_ax.

Definition attr_name_eqb (a b : attr_name) : bool :=
  match a, b with
  | A_hb_type_counter, A_hb_type_counter
  | A_hb_types, A_hb_types
  | A_dates, A_dates
  | A_secs_since_midnights, A_secs_since_midnights
  | A_hb_type_color_map, A_hb_type_color_map
  | A_colors, A_colors
  | A_durations, A_durations
  | A_duration_counts, A_duration_counts
  | A_timeout_slider, A_timeout_slider
  | A_fig, A_fig
  | A_ax, A_ax => true
  | _, _ => false
  end.

Inductive object : Type :=
| OCounter (c : counter)
| OStrList (l : list string)
| ODateList (l : list date)
| OIntList (l : list Z)
| ODict (m : durations_dict)
| OMatrix (m : matrix)
| OFigure
| OAxes
| OOther.

Inductive value : Type :=
| VNone
| VRef (loc : nat).

Definition namespace : Type := list (attr_name * value).

Fixpoint ns_get (ns : namespace) (a : attr_name) : option value :=
  match ns with
  | [] => None
  | (a', v) :: ns' => if attr_name_eqb a' a then Some v else ns_get ns' a
  end.

Fixpoint ns_set (ns : namespace) (a : attr_name) (v : value) : namespace :=
  match ns with
  | [] => [(a, v)]
  | (a', v') :: ns' =>
      if attr_name_eqb a' a then (a', v) :: ns'
      else (a', v') :: ns_set ns' a v
  end.

Fixpoint list_set {A : Type} (l : list A) (n : nat) (x : A) : list A :=
  match l, n with
  | [], _ => []
  | _ :: l', O => x :: l'
  | y :: l', S n' => y :: list_set l' n' x
  end.

(** The heap, the namespace of the class, and the namespace of each
    instance; an instance is named by its position. *)
Record pystate : Type := mkpystate {
  heap : list object;
  class_ns : namespace;
  instance_ns : list namespace
}.

(** The state after the class body of [src/heartbeats_data.py] ran
    (lines 32-44): one [Counter] and three lists are created, once, and
    bound in the class namespace. *)
Definition class_body_TopLevel : pystate :=
  mkpystate
    [OCounter []; OStrList []; ODateList []; OIntList []]
    [(A_hb_type_counter, VRef 0); (A_hb_types, VRef 1); (A_dates, VRef 2);
     (A_secs_since_midnights, VRef 3); (A_hb_type_color_map, VNone);
     (A_colors, VNone); (A_durations, VNone); (A_duration_counts, VNone);
     (A_timeout_slider, VNone)]
    [].

(** The same for [src/HeartbeatsData/heartbeats_data.py] (lines 35-50),
    which also binds [fig] and [ax] to [None]. *)
Definition class_body_Package : pystate :=
  mkpystate
    [OCounter []; OStrList []; ODateList []; OIntList []]
    [(A_fig, VNone); (A_ax, VNone);
     (A_hb_type_counter, VRef 0); (A_hb_types, VRef 1); (A_dates, VRef 2);
     (A_secs_since_midnights, VRef 3); (A_hb_type_color_map, VNone);
     (A_colors, VNone); (A_durations, VNone); (A_duration_counts, VNone);
     (A_timeout_slider, VNone)]
    [].

(** [HeartbeatData()]: [__init__] binds [self.fig] and [self.ax] and
    nothing else. *)
Definition new_instance (st : pystate) : nat * pystate :=
  let f := List.length (heap st) in
  (List.length (instance_ns st),
   mkpystate (heap st ++ [OFigure; OAxes]) (class_ns st)
             (instance_ns st ++ [[(A_fig, VRef f); (A_ax, VRef (S f))]])).

(** [self.a], read. *)
Definition getattr (st : pystate) (self : nat) (a : attr_name) : option value :=
  match nth_error (instance_ns st) self with
  | None => None
  | Some ns =>
      match ns_get ns a with
      | Some v => Some v
      | None => ns_get (class_ns st) a
      end
  end.

(** [self.a = v] *)
Definition setattr (st : pystate) (self : nat) (a : attr_name) (v : value)
  : option pystate :=
  match nth_error (instance_ns st) self with
  | None => None
  | Some ns =>
      Some (mkpystate (heap st) (class_ns st)
                      (list_set (instance_ns st) self (ns_set ns a v)))
  end.

(** The object [self.a] refers to. *)
Definition attr_object (st : pystate) (self : nat) (a : attr_name)
  : option object :=
  match getattr st self a with
  | Some (VRef l) => nth_error (heap st) l
  | _ => None
  end.

(** A method call on the object [self.a] refers to, changing it in
    place; [None] when there is no such object or it has no such
    method. *)
Definition update_attr_object (st : pystate) (self : nat) (a : attr_name)
  (f : object -> option object) : option pystate :=
  match getattr st self a with
  | Some (VRef l) =>
      match nth_error (heap st) l with
      | Some o =>
          match f o with
          | Some o' =>
              Some (mkpystate (list_set (heap st) l o') (class_ns st)
                              (instance_ns st))
          | None => None
          end
      | None => None
      end
  | _ => None
  end.

Definition bind {A B : Type} (c : option A) (k : A -> option B) : option B :=
  match c with
  | Some x => k x
  | None => None
  end.

Definition counter_bump (k : string) (o : object) : option object :=
  match o with OCounter c => Some (OCounter (counter_incr c k)) | _ => None end.

Definition append_str (x : string) (o : object) : option object :=
  match o with OStrList l => Some (OStrList (l ++ [x])) | _ => None end.

Definition append_date (x : date) (o : object) : option object :=
  match o with ODateList l => Some (ODateList (l ++ [x])) | _ => None end.

Definition append_int (x : Z) (o : object) : option object :=
  match o with OIntList l => Some (OIntList (l ++ [x])) | _ => None end.

(** The second loop of [legend], [self.hb_types[i] = other_name] at
    every category that is not a key of [self.hb_type_color_map]: [keep]
    stands for the membership test. *)
Definition relabel_in_place (keep : string -> bool) (other_name : string)
  (o : object) : option object :=
  match o with
  | OStrList l =>
      Some (OStrList (map (fun hb_type => if keep hb_type then hb_type
                                          else other_name) l))
  | _ => None
  end.

(** [self.add_hb(hb_type, timestamp)], the same in both files. *)
Definition add_hb (self : nat) (hb_type : string) (timestamp : datetime)
  (st : pystate) : option pystate :=
  bind (if String.eqb hb_type ""
        then Some ("Other"%string, st)
        else option_map (pair hb_type)
               (update_attr_object st self A_hb_type_counter
                                   (counter_bump hb_type)))
       (fun r =>
  bind (update_attr_object (snd r) self A_hb_types (append_str (fst r)))
       (fun st2 =>
  bind (update_attr_object st2 self A_dates (append_date (dt_date timestamp)))
       (fun st3 =>
  update_attr_object st3 self A_secs_since_midnights
                     (append_int (secs_since_midnight_of timestamp))))).

(** [zip(self.hb_types, self.dates, self.secs_since_midnights)] *)
Definition read_events (st : pystate) (self : nat) : option (list event) :=
  match attr_object st self A_hb_types, attr_object st self A_dates,
        attr_object st self A_secs_since_midnights with
  | Some (OStrList a), Some (ODateList b), Some (OIntList c) =>
      Some (zip3 a b c)
  | _, _, _ => None
  end.

(** [self.a = <new object>] *)
Definition bind_new (st : pystate) (self : nat) (a : attr_name) (o : object)
  : option pystate :=
  setattr (mkpystate (heap st ++ [o]) (class_ns st) (instance_ns st))
          self a (VRef (List.length (heap st))).

(** In-place change of the object most recently bound to [self.a]. *)
Definition store_result (st : pystate) (self : nat) (a : attr_name)
  (o : object) : option pystate :=
  update_attr_object st self a (fun _ => Some o).

Module TopLevelObject.

(** [self.calc_durations(timeout)]: [self.durations = {}], then the loop
    fills that dict. *)
Definition calc_durations (self : nat) (timeout : Z) (st : pystate)
  : option pystate :=
  bind (bind_new st self A_durations (ODict [])) (fun st1 =>
  bind (read_events st1 self) (fun es =>
  store_result st1 self A_durations
    (ODict (TopLevel.durations
              (TopLevel.dur_loop timeout TopLevel.dur_init es))))).

(** [self.calc_duration_counts(timeout)] *)
Definition calc_duration_counts (self : nat) (timeout : Z) (st : pystate)
  : option pystate :=
  bind (bind_new st self A_duration_counts
                 (OMatrix (zeros _DAYS_IN_WEEK (_SECS_IN_DAY - 1))))
       (fun st1 =>
  bind (read_events st1 self) (fun es =>
  store_result st1 self A_duration_counts
    (OMatrix (TopLevel.duration_counts
                (TopLevel.cnt_loop timeout TopLevel.cnt_init es))))).

End TopLevelObject.

Module PackageObject.

(** [self.calc_durations(timeout)]: the new state and the exception the
    call ends with, if any. *)
Definition calc_durations (self : nat) (timeout : Z) (st : pystate)
  : option (pystate * option exn) :=
  bind (bind_new st self A_durations (ODict [])) (fun st1 =>
  bind (read_events st1 self) (fun es =>
  match es with
  | [] => Some (st1, Some StopIteration)
  | (c, d, t) :: es' =>
      option_map (fun st2 => (st2, None))
        (store_result st1 self A_durations
           (ODict (Package.durations
                     (Package.dur_loop timeout (Package.mkdur c d t t []) es'))))
  end)).

(** [self.calc_duration_counts(timeout)] *)
Definition calc_duration_counts (self : nat) (timeout : Z) (st : pystate)
  : option (pystate * option exn) :=
  bind (bind_new st self A_duration_counts
                 (OMatrix (zeros _DAYS_IN_WEEK (_SECS_IN_DAY - 1))))
       (fun st1 =>
  bind (read_events st1 self) (fun es =>
  match es with
  | [] => Some (st1, Some StopIteration)
  | (c, d, t) :: es' =>
      option_map (fun st2 => (st2, None))
        (store_result st1 self A_duration_counts
           (OMatrix (Package.duration_counts
                       (Package.cnt_loop timeout
                          (Package.mkcnt d t t
                             (zeros _DAYS_IN_WEEK (_SECS_IN_DAY - 1))) es'))))
  end)).

End PackageObject.

(** [self.durations] and [self.duration_counts], when they refer to a
    dict and to a matrix. *)
Definition durations_of (st : pystate) (self : nat) : option durations_dict :=
  match attr_object st self A_durations with
  | Some (ODict m) => Some m
  | _ => None
  end.

Definition duration_counts_of (st : pystate) (self : nat) : option matrix :=
  match attr_object st self A_duration_counts with
  | Some (OMatrix m) => Some m
  | _ => None
  end.

(** The four container attributes. *)
Definition is_container (a : attr_name) : bool :=
  match a with
  | A_hb_type_counter | A_hb_types | A_dates | A_secs_since_midnights => true
  | _ => false
  end.

(** The states a program reaches that runs one of the class bodies,
    creates instances and calls methods on them: [add_hb], the two
    computations, and what the other methods do to the state, which is
    to bind one of the other attributes to a new object ([legend] binds
    [hb_type_color_map] and [colors], [show_timeout_slider] binds
    [timeout_slider]; [OOther] stands for such an object) and to relabel
    [hb_types] in place ([legend]). *)
Inductive reachable : pystate -> Prop :=
| reach_TopLevel : reachable class_body_TopLevel
| reach_Package : reachable class_body_Package
| reach_new st : reachable st -> reachable (snd (new_instance st))
| reach_add_hb st self hb_type timestamp st' :
    reachable st -> add_hb self hb_type timestamp st = Some st' ->
    reachable st'
| reach_calc_durations st self timeout st' :
    reachable st -> TopLevelObject.calc_durations self timeout st = Some st' ->
    reachable st'
| reach_calc_duration_counts st self timeout st' :
    reachable st ->
    TopLevelObject.calc_duration_counts self timeout st = Some st' ->
    reachable st'
| reach_calc_durations_Package st self timeout st' e :
    reachable st ->
    PackageObject.calc_durations self timeout st = Some (st', e) ->
    reachable st'
| reach_calc_duration_counts_Package st self timeout st' e :
    reachable st ->
    PackageObject.calc_duration_counts self timeout st = Some (st', e) ->
    reachable st'
| reach_bind st self a o st' :
    reachable st -> is_container a = false ->
    bind_new st self a o = Some st' ->
    reachable st'
| reach_relabel st self keep other_name st' :
    reachable st ->
    update_attr_object st self A_hb_types (relabel_in_place keep other_name)
    = Some st' ->
    reachable st'.

(** The class namespace binds the containers to objects holding the
    fields of [s], and no instance binds a container itself. *)
Definition shared (st : pystate) (s : store) : Prop :=
  (exists lc l1 l2 l3,
     ns_get (class_ns st) A_hb_type_counter = Some (VRef lc)
     /\ ns_get (class_ns st) A_hb_types = Some (VRef l1)
     /\ ns_get (class_ns st) A_dates = Some (VRef l2)
     /\ ns_get (class_ns st) A_secs_since_midnights = Some (VRef l3)
     /\ nth_error (heap st) lc = Some (OCounter (hb_type_counter s))
     /\ nth_error (heap st) l1 = Some (OStrList (hb_types s))
     /\ nth_error (heap st) l2 = Some (ODateList (dates s))
     /\ nth_error (heap st) l3 = Some (OIntList (secs_since_midnights s)))
  /\ Forall (fun ns => forall a, is_container a = true -> ns_get ns a = None)
            (instance_ns st).

(** [self] names an instance. *)
Definition is_instance (st : pystate) (self : nat) : Prop :=
  (self < List.length (instance_ns st))%nat.

(** Every reference bound in a namespace is to an object of the heap. *)
Definition refs_valid (st : pystate) : Prop :=
  (forall a l, ns_get (class_ns st) a = Some (VRef l) ->
               (l < List.length (heap st))%nat)
  /\ Forall (fun ns => forall a l, ns_get ns a = Some (VRef l) ->
                                   (l < List.length (heap st))%nat)
            (instance_ns st).

(** [st'] is [st] after [self.a] was bound to a new object: the heap has
    one more object and keeps the others, and only the namespace of
    [self] changed, at [a]. *)
Definition assigned (st : pystate) (self : nat) (a : attr_name)
  (st' : pystate) : Prop :=
  class_ns st' = class_ns st
  /\ List.length (heap st') = S (List.length (heap st))
  /\ (forall l, (l < List.length (heap st))%nat ->
                nth_error (heap st') l = nth_error (heap st) l)
  /\ exists ns,
       nth_error (instance_ns st) self = Some ns
       /\ instance_ns st'
          = list_set (instance_ns st) self
              (ns_set ns a (VRef (List.length (heap st)))).

(** Every attribute of every instance, [self.a] apart, is bound as
    before and refers to the same object as before. *)
Definition kept_but (st st' : pystate) (self : nat) (a : attr_name) : Prop :=
  forall i x, is_instance st i -> i <> self \/ x <> a ->
    getattr st' i x = getattr st i x
    /\ attr_object st' i x = attr_object st i x.

(** ** Vocabulary of the properties *)

Definition ev_type (e : event) : string := fst (fst e).
Definition ev_date (e : event) : date := snd (fst e).
Definition ev_secs (e : event) : Z := snd e.

Definition dur_type (x : duration) : string := fst (fst x).
Definition dur_start (x : duration) : Z := snd (fst x).
Definition dur_length (x : duration) : Z := snd x.
Definition dur_stop (x : duration) : Z := dur_start x + dur_length x.

(** A store holding a given stream, as a sequence of [add_hb]-style
    appends would leave the three lists. *)
Definition store_of (es : list event) : store :=
  mkstore [] (map ev_type es) (map ev_date es) (map ev_secs es).

(** Number of durations listed under a date (0 when the key is absent). *)
Definition count_for (m : durations_dict) (d : date) : nat :=
  match dict_get m d with
  | Some l => List.length l
  | None => 0%nat
  end.

Definition dict_size (m : durations_dict) : nat :=
  fold_right (fun kv n => (List.length (snd kv) + n)%nat) 0%nat m.

(** Event [e] directly follows event [p] and does not merge with it in
    [calc_durations]. *)
Definition splits (timeout : Z) (p e : event) : bool :=
  negb (String.eqb (ev_type e) (ev_type p))
  || negb (date_eqb (ev_date e) (ev_date p))
  || (ev_secs e >? ev_secs p + timeout).

(** The dates of the events of [p :: es] that a following event splits
    from, in stream order. *)
Fixpoint split_dates (timeout : Z) (p : event) (es : list event) : list date :=
  match es with
  | [] => []
  | e :: es' =>
      (if splits timeout p e then [ev_date p] else [])
      ++ split_dates timeout e es'
  end.

Definition count_date (d : date) (l : list date) : nat :=
  List.length (filter (date_eqb d) l).

(** (date, second) pairs in non-decreasing order. *)
Definition event_leb (p e : event) : bool :=
  date_ltb (ev_date p) (ev_date e)
  || (date_eqb (ev_date p) (ev_date e) && (ev_secs p <=? ev_secs e)).

Fixpoint chronological_from (p : event) (es : list event) : bool :=
  match es with
  | [] => true
  | e :: es' => event_leb p e && chronological_from e es'
  end.

Definition chronological (es : list event) : bool :=
  match es with
  | [] => true
  | e :: es' => chronological_from e es'
  end.

(** [R x y] for every [x] listed before [y]. *)
Fixpoint pairwise {A : Type} (R : A -> A -> bool) (l : list A) : bool :=
  match l with
  | [] => true
  | x :: l' => forallb (R x) l' && pairwise R l'
  end.

Definition starts_sorted (l : list duration) : bool :=
  pairwise (fun x y => dur_start x <=? dur_start y) l.

(** The inclusive intervals [start, start+length] of two durations have
    no second in common. *)
Definition disjoint (x y : duration) : bool :=
  (dur_stop x <? dur_start y) || (dur_stop y <? dur_start x).

Definition no_overlap (l : list duration) : bool := pairwise disjoint l.

(** Each duration stops no later than every later one starts. *)
Definition end_to_start (l : list duration) : bool :=
  pairwise (fun x y => dur_stop x <=? dur_start y) l.

(** [R x y] for every [x] listed directly before [y]. *)
Fixpoint adjacent {A : Type} (R : A -> A -> bool) (l : list A) : bool :=
  match l with
  | x :: ((y :: _) as l') => R x y && adjacent R l'
  | _ => true
  end.

(** Two durations of one category are more than [timeout] apart. *)
Definition same_type_gap (timeout : Z) (x y : duration) : bool :=
  negb (String.eqb (dur_type x) (dur_type y))
  || (dur_stop x + timeout <? dur_start y).

(** The runs a counting loop closes, in order, from the loop variables
    [(d0, start, stop)] on. *)
Fixpoint closed_runs (timeout : Z) (d0 : date) (start stop : Z)
  (es : list event) : list run :=
  match es with
  | [] => []
  | (_, d, s) :: es' =>
      if negb (date_eqb d d0) || (s >? stop + timeout)
      then (d0, start, stop) :: closed_runs timeout d s s es'
      else closed_runs timeout d0 start s es'
  end.

Definition inclusive_length (r : run) : Z :=
  let '(_, start, stop) := r in stop - start + 1.

Definition total_inclusive_length (rs : list run) : Z :=
  fold_right Z.add 0 (map inclusive_length rs).

Definition d_2024_01_01 : date := mkdate 2024 1 1.
Definition d_2024_01_02 : date := mkdate 2024 1 2.

(** Scenario A of the spec, entered through [add_hb]. *)
Definition scenario_A : store :=
  add_hb_store "A" (mkdatetime d_2024_01_01 9 10 0)
    (add_hb_store "A" (mkdatetime d_2024_01_01 9 0 0) empty_store).

(** A run that ends in the last second of a day, closed by an event of
    the next day. *)
Definition last_second_store : store :=
  add_hb_store "A" (mkdatetime d_2024_01_02 0 0 0)
    (add_hb_store "A" (mkdatetime d_2024_01_01 23 59 59) empty_store).

(** Three categories in the same second of one day. *)
Definition same_second_store : store :=
  add_hb_store "C" (mkdatetime d_2024_01_01 0 0 10)
    (add_hb_store "B" (mkdatetime d_2024_01_01 0 0 10)
       (add_hb_store "A" (mkdatetime d_2024_01_01 0 0 10) empty_store)).

(** Scenario A followed by an event of the next day. *)
Definition scenario_A_next_day : store :=
  add_hb_store "" (mkdatetime d_2024_01_02 0 0 0) scenario_A.

(** A single event. *)
Definition one_event_store : store :=
  add_hb_store "A" (mkdatetime d_2024_01_01 9 0 0) empty_store.

(** The event [add_hb] records for [(hb_type, timestamp)]. *)
Definition recorded (hb_type : string) (timestamp : datetime) : event :=
  (if String.eqb hb_type "" then "Other"%string else hb_type,
   dt_date timestamp, secs_since_midnight_of timestamp).

(** ** Relating the two copies, and loop invariants *)

(** A state of the packaged loop, seen as a state of the other one. *)
Definition lift (st : Package.dur_state) : TopLevel.dur_state :=
  TopLevel.mkdur (Some (Package.curr_hb_type st)) (Some (Package.curr_date st))
                 (Package.curr_start st) (Package.curr_end st)
                 (Package.durations st).

(** The loop variables after [next(heartbeats)] gave [p]. *)
Definition first_state (p : event) : Package.dur_state :=
  Package.mkdur (ev_type p) (ev_date p) (ev_secs p) (ev_secs p) [].

(** The loop variables describe a run whose last event so far is [p]. *)
Definition follows (st : Package.dur_state) (p : event) : Prop :=
  Package.curr_hb_type st = ev_type p
  /\ Package.curr_date st = ev_date p
  /\ Package.curr_end st = ev_secs p.

(** What the loop of [calc_durations] maintains on a chronological
    stream: the current run is not reversed; under every key the
    durations have non-negative lengths and each stops before the later
    ones start; no key is later than the current date; and whatever is
    listed under the current date stops before the current run starts. *)
Definition dur_inv (st : Package.dur_state) : Prop :=
  Package.curr_start st <= Package.curr_end st
  /\ (forall k l, dict_get (Package.durations st) k = Some l ->
        end_to_start l = true
        /\ Forall (fun x => 0 <= dur_length x) l
        /\ date_leb k (Package.curr_date st) = true)
  /\ (forall l, dict_get (Package.durations st) (Package.curr_date st) = Some l ->
        Forall (fun x => dur_stop x <= Package.curr_start st) l).

(** Also maintained on a chronological stream: neighbours of one
    category under a key are more than [timeout] apart, and so are the
    last duration under the current date and the current run. *)
Definition gap_inv (timeout : Z) (st : Package.dur_state) : Prop :=
  (forall k l, dict_get (Package.durations st) k = Some l ->
     adjacent (same_type_gap timeout) l = true)
  /\ (forall l0 x,
        dict_get (Package.durations st) (Package.curr_date st)
        = Some (l0 ++ [x]) ->
        dur_type x = Package.curr_hb_type st ->
        dur_stop x + timeout < Package.curr_start st).

(** Every row of the matrix has [cols] cells. *)
Definition shaped (cols : Z) (m : matrix) : Prop :=
  Forall (fun row => Z.of_nat (List.length row) = cols) m.

(** One slice increment per closed run, as the counting loops do. *)
Definition apply_runs (incr : Z -> Z) (m : matrix) (rs : list run) : matrix :=
  fold_left (fun m r => let '(d, a, b) := r in
                        slice_incr incr m (weekday d) a (b + 1)) rs m.

(** A run that is not reversed and lies within seconds 0..[hi]. *)
Definition run_within (hi : Z) (r : run) : Prop :=
  let '(_, a, b) := r in 0 <= a <= b /\ b <= hi.

(** ** Sequences of calls, counter lookups and valid timestamps *)

(** [add_hb] called once per element of [calls], in order. *)
Definition add_hbs (calls : list (string * datetime)) (s : store) : store :=
  fold_left (fun s c => add_hb_store (fst c) (snd c) s) calls s.

(** [c[k]] on a [Counter]: 0 for a missing key. *)
Fixpoint counter_get (c : counter) (k : string) : Z :=
  match c with
  | [] => 0
  | (k', n) :: c' => if String.eqb k' k then n else counter_get c' k
  end.

(** The ranges [datetime] enforces on its time fields. *)
Definition valid_time (t : datetime) : Prop :=
  0 <= hour t < 24 /\ 0 <= minute t < 60 /\ 0 <= second t < 60.

(** The three lists of a store have one length. *)
Definition aligned (s : store) : Prop :=
  List.length (hb_types s) = List.length (dates s)
  /\ List.length (dates s) = List.length (secs_since_midnights s).

(** Number of calls of [calls] made with the category [k]. *)
Definition calls_with (k : string) (calls : list (string * datetime)) : nat :=
  List.length (filter (fun c => String.eqb (fst c) k) calls).

(** ** Vocabulary for further properties of the two computations *)

(** A duration listed under date [k] starts and stops at events that
    satisfy [P]. *)
Definition ends_at (P : event -> Prop) (k : date) (x : duration) : Prop :=
  P (dur_type x, k, dur_start x) /\ P (dur_type x, k, dur_stop x).

(** The current run and every listed duration start and stop at events
    that satisfy [P]. *)
Definition memb_inv (P : event -> Prop) (st : Package.dur_state) : Prop :=
  P (Package.curr_hb_type st, Package.curr_date st, Package.curr_start st)
  /\ P (Package.curr_hb_type st, Package.curr_date st, Package.curr_end st)
  /\ forall k l x, dict_get (Package.durations st) k = Some l -> In x l ->
                   ends_at P k x.

(** The closed runs of a stream, as [calc_duration_counts] forms them. *)
Definition stream_runs (timeout : Z) (es : list event) : list run :=
  match es with
  | [] => []
  | (_, d, t) :: es' => closed_runs timeout d t t es'
  end.

(** A dict as Python keeps it: no key twice, and here no empty list. *)
Definition well_formed_dict (m : durations_dict) : Prop :=
  NoDup (map fst m) /\ Forall (fun kv => snd kv <> []) m.

(** A closed run covers cell [(r, j)]. *)
Definition covers (r j : Z) (x : run) : bool :=
  let '(d, a, b) := x in (weekday d =? r) && (a <=? j) && (j <=? b).

(** Number of runs of [rs] that cover cell [(r, j)]. *)
Definition covering (r j : Z) (rs : list run) : Z :=
  Z.of_nat (List.length (filter (covers r j) rs)).

(** Every cell of a matrix satisfies [P]. *)
Definition cells (P : Z -> Prop) (m : matrix) : Prop :=
  Forall (Forall P) m.

(** A run whose two ends are non-negative seconds. *)
Definition run_nonneg (x : run) : Prop :=
  let '(_, a, b) := x in 0 <= a /\ 0 <= b.

(** The (date, second) part of an event. *)
Definition ev_when (e : event) : date * Z := (ev_date e, ev_secs e).

(** ** The views of [plot_duration_counts] and the labels of [plot_times] *)

(** [duration_counts.flatten()]: the rows one after the other. *)
Definition flatten (m : matrix) : list Z := List.concat m.

Fixpoint add_rows (a b : list Z) : list Z :=
  match a, b with
  | x :: a', y :: b' => (x + y) :: add_rows a' b'
  | _, _ => []
  end.

(** [npsum(duration_counts, axis=0)] for a matrix with at least one row:
    the rows added cell by cell.  The sum of an int16 array is computed
    in the platform integer, so no addition wraps. *)
Definition npsum_axis0 (m : matrix) : list Z :=
  match m with
  | [] => []
  | row :: rows => fold_left add_rows rows row
  end.

(** What a call can raise besides [StopIteration]. *)
Inductive pyerror : Type :=
| IndexError
| KeyError (key : string)
| ValueError (message : string).

(** [l[i]] on a Python list: a negative index counts from the end. *)
Definition py_index {A : Type} (l : list A) (i : Z) : option A :=
  let n := Z.of_nat (List.length l) in
  if (i <? - n) || (n <=? i) then None
  else nth_error l (Z.to_nat (if i <? 0 then i + n else i)).

(** ['{:02d}'.format(n)]: the decimal digits, sign included, padded with
    a zero when shorter than two characters. *)
Definition format_02d (n : Z) : string :=
  let digits := NilZero.string_of_int (Z.to_int n) in
  if (String.length digits <? 2)%nat then ("0" ++ digits)%string else digits.

(** [format_time] of [plot_times], the same in both files; [day_abbr]
    stands for [calendar.day_abbr], the seven day names of the locale. *)
Definition format_time (weekdays : bool) (day_abbr : list string) (x : Z)
  : pyerror + string :=
  if weekdays then
    match py_index day_abbr (x / _SECS_IN_DAY) with
    | None => inl IndexError
    | Some name =>
        inr (name ++ " "
             ++ format_02d ((x / _SECS_IN_HOUR) mod _HOURS_IN_DAY) ++ ":"
             ++ format_02d ((x mod _SECS_IN_HOUR) / _MINS_IN_HOUR))%string
    end
  else
    inr (format_02d (x / _SECS_IN_HOUR) ++ ":"
         ++ format_02d ((x mod _SECS_IN_HOUR) / _MINS_IN_HOUR))%string.

(** The names of the C locale. *)
Definition day_abbr_C : list string :=
  ["Mon"; "Tue"; "Wed"; "Thu"; "Fri"; "Sat"; "Sun"]%string.

(** ** [legend] and the colours of [plot_durations]

    [color] is the type of a colour of the colormap; [palette] stands for
    [colormaps[color_map].colors]. *)

(** [hb_type_color_map]: a dict from category to colour. *)
Definition color_dict (color : Type) : Type := list (string * color).

Fixpoint color_get {color : Type} (m : color_dict color) (k : string)
  : option color :=
  match m with
  | [] => None
  | (k', v) :: m' => if String.eqb k' k then Some v else color_get m' k
  end.

(** [k in m] *)
Definition color_mem {color : Type} (m : color_dict color) (k : string)
  : bool :=
  match color_get m k with Some _ => true | None => false end.

(** [m[k] = v] *)
Fixpoint color_set {color : Type} (m : color_dict color) (k : string)
  (v : color) : color_dict color :=
  match m with
  | [] => [(k, v)]
  | (k', v') :: m' =>
      if String.eqb k' k then (k', v) :: m'
      else (k', v') :: color_set m' k v
  end.

(** [sorted(items, key=count, reverse=True)]: a stable sort, so items of
    equal count keep their order. *)
Fixpoint insert_desc (x : string * Z) (l : counter) : counter :=
  match l with
  | [] => [x]
  | y :: l' =>
      if snd y <=? snd x then x :: y :: l' else y :: insert_desc x l'
  end.

Definition sorted_desc (c : counter) : counter := fold_right insert_desc [] c.

(** [Counter.most_common(n)]: the first [n] items of that order, none
    when [n <= 0]. *)
Definition most_common (n : Z) (c : counter) : counter :=
  firstn (Z.to_nat n) (sorted_desc c).

(** The first loop of [legend]: the [i]-th most common category gets
    [color_map[i+1]]; [i] is the index the enumeration has reached. *)
Fixpoint assign_colors {color : Type} (palette : list color) (i : nat)
  (common : counter) (m : color_dict color) : pyerror + color_dict color :=
  match common with
  | [] => inr m
  | (hb_type, _) :: rest =>
      match nth_error palette (S i) with
      | None => inl IndexError
      | Some c => assign_colors palette (S i) rest (color_set m hb_type c)
      end
  end.

(** The second loop of [legend], which rewrites [hb_types] in place. *)
Definition relabel {color : Type} (m : color_dict color) (other_name : string)
  (l : list string) : list string :=
  map (fun hb_type => if color_mem m hb_type then hb_type else other_name) l.

(** [legend], up to the call of [ax.legend]: the store after the
    relabelling, [self.hb_type_color_map] and [self.colors]. *)
Definition legend {color : Type} (legend_length : Z) (other_name : string)
  (palette : list color) (s : store)
  : pyerror + (store * color_dict color * list color) :=
  match palette with
  | [] => inl IndexError
  | c0 :: _ =>
      match assign_colors palette 0
              (most_common (legend_length - 1) (hb_type_counter s))
              [(other_name, c0)] with
      | inl e => inl e
      | inr m =>
          let hb_types' := relabel m other_name (hb_types s) in
          inr (mkstore (hb_type_counter s) hb_types' (dates s)
                       (secs_since_midnights s),
               m,
               map (fun hb_type => match color_get m hb_type with
                                   | Some c => c
                                   | None => c0
                                   end) hb_types')
      end
  end.

(** [[self.hb_type_color_map[duration[0]] for duration in durations]] of
    [refresh] in [plot_durations]. *)
Fixpoint facecolors {color : Type} (m : color_dict color) (l : list duration)
  : pyerror + list color :=
  match l with
  | [] => inr []
  | x :: l' =>
      match color_get m (dur_type x) with
      | None => inl (KeyError (dur_type x))
      | Some c =>
          match facecolors m l' with
          | inl e => inl e
          | inr cs => inr (c :: cs)
          end
      end
  end.

(** The categories the first loop of [legend] enters. *)
Definition kept (legend_length : Z) (other_name : string) (c : counter)
  (h : string) : bool :=
  String.eqb h other_name
  || existsb (fun kv => String.eqb (fst kv) h) (most_common (legend_length - 1) c).

(** Every list of [m] is continued in [m']: same key, same durations in
    front. *)
Definition extends_dict (m m' : durations_dict) : Prop :=
  forall d l, dict_get m d = Some l ->
              exists l', dict_get m' d = Some (l ++ l').

(** A store whose stream is that of [s] followed by more events. *)
Definition continues (s s' : store) : Prop :=
  exists es, heartbeats s' = heartbeats s ++ es.

(** ** Further stores and the colormap registry *)

(** Two runs of A more than 300 seconds apart, a run of B that starts in
    the second the last A arrives, all on one day, closed by an event of
    the next day. *)
Definition three_runs_store : store :=
  add_hb_store "" (mkdatetime d_2024_01_02 0 0 0)
    (add_hb_store "B" (mkdatetime d_2024_01_01 9 10 0)
       (add_hb_store "A" (mkdatetime d_2024_01_01 9 10 0)
          (add_hb_store "A" (mkdatetime d_2024_01_01 9 0 0) empty_store))).

(** Two categories in the same second of one day. *)
Definition two_categories_store : store :=
  add_hb_store "B" (mkdatetime d_2024_01_01 0 0 10)
    (add_hb_store "A" (mkdatetime d_2024_01_01 0 0 10) empty_store).

(** What [colormaps[name]] gives when the name is registered: a
    [ListedColormap], which has the attribute [colors], or a colormap
    without it (a [LinearSegmentedColormap] such as jet). *)
Inductive colormap (color : Type) : Type :=
| Listed (colors : list color)
| Unlisted.

Arguments Listed {color} colors.
Arguments Unlisted {color}.

(** How [legend] can fail before it calls [ax.legend]. *)
Inductive legend_error : Type :=
| ColormapKeyError (name : string)
| ColorsAttributeError
| LoopError (e : pyerror).

(** [legend] from its first line, [colormaps[color_map].colors], up to
    the call of [ax.legend]; [colormaps] stands for matplotlib's
    registry, [None] for a name it does not hold. *)
Definition legend_call {color : Type}
  (colormaps : string -> option (colormap color))
  (legend_length : Z) (other_name color_map : string) (s : store)
  : legend_error + (store * color_dict color * list color) :=
  match colormaps color_map with
  | None => inl (ColormapKeyError color_map)
  | Some Unlisted => inl ColorsAttributeError
  | Some (Listed palette) =>
      match legend legend_length other_name palette s with
      | inl e => inl (LoopError e)
      | inr r => inr r
      end
  end.

(** ** Programs with two instances *)

(** Two instances of the class of [src/heartbeats_data.py]; the first
    records an event at 09:00 and the second one at 09:10 of the same
    day. *)
Definition shared_scenario : option pystate :=
  bind (add_hb 0 "A" (mkdatetime d_2024_01_01 9 0 0)
          (snd (new_instance (snd (new_instance class_body_TopLevel)))))
       (add_hb 1 "A" (mkdatetime d_2024_01_01 9 10 0)).

(** After that, the second instance computes its durations, the first
    records an event on the next day, which closes the run of the two
    earlier events. *)
Definition stale_scenario : option pystate :=
  bind shared_scenario (fun st =>
  bind (TopLevelObject.calc_durations 1 900 st)
       (add_hb 0 "" (mkdatetime d_2024_01_02 0 0 0))).

(** * Properties *)

(** ** Dates *)

Lemma date_eqb_eq (a b : date) : date_eqb a b = true <-> a = b.
Proof.
  destruct a as [y1 m1 d1], b as [y2 m2 d2]; unfold date_eqb; simpl.
  rewrite !andb_true_iff, !Z.eqb_eq. split.
  - intros [[-> ->] ->]; reflexivity.
  - intros H; injection H as -> -> ->; auto.
Qed.

Lemma date_eqb_refl (a : date) : date_eqb a a = true.
Proof. apply date_eqb_eq; reflexivity. Qed.

Lemma date_eqb_neq (a b : date) : date_eqb a b = false <-> a <> b.
Proof.
  rewrite <- date_eqb_eq. destruct (date_eqb a b); split; congruence.
Qed.

Lemma date_eqb_sym (a b : date) : date_eqb a b = date_eqb b a.
Proof.
  destruct (date_eqb b a) eqn:E.
  - apply date_eqb_eq in E; subst; apply date_eqb_refl.
  - apply date_eqb_neq in E. apply date_eqb_neq. congruence.
Qed.

Ltac date_arith :=
  unfold date_leb, date_ltb, date_eqb in *; simpl in *;
  repeat match goal with
         | H : _ || _ = true |- _ => apply orb_true_iff in H
         | H : _ && _ = true |- _ => apply andb_true_iff in H
         | H : _ /\ _ |- _ => destruct H
         | H : (_ <? _) = true |- _ => apply Z.ltb_lt in H
         | H : (_ =? _) = true |- _ => apply Z.eqb_eq in H
         end;
  rewrite ?orb_true_iff, ?andb_true_iff, ?Z.ltb_lt, ?Z.eqb_eq;
  lia.

Lemma date_leb_trans (a b c : date) :
  date_leb a b = true -> date_leb b c = true -> date_leb a c = true.
Proof.
  destruct a as [y1 m1 d1], b as [y2 m2 d2], c as [y3 m3 d3].
  intros H1 H2. date_arith.
Qed.

Lemma date_leb_refl (a : date) : date_leb a a = true.
Proof. unfold date_leb. rewrite date_eqb_refl. apply orb_true_r. Qed.

Lemma date_ltb_not_leb (a b : date) :
  date_ltb a b = true -> date_leb b a = true -> False.
Proof.
  destruct a as [y1 m1 d1], b as [y2 m2 d2].
  intros H1 H2. date_arith.
Qed.

Lemma date_ltb_leb (a b : date) : date_ltb a b = true -> date_leb a b = true.
Proof. intros H. unfold date_leb. rewrite H. reflexivity. Qed.

(** [weekday()] is a row index of the matrix. *)
Lemma weekday_range (d : date) : 0 <= weekday d < _DAYS_IN_WEEK.
Proof. unfold weekday, _DAYS_IN_WEEK. apply Z.mod_pos_bound. lia. Qed.

(** ** Streams and stores *)

Lemma heartbeats_store_of (es : list event) : heartbeats (store_of es) = es.
Proof.
  unfold heartbeats, store_of; simpl.
  induction es as [|[[c d] s] es IH]; simpl; [reflexivity|].
  rewrite IH. reflexivity.
Qed.

Lemma zip3_snoc (a : list string) (b : list date) (c : list Z) x y z :
  List.length a = List.length b -> List.length b = List.length c ->
  zip3 (a ++ [x]) (b ++ [y]) (c ++ [z]) = zip3 a b c ++ [(x, y, z)].
Proof.
  revert b c. induction a as [|x0 a IH]; intros [|y0 b] [|z0 c]; simpl;
    try discriminate; auto.
  intros H1 H2. rewrite IH by congruence. reflexivity.
Qed.

(** On a store whose three lists have one length, as [add_hb] keeps
    them, [add_hb] extends the stream by the recorded event. *)
Lemma heartbeats_add_hb_store hb_type timestamp s :
  List.length (hb_types s) = List.length (dates s) ->
  List.length (dates s) = List.length (secs_since_midnights s) ->
  heartbeats (add_hb_store hb_type timestamp s)
  = heartbeats s ++ [recorded hb_type timestamp].
Proof.
  intros H1 H2. unfold heartbeats, add_hb_store, recorded.
  destruct (String.eqb hb_type ""); simpl; apply zip3_snoc; assumption.
Qed.

(** ** The two copies of [calc_durations] run the same loop *)

Lemma dur_breaks_lift timeout st e :
  TopLevel.dur_breaks timeout (lift st) e = Package.dur_breaks timeout st e.
Proof. destruct e as [[c d] s]. reflexivity. Qed.

Lemma dur_body_lift timeout st e :
  TopLevel.dur_body timeout (lift st) e = lift (Package.dur_body timeout st e).
Proof.
  destruct e as [[c d] s]. unfold TopLevel.dur_body, Package.dur_body.
  rewrite dur_breaks_lift.
  destruct (Package.dur_breaks timeout st (c, d, s)); reflexivity.
Qed.

Lemma dur_loop_lift timeout es : forall st,
  TopLevel.dur_loop timeout (lift st) es = lift (Package.dur_loop timeout st es).
Proof.
  induction es as [|e es IH]; intros st; simpl; [reflexivity|].
  unfold TopLevel.dur_loop, Package.dur_loop in *; simpl.
  rewrite dur_body_lift. apply IH.
Qed.

Lemma dur_loop_first timeout c d s es :
  TopLevel.dur_loop timeout TopLevel.dur_init ((c, d, s) :: es)
  = lift (Package.dur_loop timeout (Package.mkdur c d s s []) es).
Proof.
  rewrite <- dur_loop_lift. reflexivity.
Qed.

(** ** The durations dict *)

Lemma dict_get_setdefault_append m k v k' :
  dict_get (setdefault_append m k v) k'
  = if date_eqb k k'
    then Some (match dict_get m k with Some l => l ++ [v] | None => [v] end)
    else dict_get m k'.
Proof.
  induction m as [|[k0 l] m IH]; simpl.
  - destruct (date_eqb k k'); reflexivity.
  - destruct (date_eqb k0 k) eqn:E0; simpl.
    + apply date_eqb_eq in E0; subst k0.
      destruct (date_eqb k k'); reflexivity.
    + rewrite IH. destruct (date_eqb k k') eqn:E1; [|reflexivity].
      apply date_eqb_eq in E1; subst k'. rewrite E0. reflexivity.
Qed.

Lemma count_for_setdefault_append m k v d :
  count_for (setdefault_append m k v) d
  = (count_for m d + if date_eqb k d then 1 else 0)%nat.
Proof.
  unfold count_for. rewrite dict_get_setdefault_append.
  destruct (date_eqb k d) eqn:E.
  - apply date_eqb_eq in E; subst d.
    destruct (dict_get m k); [rewrite length_app|]; simpl; lia.
  - lia.
Qed.

Lemma dict_size_setdefault_append m k v :
  dict_size (setdefault_append m k v) = S (dict_size m).
Proof.
  induction m as [|[k0 l] m IH]; simpl; [reflexivity|].
  destruct (date_eqb k0 k); simpl.
  - rewrite length_app; simpl; lia.
  - rewrite IH; lia.
Qed.

(** ** The loop variables describe the previous event

    After any iteration, [curr_hb_type], [curr_date] and [curr_end] are
    the fields of the event just read, so the test of the next iteration
    compares two neighbouring events. *)

Lemma follows_body timeout st e : follows (Package.dur_body timeout st e) e.
Proof.
  destruct e as [[c d] s]. unfold Package.dur_body.
  destruct (Package.dur_breaks timeout st (c, d, s)) eqn:E;
    unfold follows; simpl; auto.
  unfold Package.dur_breaks in E.
  apply orb_false_iff in E as [E _]. apply orb_false_iff in E as [E1 E2].
  apply negb_false_iff in E1, E2.
  apply String.eqb_eq in E1. apply date_eqb_eq in E2. auto.
Qed.

Lemma breaks_splits timeout st p e :
  follows st p -> Package.dur_breaks timeout st e = splits timeout p e.
Proof.
  destruct e as [[c d] s]. intros (H1 & H2 & H3).
  unfold Package.dur_breaks, splits; simpl. rewrite H1, H2, H3. reflexivity.
Qed.

Lemma count_date_app d l1 l2 :
  count_date d (l1 ++ l2) = (count_date d l1 + count_date d l2)%nat.
Proof. unfold count_date. rewrite filter_app, length_app. reflexivity. Qed.

Lemma count_for_loop timeout d es : forall st p,
  follows st p ->
  count_for (Package.durations (Package.dur_loop timeout st es)) d
  = (count_for (Package.durations st) d
     + count_date d (split_dates timeout p es))%nat.
Proof.
  induction es as [|e es IH]; intros st p F; simpl.
  - unfold count_date; simpl; lia.
  - unfold Package.dur_loop in *; simpl.
    rewrite (IH _ e (follows_body timeout st e)).
    rewrite count_date_app, Nat.add_assoc. f_equal.
    pose proof (breaks_splits timeout st p e F) as B.
    destruct e as [[c d'] s]. unfold Package.dur_body. rewrite B.
    destruct F as (F1 & F2 & F3).
    destruct (splits timeout p (c, d', s)); simpl.
    + rewrite count_for_setdefault_append, F2.
      unfold count_date; simpl. rewrite (date_eqb_sym d).
      destruct (date_eqb (ev_date p) d); reflexivity.
    + unfold count_date; simpl; lia.
Qed.

Lemma dict_size_loop timeout es : forall st p,
  follows st p ->
  dict_size (Package.durations (Package.dur_loop timeout st es))
  = (dict_size (Package.durations st)
     + List.length (split_dates timeout p es))%nat.
Proof.
  induction es as [|e es IH]; intros st p F; simpl.
  - lia.
  - unfold Package.dur_loop in *; simpl.
    rewrite (IH _ e (follows_body timeout st e)).
    rewrite length_app, Nat.add_assoc. f_equal.
    pose proof (breaks_splits timeout st p e F) as B.
    destruct e as [[c d'] s]. unfold Package.dur_body. rewrite B.
    destruct (splits timeout p (c, d', s)); simpl.
    + rewrite dict_size_setdefault_append. lia.
    + lia.
Qed.

Lemma splits_antitone t1 t2 p e :
  t1 <= t2 -> splits t2 p e = true -> splits t1 p e = true.
Proof.
  unfold splits. intros Ht H.
  apply orb_true_iff in H as [H|H]; [rewrite H; reflexivity|].
  apply orb_true_iff. right. apply Z.gtb_lt in H. apply Z.gtb_lt. lia.
Qed.

Lemma split_dates_antitone t1 t2 d es : forall p,
  t1 <= t2 ->
  (count_date d (split_dates t2 p es) <= count_date d (split_dates t1 p es))%nat.
Proof.
  induction es as [|e es IH]; intros p Ht; simpl; [lia|].
  rewrite !count_date_app. specialize (IH e Ht).
  destruct (splits t2 p e) eqn:E2.
  - rewrite (splits_antitone t1 t2 p e Ht E2). lia.
  - unfold count_date at 1; simpl. lia.
Qed.

(** The number of durations under a date, for either copy, read off the
    stream. *)
Lemma count_for_calc_durations_Package s timeout d :
  count_for (attr (Package.calc_durations s timeout)) d
  = match heartbeats s with
    | [] => 0%nat
    | p :: es => count_date d (split_dates timeout p es)
    end.
Proof.
  unfold Package.calc_durations.
  destruct (heartbeats s) as [|[[c0 d0] s0] es]; [reflexivity|].
  simpl attr.
  rewrite (count_for_loop timeout d es _ (c0, d0, s0)).
  - reflexivity.
  - unfold follows; simpl; auto.
Qed.

Lemma calc_durations_agree s timeout :
  TopLevel.calc_durations s timeout = attr (Package.calc_durations s timeout).
Proof.
  unfold TopLevel.calc_durations, Package.calc_durations.
  destruct (heartbeats s) as [|[[c0 d0] s0] es]; [reflexivity|].
  rewrite dur_loop_first. reflexivity.
Qed.

Lemma count_for_antitone s d t1 t2 :
  t1 <= t2 ->
  (count_for (attr (Package.calc_durations s t2)) d
   <= count_for (attr (Package.calc_durations s t1)) d)%nat.
Proof.
  intros Ht. rewrite !count_for_calc_durations_Package.
  destruct (heartbeats s) as [|p es]; [lia|].
  apply split_dates_antitone; assumption.
Qed.

(** ** Claims about [calc_durations] *)

Lemma last_cons {A : Type} (e p : A) (es : list A) :
  last (e :: es) p = last es e.
Proof.
  revert e p. induction es as [|x es IH]; intros e p; [reflexivity|].
  change (last (e :: x :: es) p) with (last (x :: es) p).
  rewrite (IH x p), (IH x e). reflexivity.
Qed.

Lemma follows_loop timeout es : forall st p,
  follows st p -> follows (Package.dur_loop timeout st es) (last es p).
Proof.
  induction es as [|e es IH]; intros st p F; [exact F|].
  rewrite last_cons. unfold Package.dur_loop in *; simpl fold_left.
  apply IH, follows_body.
Qed.

Lemma calc_durations_Package_cons s timeout p es :
  heartbeats s = p :: es ->
  Package.calc_durations s timeout
  = Returned (Package.durations (Package.dur_loop timeout (first_state p) es)).
Proof.
  intros H. unfold Package.calc_durations. rewrite H.
  destruct p as [[c d] t]. reflexivity.
Qed.

Lemma calc_durations_snoc s s' timeout p e es :
  heartbeats s = p :: es ->
  heartbeats s' = heartbeats s ++ [e] ->
  let st := Package.dur_loop timeout (first_state p) es in
  Package.calc_durations s' timeout
  = Returned
      (if splits timeout (last es p) e
       then setdefault_append (Package.durations st) (Package.curr_date st)
              (Package.curr_hb_type st, Package.curr_start st,
               Package.curr_end st - Package.curr_start st)
       else Package.durations st).
Proof.
  intros Hs Hs' st.
  assert (F : follows st (last es p)).
  { apply follows_loop. unfold follows; simpl; auto. }
  rewrite Hs in Hs'. simpl in Hs'.
  rewrite (calc_durations_Package_cons s' timeout p (es ++ [e]) Hs').
  unfold Package.dur_loop. rewrite fold_left_app. simpl fold_left.
  fold (Package.dur_loop timeout (first_state p) es). fold st.
  rewrite <- (breaks_splits timeout st (last es p) e F).
  destruct e as [[c d] t]. unfold Package.dur_body.
  destruct (Package.dur_breaks timeout st (c, d, t)); reflexivity.
Qed.

Lemma heartbeats_scenario_A :
  heartbeats scenario_A
  = [("A"%string, d_2024_01_01, 32400); ("A"%string, d_2024_01_01, 33000)].
Proof. reflexivity. Qed.

(** C1, as stated, fails: on scenario A with timeout 900 neither copy of
    [calc_durations] leaves the mapping that lists ("A", 32400, 600)
    under 2024-01-01. *)
Lemma C1_scenario_A_counterexample :
  ~ (TopLevel.calc_durations scenario_A 900
     = [(d_2024_01_01, [("A"%string, 32400, 600)])]
     \/ Package.calc_durations scenario_A 900
        = Returned [(d_2024_01_01, [("A"%string, 32400, 600)])]).
Proof. intros [H|H]; vm_compute in H; discriminate H. Qed.

(** C1, amended: on scenario A with timeout 900 both copies merge the two
    events into the run ("A", 32400, 600) of 2024-01-01, which is still
    held in the loop variables when the loop ends, and the mapping they
    produce is empty.  After one more [add_hb], the mapping is exactly
    2024-01-01 -> [("A", 32400, 600)] when the new event does not merge
    with that run (other category, other date, or more than 900 seconds
    after 09:10:00), and is still empty when it merges. *)
Theorem C1_scenario_A_run_left_open :
  TopLevel.dur_loop 900 TopLevel.dur_init (heartbeats scenario_A)
  = TopLevel.mkdur (Some "A"%string) (Some d_2024_01_01) 32400 33000 []
  /\ TopLevel.calc_durations scenario_A 900 = []
  /\ Package.calc_durations scenario_A 900 = Returned []
  /\ forall (hb_type : string) (timestamp : datetime),
       let s' := add_hb_store hb_type timestamp scenario_A in
       let e := (if String.eqb hb_type "" then "Other"%string else hb_type,
                 dt_date timestamp, secs_since_midnight_of timestamp) in
       let closed :=
         if splits 900 ("A"%string, d_2024_01_01, 33000) e
         then [(d_2024_01_01, [("A"%string, 32400, 600)])] else [] in
       TopLevel.calc_durations s' 900 = closed
       /\ Package.calc_durations s' 900 = Returned closed.
Proof.
  split; [reflexivity|]. split; [reflexivity|]. split; [reflexivity|].
  intros hb_type timestamp s' e closed.
  assert (P : Package.calc_durations s' 900 = Returned closed).
  { apply (calc_durations_snoc scenario_A s' 900
             ("A"%string, d_2024_01_01, 32400) e
             [("A"%string, d_2024_01_01, 33000)]); [reflexivity|].
    unfold s', e, add_hb_store. destruct (String.eqb hb_type ""); reflexivity. }
  split; [|exact P]. rewrite calc_durations_agree, P. reflexivity.
Qed.

(** C2: for a non-empty stream [p :: es], nothing is appended after the
    loop.  The mapping is the one the loop built; the loop variables then
    describe a run ending at the last event; the mapping lists one
    duration per event that split from its predecessor, which is one less
    than the number of runs; and when one more event [e] is read, the run
    that was open is appended exactly if [e] splits from it. *)
Theorem C2_open_run_not_appended :
  forall (s s' : store) (timeout : Z) (p e : event) (es : list event),
    heartbeats s = p :: es ->
    heartbeats s' = heartbeats s ++ [e] ->
    let st := Package.dur_loop timeout (first_state p) es in
    let open_run := (Package.curr_hb_type st, Package.curr_start st,
                     Package.curr_end st - Package.curr_start st) in
    TopLevel.calc_durations s timeout = Package.durations st
    /\ Package.calc_durations s timeout = Returned (Package.durations st)
    /\ follows st (last es p)
    /\ dict_size (Package.durations st)
       = List.length (split_dates timeout p es)
    /\ TopLevel.calc_durations s' timeout
       = (if splits timeout (last es p) e
          then setdefault_append (Package.durations st)
                                 (Package.curr_date st) open_run
          else Package.durations st)
    /\ Package.calc_durations s' timeout
       = Returned (TopLevel.calc_durations s' timeout).
Proof.
  intros s s' timeout p e es Hs Hs' st open_run.
  assert (F0 : follows (first_state p) p) by (unfold follows; simpl; auto).
  assert (F : follows st (last es p)) by (apply follows_loop, F0).
  pose proof (calc_durations_Package_cons s timeout p es Hs) as P.
  pose proof (calc_durations_snoc s s' timeout p e es Hs Hs') as P'.
  split; [rewrite calc_durations_agree, P; reflexivity|].
  split; [exact P|].
  split; [exact F|].
  split; [unfold st; rewrite (dict_size_loop timeout es _ p F0); reflexivity|].
  split; rewrite calc_durations_agree, P'; reflexivity.
Qed.

Lemma C2_open_run_not_appended_witness :
  TopLevel.calc_durations scenario_A 900 = []
  /\ TopLevel.calc_durations
       (add_hb_store "" (mkdatetime d_2024_01_02 0 0 0) scenario_A) 900
     = [(d_2024_01_01, [("A"%string, 32400, 600)])].
Proof.
  destruct (C2_open_run_not_appended scenario_A
              (add_hb_store "" (mkdatetime d_2024_01_02 0 0 0) scenario_A)
              900 ("A"%string, d_2024_01_01, 32400)
              ("Other"%string, d_2024_01_02, 0)
              [("A"%string, d_2024_01_01, 33000)]
              eq_refl eq_refl) as (H1 & _ & _ & _ & H5 & _).
  split; [exact H1 | exact H5].
Defined.

(** C3: with a current run of category [c0] and date [d0], an event
    [(c, d, s)] continues the run exactly when [c = c0], [d = d0] and
    [s <= curr_end + timeout]; then only [curr_end] changes, to [s].
    Otherwise the run is appended under [d0] as
    [(c0, curr_start, curr_end - curr_start)] and a new run of [c], [d]
    starts at [s], with [curr_end] again [s].  Both copies agree. *)
Theorem C3_continue_or_close :
  forall (timeout : Z) (c0 : string) (d0 : date) (start stop : Z)
         (ds : durations_dict) (c : string) (d : date) (s : Z),
    let continues :=
      String.eqb c c0 && date_eqb d d0 && (s <=? stop + timeout) in
    let closed := setdefault_append ds d0 (c0, start, stop - start) in
    (continues = true <-> c = c0 /\ d = d0 /\ s <= stop + timeout)
    /\ (continues = false <-> c <> c0 \/ d <> d0 \/ s > stop + timeout)
    /\ TopLevel.dur_body timeout
         (TopLevel.mkdur (Some c0) (Some d0) start stop ds) (c, d, s)
       = (if continues
          then TopLevel.mkdur (Some c0) (Some d0) start s ds
          else TopLevel.mkdur (Some c) (Some d) s s closed)
    /\ Package.dur_body timeout (Package.mkdur c0 d0 start stop ds) (c, d, s)
       = (if continues
          then Package.mkdur c0 d0 start s ds
          else Package.mkdur c d s s closed).
Proof.
  intros timeout c0 d0 start stop ds c d s continues closed.
  assert (Hc : continues = true <-> c = c0 /\ d = d0 /\ s <= stop + timeout).
  { unfold continues.
    rewrite !andb_true_iff, String.eqb_eq, date_eqb_eq, Z.leb_le. tauto. }
  split; [exact Hc|]. split.
  - destruct continues.
    + split; [discriminate|]. intros H. destruct Hc as [Hc _].
      destruct (Hc eq_refl) as (? & ? & ?).
      destruct H as [H|[H|H]]; [congruence|congruence|lia].
    + split; [|reflexivity]. intros _.
      destruct (string_dec c c0) as [E1|E1]; [|auto].
      destruct (date_eqb d d0) eqn:E2;
        [apply date_eqb_eq in E2 | apply date_eqb_neq in E2; auto].
      destruct (Z_le_gt_dec s (stop + timeout)) as [E3|E3]; [|auto].
      destruct Hc as [_ Hc]. discriminate Hc. auto.
  - unfold TopLevel.dur_body, TopLevel.dur_breaks, Package.dur_body,
      Package.dur_breaks; simpl.
    replace (s >? stop + timeout) with (negb (s <=? stop + timeout))
      by (rewrite Z.gtb_ltb, Z.leb_antisym, negb_involutive; reflexivity).
    rewrite <- !negb_andb. fold continues.
    destruct continues; split; reflexivity.
Qed.

(** C5: raising the timeout never raises the number of durations listed
    under a date.  (The proof uses neither the order of the stream nor
    the sign of the timeouts: see [count_for_antitone].) *)
Theorem C5_count_antitone_in_timeout :
  forall (s : store) (d : date) (t1 t2 : Z),
    chronological (heartbeats s) = true ->
    0 < t1 -> t1 < t2 ->
    (count_for (TopLevel.calc_durations s t2) d
     <= count_for (TopLevel.calc_durations s t1) d)%nat
    /\ (count_for (attr (Package.calc_durations s t2)) d
        <= count_for (attr (Package.calc_durations s t1)) d)%nat.
Proof.
  intros s d t1 t2 _ _ Ht. rewrite !calc_durations_agree.
  split; apply count_for_antitone; lia.
Qed.

Lemma C5_count_antitone_in_timeout_witness :
  chronological (heartbeats scenario_A_next_day) = true
  /\ 0 < 300 < 900
  /\ (count_for (TopLevel.calc_durations scenario_A_next_day 900) d_2024_01_01
      <= count_for (TopLevel.calc_durations scenario_A_next_day 300)
                   d_2024_01_01)%nat.
Proof.
  split; [reflexivity|]. split; [lia|].
  apply (C5_count_antitone_in_timeout scenario_A_next_day d_2024_01_01 300 900);
    [reflexivity | lia | lia].
Defined.

(** C8, evaluated on the empty store: [calc_durations] of
    [src/heartbeats_data.py] returns with an empty mapping, while
    [calc_durations] of [src/HeartbeatsData/heartbeats_data.py] sets the
    empty mapping and then raises [StopIteration] at [next(heartbeats)]. *)
Theorem C8_empty_store :
  forall timeout : Z,
    heartbeats empty_store = []
    /\ TopLevel.calc_durations empty_store timeout = []
    /\ Package.calc_durations empty_store timeout = Raised StopIteration [].
Proof. intros timeout. repeat split. Qed.

(** C9: on a non-empty stream the two copies of [calc_durations] leave
    the same mapping (same keys in the same order, same lists), the
    packaged one returning normally; on a one-event stream that mapping is
    empty. *)
Theorem C9_copies_agree :
  forall (s : store) (timeout : Z),
    heartbeats s <> [] ->
    Package.calc_durations s timeout
    = Returned (TopLevel.calc_durations s timeout)
    /\ (List.length (heartbeats s) = 1%nat ->
        TopLevel.calc_durations s timeout = []).
Proof.
  intros s timeout Hne.
  unfold Package.calc_durations, TopLevel.calc_durations.
  destruct (heartbeats s) as [|[[c d] t] es]; [congruence|].
  rewrite dur_loop_first. split; [reflexivity|].
  destruct es; [reflexivity | discriminate].
Qed.

Lemma C9_copies_agree_witness :
  heartbeats one_event_store <> []
  /\ Package.calc_durations one_event_store 900
     = Returned (TopLevel.calc_durations one_event_store 900)
  /\ TopLevel.calc_durations one_event_store 900 = [].
Proof.
  assert (Hne : heartbeats one_event_store <> []) by discriminate.
  destruct (C9_copies_agree one_event_store 900 Hne) as [H1 H2].
  split; [exact Hne|]. split; [exact H1|]. apply H2. reflexivity.
Defined.

(** ** Order of the durations listed under a date *)

Lemma pairwise_snoc {A : Type} (R : A -> A -> bool) (l : list A) (v : A) :
  pairwise R (l ++ [v]) = pairwise R l && forallb (fun x => R x v) l.
Proof.
  induction l as [|x l IH]; simpl; [reflexivity|].
  rewrite forallb_app, IH. simpl.
  destruct (forallb (R x) l), (R x v), (pairwise R l); reflexivity.
Qed.

Lemma pairwise_impl {A : Type} (R R' : A -> A -> bool) (P : A -> Prop)
  (l : list A) :
  (forall x y, P x -> R x y = true -> R' x y = true) ->
  Forall P l -> pairwise R l = true -> pairwise R' l = true.
Proof.
  intros HR. induction l as [|x l IH]; intros HP H; [reflexivity|].
  simpl in *. apply andb_true_iff in H as [H1 H2].
  inversion HP as [|? ? Px Pl]; subst.
  apply andb_true_iff. split; [|apply IH; assumption].
  rewrite forallb_forall in *. intros y Hy. apply HR; auto.
Qed.

Lemma event_leb_cases p e :
  event_leb p e = true ->
  date_leb (ev_date p) (ev_date e) = true
  /\ (ev_date e = ev_date p -> ev_secs p <= ev_secs e)
  /\ (ev_date e <> ev_date p -> date_ltb (ev_date p) (ev_date e) = true).
Proof.
  unfold event_leb. intros H. apply orb_true_iff in H as [H|H].
  - split; [apply date_ltb_leb, H|]. split; [|auto].
    intros E. rewrite E in H. exfalso.
    apply (date_ltb_not_leb _ _ H), date_leb_refl.
  - apply andb_true_iff in H as [H1 H2].
    apply date_eqb_eq in H1. apply Z.leb_le in H2.
    split; [rewrite H1; apply date_leb_refl|]. split; [auto|].
    intros N. congruence.
Qed.

Lemma dur_inv_body timeout st p e :
  follows st p -> event_leb p e = true -> dur_inv st ->
  dur_inv (Package.dur_body timeout st e).
Proof.
  intros (F1 & F2 & F3) Hle (I1 & I2 & I3).
  apply event_leb_cases in Hle as (Ld & Ls & Ln).
  rewrite <- F2 in Ld, Ls, Ln. rewrite <- F3 in Ls.
  destruct e as [[c d] s]. cbn [ev_date ev_secs fst snd] in Ld, Ls, Ln.
  unfold Package.dur_body.
  destruct (Package.dur_breaks timeout st (c, d, s)) eqn:B.
  - (* the run is closed and appended under its date *)
    unfold dur_inv; simpl.
    set (v := (Package.curr_hb_type st, Package.curr_start st,
               Package.curr_end st - Package.curr_start st)).
    assert (Hv : dur_stop v = Package.curr_end st)
      by (unfold dur_stop, dur_start, dur_length, v; simpl; lia).
    split; [lia|]. split.
    + intros k l. rewrite dict_get_setdefault_append.
      destruct (date_eqb (Package.curr_date st) k) eqn:Ek.
      * apply date_eqb_eq in Ek. subst k. intros H; injection H as <-.
        destruct (dict_get (Package.durations st) (Package.curr_date st))
          as [l0|] eqn:G.
        -- destruct (I2 _ _ G) as (A1 & A2 & _). specialize (I3 _ eq_refl).
           split; [|split; [|exact Ld]].
           ++ unfold end_to_start. rewrite pairwise_snoc.
              apply andb_true_iff. split; [exact A1|].
              apply forallb_forall. intros x Hx. apply Z.leb_le.
              rewrite Forall_forall in I3. apply (I3 x Hx).
           ++ apply Forall_app. split; [exact A2|].
              constructor; [|constructor].
              unfold dur_length, v; simpl; lia.
        -- split; [reflexivity|]. split; [|exact Ld].
           constructor; [|constructor]. unfold dur_length, v; simpl; lia.
      * intros G. destruct (I2 _ _ G) as (A1 & A2 & A3).
        split; [exact A1|]. split; [exact A2|].
        apply (date_leb_trans _ _ _ A3 Ld).
    + intros l. rewrite dict_get_setdefault_append.
      destruct (date_eqb (Package.curr_date st) d) eqn:Ed.
      * apply date_eqb_eq in Ed. specialize (Ls (eq_sym Ed)).
        intros H; injection H as <-.
        destruct (dict_get (Package.durations st) (Package.curr_date st))
          as [l0|] eqn:G.
        -- specialize (I3 _ eq_refl). apply Forall_app. split.
           ++ eapply Forall_impl; [|exact I3]. simpl. intros x Hx. lia.
           ++ constructor; [|constructor]. lia.
        -- constructor; [|constructor]. lia.
      * intros G. exfalso. apply date_eqb_neq in Ed.
        destruct (I2 _ _ G) as (_ & _ & A3).
        apply (date_ltb_not_leb _ _ (Ln (not_eq_sym Ed)) A3).
  - (* the run continues *)
    unfold Package.dur_breaks in B.
    apply orb_false_iff in B as [B _]. apply orb_false_iff in B as [_ B].
    apply negb_false_iff, date_eqb_eq in B. specialize (Ls B).
    unfold dur_inv; simpl. split; [lia|]. split; assumption.
Qed.

Lemma end_to_start_sorted l :
  Forall (fun x => 0 <= dur_length x) l ->
  end_to_start l = true -> starts_sorted l = true.
Proof.
  apply pairwise_impl. intros x y Hx H.
  apply Z.leb_le in H. apply Z.leb_le. unfold dur_stop in H. lia.
Qed.

Lemma adjacent_snoc {A : Type} (R : A -> A -> bool) (l : list A) (x v : A) :
  adjacent R ((l ++ [x]) ++ [v]) = adjacent R (l ++ [x]) && R x v.
Proof.
  induction l as [|y l IH].
  - simpl. rewrite andb_true_r. reflexivity.
  - change (((y :: l) ++ [x]) ++ [v]) with (y :: ((l ++ [x]) ++ [v])).
    change ((y :: l) ++ [x]) with (y :: (l ++ [x])).
    destruct (l ++ [x]) as [|z l'] eqn:E.
    + destruct l; discriminate E.
    + simpl app in *. cbn [adjacent] in *. rewrite IH.
      rewrite andb_assoc. reflexivity.
Qed.

Lemma gap_inv_body timeout st p e :
  follows st p -> event_leb p e = true -> dur_inv st -> gap_inv timeout st ->
  gap_inv timeout (Package.dur_body timeout st e).
Proof.
  intros (F1 & F2 & F3) Hle (I1 & I2 & I3) (G1 & G2).
  apply event_leb_cases in Hle as (Ld & Ls & Ln).
  rewrite <- F2 in Ld, Ls, Ln. rewrite <- F3 in Ls.
  destruct e as [[c d] s]. cbn [ev_date ev_secs fst snd] in Ld, Ls, Ln.
  unfold Package.dur_body.
  destruct (Package.dur_breaks timeout st (c, d, s)) eqn:B;
    [|split; assumption].
  unfold gap_inv; simpl.
  set (v := (Package.curr_hb_type st, Package.curr_start st,
             Package.curr_end st - Package.curr_start st)).
  assert (Hv : dur_stop v = Package.curr_end st)
    by (unfold dur_stop, dur_start, dur_length, v; simpl; lia).
  split.
  - intros k l. rewrite dict_get_setdefault_append.
    destruct (date_eqb (Package.curr_date st) k) eqn:Ek; [|apply G1].
    intros H; injection H as <-.
    destruct (dict_get (Package.durations st) (Package.curr_date st))
      as [l0|] eqn:G; [|reflexivity].
    destruct l0 as [|y l0]; [reflexivity|].
    assert (N : y :: l0 <> []) by discriminate.
    destruct (exists_last N) as (l1 & x & E). rewrite E in *.
    rewrite adjacent_snoc, (G1 _ _ G). simpl.
    unfold same_type_gap.
    destruct (String.eqb (dur_type x) (dur_type v)) eqn:T; [|reflexivity].
    apply String.eqb_eq in T. simpl.
    apply Z.ltb_lt. apply (G2 l1 x eq_refl). exact T.
  - intros l0 x. rewrite dict_get_setdefault_append.
    destruct (date_eqb (Package.curr_date st) d) eqn:Ed.
    + apply date_eqb_eq in Ed. intros H T.
      assert (x = v).
      { injection H as H.
        destruct (dict_get (Package.durations st) (Package.curr_date st)).
        - apply app_inj_tail in H as [_ H]. congruence.
        - destruct l0 as [|? [|? ?]]; simpl in H; congruence. }
      subst x. rewrite Hv. unfold dur_type, v in T; simpl in T.
      unfold Package.dur_breaks in B. rewrite <- T, <- Ed in B.
      rewrite String.eqb_refl, date_eqb_refl in B. simpl in B.
      apply Z.gtb_lt in B. lia.
    + intros G. exfalso. apply date_eqb_neq in Ed.
      destruct (I2 _ _ G) as (_ & _ & A3).
      apply (date_ltb_not_leb _ _ (Ln (not_eq_sym Ed)) A3).
Qed.

Lemma invs_loop timeout es : forall st p,
  follows st p -> chronological_from p es = true ->
  dur_inv st -> gap_inv timeout st ->
  dur_inv (Package.dur_loop timeout st es)
  /\ gap_inv timeout (Package.dur_loop timeout st es).
Proof.
  induction es as [|e es IH]; intros st p F C I G; [split; assumption|].
  simpl in C. apply andb_true_iff in C as [C1 C2].
  unfold Package.dur_loop in *; simpl fold_left.
  apply (IH _ e); [apply follows_body | exact C2 | |].
  - apply (dur_inv_body timeout st p e F C1 I).
  - apply (gap_inv_body timeout st p e F C1 I G).
Qed.

(** C4, as stated, fails: three events of different categories in one
    second form a non-empty chronological stream, and with timeout 900
    the list of 2024-01-01 holds ("A", 10, 0) and ("B", 10, 0), whose
    inclusive intervals both are [10, 10]. *)
Lemma C4_same_second_counterexample :
  heartbeats same_second_store <> []
  /\ chronological (heartbeats same_second_store) = true
  /\ 0 < 900
  /\ dict_get (TopLevel.calc_durations same_second_store 900) d_2024_01_01
     = Some [("A"%string, 10, 0); ("B"%string, 10, 0)]
  /\ dict_get (attr (Package.calc_durations same_second_store 900)) d_2024_01_01
     = Some [("A"%string, 10, 0); ("B"%string, 10, 0)]
  /\ no_overlap [("A"%string, 10, 0); ("B"%string, 10, 0)] = false.
Proof.
  split; [discriminate|]. split; [reflexivity|]. split; [lia|].
  split; [reflexivity|]. split; reflexivity.
Qed.

(** C4, amended: for a non-empty chronological stream and a timeout
    [t > 0], under every date of the output the start seconds are
    non-decreasing, every length is non-negative, and each duration stops
    no later than every later one starts, so that two inclusive intervals
    [start, start+length] have at most that boundary second in common;
    neighbours of the same category are more than [t] seconds apart. *)
Theorem C4_sorted_end_to_start :
  forall (s : store) (timeout : Z) (d : date) (l : list duration),
    heartbeats s <> [] ->
    chronological (heartbeats s) = true ->
    0 < timeout ->
    dict_get (TopLevel.calc_durations s timeout) d = Some l
    \/ dict_get (attr (Package.calc_durations s timeout)) d = Some l ->
    starts_sorted l = true
    /\ end_to_start l = true
    /\ Forall (fun x => 0 <= dur_length x) l
    /\ adjacent (same_type_gap timeout) l = true.
Proof.
  intros s timeout d l Hne Hc _ H.
  assert (G : dict_get (attr (Package.calc_durations s timeout)) d = Some l).
  { destruct H as [H|H]; [|exact H].
    rewrite <- calc_durations_agree. exact H. }
  clear H.
  unfold Package.calc_durations in G.
  destruct (heartbeats s) as [|[[c0 d0] s0] es]; [congruence|].
  simpl in Hc, G.
  destruct (invs_loop timeout es (Package.mkdur c0 d0 s0 s0 []) (c0, d0, s0))
    as [(_ & I2 & _) (G1 & _)].
  - unfold follows; simpl; auto.
  - exact Hc.
  - unfold dur_inv; simpl. split; [lia|]. split; intros; discriminate.
  - unfold gap_inv; simpl. split; intros; discriminate.
  - destruct (I2 _ _ G) as (A1 & A2 & _).
    split; [apply end_to_start_sorted; assumption|].
    split; [assumption|]. split; [assumption|]. apply (G1 _ _ G).
Qed.

Lemma C4_sorted_end_to_start_witness :
  heartbeats three_runs_store <> []
  /\ chronological (heartbeats three_runs_store) = true
  /\ 0 < 300
  /\ dict_get (TopLevel.calc_durations three_runs_store 300) d_2024_01_01
     = Some [("A"%string, 32400, 0); ("A"%string, 33000, 0);
             ("B"%string, 33000, 0)]
  /\ starts_sorted [("A"%string, 32400, 0); ("A"%string, 33000, 0);
                    ("B"%string, 33000, 0)] = true
  /\ end_to_start [("A"%string, 32400, 0); ("A"%string, 33000, 0);
                   ("B"%string, 33000, 0)] = true
  /\ adjacent (same_type_gap 300)
              [("A"%string, 32400, 0); ("A"%string, 33000, 0);
               ("B"%string, 33000, 0)] = true.
Proof.
  assert (Hne : heartbeats three_runs_store <> []) by discriminate.
  destruct (C4_sorted_end_to_start three_runs_store 300 d_2024_01_01
              [("A"%string, 32400, 0); ("A"%string, 33000, 0);
               ("B"%string, 33000, 0)] Hne eq_refl eq_refl
              (or_introl eq_refl)) as (H1 & H2 & _ & H4).
  split; [exact Hne|]. split; [reflexivity|]. split; [reflexivity|].
  split; [reflexivity|]. split; [exact H1|]. split; [exact H2 | exact H4].
Defined.

(** ** The occupancy matrix *)

Lemma map_from_ext {A : Type} (f g : Z -> A -> A) (l : list A) : forall i,
  (forall j x, i <= j < i + Z.of_nat (List.length l) -> f j x = g j x) ->
  map_from f i l = map_from g i l.
Proof.
  induction l as [|x l IH]; intros i H; simpl; [reflexivity|].
  rewrite H by (simpl List.length; lia). f_equal.
  apply IH. intros j y Hj. apply H. simpl List.length. lia.
Qed.

Lemma map_from_id {A : Type} (l : list A) : forall i,
  map_from (fun _ x => x) i l = l.
Proof.
  induction l as [|x l IH]; intros i; simpl; [reflexivity|].
  rewrite IH. reflexivity.
Qed.

Lemma map_from_length {A : Type} (f : Z -> A -> A) (l : list A) : forall i,
  List.length (map_from f i l) = List.length l.
Proof.
  induction l as [|x l IH]; intros i; simpl; [reflexivity|].
  rewrite IH. reflexivity.
Qed.

Lemma nth_error_map_from {A : Type} (f : Z -> A -> A) (l : list A) :
  forall i k,
    nth_error (map_from f i l) k
    = option_map (f (i + Z.of_nat k)) (nth_error l k).
Proof.
  induction l as [|x l IH]; intros i [|k]; simpl; try reflexivity.
  - rewrite Z.add_0_r. reflexivity.
  - rewrite IH. do 2 f_equal. lia.
Qed.

(** A slice that starts at or after the end of the axis selects nothing. *)
Lemma row_slice_incr_beyond incr start stop row :
  Z.of_nat (List.length row) <= start ->
  row_slice_incr incr start stop row = row.
Proof.
  intros H. unfold row_slice_incr.
  rewrite <- (map_from_id row 0) at 2. apply map_from_ext.
  intros j x Hj. unfold slice_bound at 1.
  destruct (start <? 0) eqn:E; [apply Z.ltb_lt in E; lia|].
  replace (Z.min start (Z.of_nat (List.length row)) <=? j) with false;
    [reflexivity|].
  symmetry. apply Z.leb_gt. lia.
Qed.

Lemma slice_incr_beyond incr m r start stop cols :
  shaped cols m -> cols <= start -> slice_incr incr m r start stop = m.
Proof.
  intros Hm H. unfold slice_incr.
  rewrite <- (map_from_id m 0) at 2. revert Hm. generalize 0.
  induction m as [|row m IH]; intros i Hm; simpl; [reflexivity|].
  inversion Hm as [|? ? Hrow Hm']; subst.
  rewrite (IH (i + 1) Hm'), map_from_id.
  destruct (i =? r); [|reflexivity].
  rewrite row_slice_incr_beyond by lia. reflexivity.
Qed.

Lemma zeros_shaped rows cols : 0 <= cols -> shaped cols (zeros rows cols).
Proof.
  intros H. unfold shaped, zeros. apply Forall_forall. intros row Hrow.
  apply repeat_spec in Hrow. subst row. rewrite repeat_length. lia.
Qed.

Lemma row_sum_repeat_0 n : row_sum (repeat 0 n) = 0.
Proof. induction n; simpl; [reflexivity | exact IHn]. Qed.

Lemma matrix_sum_zeros rows cols : matrix_sum (zeros rows cols) = 0.
Proof.
  unfold matrix_sum, zeros. induction (Z.to_nat rows); simpl; [reflexivity|].
  rewrite row_sum_repeat_0. assumption.
Qed.

Lemma cell_zeros_beyond rows cols r j :
  0 <= cols <= j -> cell (zeros rows cols) r j = None.
Proof.
  intros H. unfold cell.
  destruct ((r <? 0) || (j <? 0)); [reflexivity|].
  destruct (nth_error (zeros rows cols) (Z.to_nat r)) as [row|] eqn:E;
    [|reflexivity].
  apply nth_error_In, repeat_spec in E. subst row.
  apply nth_error_None. rewrite repeat_length. lia.
Qed.

Lemma cell_zeros rows cols r j :
  0 <= r < rows -> 0 <= j < cols -> cell (zeros rows cols) r j = Some 0.
Proof.
  intros Hr Hj. unfold cell, zeros.
  replace ((r <? 0) || (j <? 0)) with false
    by (symmetry; apply orb_false_iff; split; apply Z.ltb_ge; lia).
  rewrite nth_error_repeat by lia. apply nth_error_repeat. lia.
Qed.

Lemma cnt_loop_TopLevel timeout es : forall d0 start stop m,
  TopLevel.duration_counts
    (TopLevel.cnt_loop timeout (TopLevel.mkcnt (Some d0) start stop m) es)
  = apply_runs Z.succ m (closed_runs timeout d0 start stop es).
Proof.
  induction es as [|[[c d] s] es IH]; intros d0 start stop m; [reflexivity|].
  unfold TopLevel.cnt_loop in *. simpl fold_left.
  unfold TopLevel.cnt_body, TopLevel.cnt_breaks. simpl.
  destruct (negb (date_eqb d d0) || (s >? stop + timeout)); apply IH.
Qed.

Lemma cnt_loop_Package timeout es : forall d0 start stop m,
  Package.duration_counts
    (Package.cnt_loop timeout (Package.mkcnt d0 start stop m) es)
  = apply_runs Package.int16_incr m (closed_runs timeout d0 start stop es).
Proof.
  induction es as [|[[c d] s] es IH]; intros d0 start stop m; [reflexivity|].
  unfold Package.cnt_loop in *. simpl fold_left.
  unfold Package.cnt_body, Package.cnt_breaks. simpl.
  destruct (negb (date_eqb d d0) || (s >? stop + timeout)); apply IH.
Qed.

Lemma calc_duration_counts_TopLevel s timeout c d t es :
  heartbeats s = (c, d, t) :: es ->
  TopLevel.calc_duration_counts s timeout
  = apply_runs Z.succ (zeros _DAYS_IN_WEEK (_SECS_IN_DAY - 1))
               (closed_runs timeout d t t es).
Proof.
  intros H. unfold TopLevel.calc_duration_counts. rewrite H.
  rewrite <- cnt_loop_TopLevel. reflexivity.
Qed.

Lemma calc_duration_counts_Package s timeout c d t es :
  heartbeats s = (c, d, t) :: es ->
  Package.calc_duration_counts s timeout
  = Returned (apply_runs Package.int16_incr
                (zeros _DAYS_IN_WEEK (_SECS_IN_DAY - 1))
                (closed_runs timeout d t t es)).
Proof.
  intros H. unfold Package.calc_duration_counts. rewrite H.
  rewrite <- cnt_loop_Package. reflexivity.
Qed.

Lemma heartbeats_last_second_store :
  heartbeats last_second_store
  = [("A"%string, d_2024_01_01, 86399); ("A"%string, d_2024_01_02, 0)].
Proof. reflexivity. Qed.

Lemma last_second_run_leaves_zeros incr :
  apply_runs incr (zeros _DAYS_IN_WEEK (_SECS_IN_DAY - 1))
             [(d_2024_01_01, 86399, 86399)]
  = zeros _DAYS_IN_WEEK (_SECS_IN_DAY - 1).
Proof.
  unfold apply_runs. simpl fold_left.
  apply (slice_incr_beyond incr _ _ _ _ (_SECS_IN_DAY - 1)).
  - apply zeros_shaped. unfold _SECS_IN_DAY, _SECS_IN_HOUR, _MINS_IN_HOUR,
      _SECS_IN_MIN, _HOURS_IN_DAY. lia.
  - unfold _SECS_IN_DAY, _SECS_IN_HOUR, _MINS_IN_HOUR, _SECS_IN_MIN,
      _HOURS_IN_DAY. lia.
Qed.

(** What the closing statement does to the cells that exist: for a run
    with [0 <= start] and [-1 <= stop], the cells of row [r] at seconds
    [start..stop] are incremented and every other cell is left alone. *)
Lemma cell_slice_incr incr m r start stop i j :
  0 <= start -> -1 <= stop ->
  cell (slice_incr incr m r start (stop + 1)) i j
  = option_map
      (fun x => if (i =? r) && (start <=? j) && (j <=? stop) then incr x else x)
      (cell m i j).
Proof.
  intros Ha Hb. unfold cell, slice_incr.
  destruct (i <? 0) eqn:Ei; [reflexivity|].
  destruct (j <? 0) eqn:Ej; [reflexivity|]. simpl orb.
  apply Z.ltb_ge in Ei, Ej.
  rewrite nth_error_map_from, Z.add_0_l, Z2Nat.id by assumption.
  destruct (nth_error m (Z.to_nat i)) as [row|]; [|reflexivity]. simpl.
  destruct (i =? r); simpl.
  - unfold row_slice_incr.
    rewrite nth_error_map_from, Z.add_0_l, Z2Nat.id by assumption.
    destruct (nth_error row (Z.to_nat j)) as [x|] eqn:Ex; [|reflexivity].
    simpl. f_equal.
    assert (Hj : j < Z.of_nat (List.length row)).
    { assert (Z.to_nat j < List.length row)%nat
        by (apply nth_error_Some; congruence). lia. }
    unfold slice_bound.
    destruct (start <? 0) eqn:E1; [apply Z.ltb_lt in E1; lia|].
    destruct (stop + 1 <? 0) eqn:E2; [apply Z.ltb_lt in E2; lia|].
    replace (Z.min start (Z.of_nat (List.length row)) <=? j)
      with (start <=? j)
      by (destruct (start <=? j) eqn:E; symmetry;
          [apply Z.leb_le in E; apply Z.leb_le
          |apply Z.leb_gt in E; apply Z.leb_gt]; lia).
    replace (j <? Z.min (stop + 1) (Z.of_nat (List.length row)))
      with (j <=? stop)
      by (destruct (j <=? stop) eqn:E; symmetry;
          [apply Z.leb_le in E; apply Z.ltb_lt
          |apply Z.leb_gt in E; apply Z.ltb_ge]; lia).
    reflexivity.
  - destruct (nth_error row (Z.to_nat j)); reflexivity.
Qed.

(** C6, evaluated where it fails: the stream (A, 2024-01-01 23:59:59),
    (A, 2024-01-02 00:00:00) is chronological and every second of it lies
    in [0, 86399].  With timeout 900 the counting loop closes the one run
    (2024-01-01, 86399, 86399), of inclusive length 1, but the matrix has
    columns 0..86398 only: the slice [86399:86400] selects no cell and
    the sum of all cells stays 0, in both copies. *)
Theorem C6_last_second_not_counted :
  chronological (heartbeats last_second_store) = true
  /\ Forall (fun e => 0 <= ev_secs e <= 86399) (heartbeats last_second_store)
  /\ closed_runs 900 d_2024_01_01 86399 86399 [("A"%string, d_2024_01_02, 0)]
     = [(d_2024_01_01, 86399, 86399)]
  /\ total_inclusive_length [(d_2024_01_01, 86399, 86399)] = 1
  /\ TopLevel.calc_duration_counts last_second_store 900
     = zeros _DAYS_IN_WEEK (_SECS_IN_DAY - 1)
  /\ Package.calc_duration_counts last_second_store 900
     = Returned (zeros _DAYS_IN_WEEK (_SECS_IN_DAY - 1))
  /\ matrix_sum (TopLevel.calc_duration_counts last_second_store 900) = 0
  /\ matrix_sum (attr (Package.calc_duration_counts last_second_store 900)) = 0.
Proof.
  assert (T : TopLevel.calc_duration_counts last_second_store 900
              = zeros _DAYS_IN_WEEK (_SECS_IN_DAY - 1)).
  { rewrite (calc_duration_counts_TopLevel _ 900 _ _ _ _
               heartbeats_last_second_store).
    exact (last_second_run_leaves_zeros _). }
  assert (P : Package.calc_duration_counts last_second_store 900
              = Returned (zeros _DAYS_IN_WEEK (_SECS_IN_DAY - 1))).
  { rewrite (calc_duration_counts_Package _ 900 _ _ _ _
               heartbeats_last_second_store).
    apply f_equal. exact (last_second_run_leaves_zeros Package.int16_incr). }
  split; [reflexivity|].
  split; [rewrite heartbeats_last_second_store;
          repeat constructor; simpl; lia|].
  split; [reflexivity|]. split; [reflexivity|].
  split; [exact T|]. split; [exact P|].
  rewrite T, P. simpl attr. split; apply matrix_sum_zeros.
Qed.



(** ** What the matrix does count

    Away from the last second of the day the float matrix of
    [src/heartbeats_data.py] satisfies the cell-sum property. *)

Lemma row_sum_map_from_incr a b l : forall i,
  row_sum (map_from (fun j x => if (a <=? j) && (j <? b) then Z.succ x else x)
                    i l)
  = row_sum l + Z.max 0 (Z.min b (i + Z.of_nat (List.length l)) - Z.max a i).
Proof.
  induction l as [|x l IH]; intros i.
  - simpl. lia.
  - cbn [map_from row_sum fold_right List.length].
    fold (row_sum l).
    fold (row_sum (map_from
                     (fun j x => if (a <=? j) && (j <? b) then Z.succ x else x)
                     (i + 1) l)).
    rewrite IH.
    destruct (a <=? i) eqn:E1; destruct (i <? b) eqn:E2; cbn [andb]; cbv iota;
      try apply Z.leb_le in E1; try apply Z.leb_gt in E1;
      try apply Z.ltb_lt in E2; try apply Z.ltb_ge in E2; lia.
Qed.

Lemma row_sum_slice_incr start stop row :
  0 <= start <= stop -> stop <= Z.of_nat (List.length row) ->
  row_sum (row_slice_incr Z.succ start stop row)
  = row_sum row + (stop - start).
Proof.
  intros H1 H2. unfold row_slice_incr, slice_bound.
  destruct (start <? 0) eqn:E1; [apply Z.ltb_lt in E1; lia|].
  destruct (stop <? 0) eqn:E2; [apply Z.ltb_lt in E2; lia|].
  rewrite row_sum_map_from_incr. lia.
Qed.

Lemma matrix_sum_map_from_slice cols r start stop m : forall i,
  shaped cols m -> 0 <= start <= stop -> stop <= cols ->
  matrix_sum (map_from (fun i row => if i =? r
                                     then row_slice_incr Z.succ start stop row
                                     else row) i m)
  = matrix_sum m
    + (if (i <=? r) && (r <? i + Z.of_nat (List.length m))
       then stop - start else 0).
Proof.
  induction m as [|row m IH]; intros i Hm H1 H2.
  - simpl. destruct (i <=? r) eqn:E1; destruct (r <? i + 0) eqn:E2; simpl;
      try reflexivity.
    apply Z.leb_le in E1. apply Z.ltb_lt in E2. lia.
  - inversion Hm as [|? ? Hrow Hm']; subst.
    unfold matrix_sum in *. cbn [map_from map fold_right List.length].
    rewrite (IH (i + 1) Hm' H1 H2).
    destruct (i =? r) eqn:E.
    + apply Z.eqb_eq in E. subst r.
      rewrite row_sum_slice_incr by lia.
      replace ((i + 1 <=? i) && (i <? i + 1 + Z.of_nat (List.length m)))
        with false by (symmetry; apply andb_false_iff; left;
                       apply Z.leb_gt; lia).
      replace ((i <=? i) && (i <? i + Z.of_nat (S (List.length m))))
        with true by (symmetry; apply andb_true_iff; split;
                      [apply Z.leb_le | apply Z.ltb_lt]; lia).
      lia.
    + apply Z.eqb_neq in E.
      replace ((i + 1 <=? r) && (r <? i + 1 + Z.of_nat (List.length m)))
        with ((i <=? r) && (r <? i + Z.of_nat (S (List.length m)))); [lia|].
      destruct (i <=? r) eqn:E1; destruct (i + 1 <=? r) eqn:E2;
        destruct (r <? i + Z.of_nat (S (List.length m))) eqn:E3;
        destruct (r <? i + 1 + Z.of_nat (List.length m)) eqn:E4;
        try reflexivity;
        try apply Z.leb_le in E1; try apply Z.leb_gt in E1;
        try apply Z.leb_le in E2; try apply Z.leb_gt in E2;
        try apply Z.ltb_lt in E3; try apply Z.ltb_ge in E3;
        try apply Z.ltb_lt in E4; try apply Z.ltb_ge in E4; lia.
Qed.

Lemma matrix_sum_slice_incr cols m r start stop :
  shaped cols m -> 0 <= r < Z.of_nat (List.length m) ->
  0 <= start <= stop -> stop <= cols ->
  matrix_sum (slice_incr Z.succ m r start stop)
  = matrix_sum m + (stop - start).
Proof.
  intros Hm Hr H1 H2. unfold slice_incr.
  rewrite (matrix_sum_map_from_slice cols r start stop m 0 Hm H1 H2).
  replace ((0 <=? r) && (r <? 0 + Z.of_nat (List.length m))) with true;
    [reflexivity|].
  symmetry. apply andb_true_iff. split; [apply Z.leb_le | apply Z.ltb_lt]; lia.
Qed.

Lemma slice_incr_shaped incr cols m r start stop :
  shaped cols m -> shaped cols (slice_incr incr m r start stop).
Proof.
  unfold slice_incr, shaped. generalize 0.
  induction m as [|row m IH]; intros i Hm; simpl; [constructor|].
  inversion Hm as [|? ? Hrow Hm']; subst. constructor; [|apply IH, Hm'].
  destruct (i =? r); [|reflexivity].
  unfold row_slice_incr. rewrite map_from_length. reflexivity.
Qed.

Lemma slice_incr_length incr m r start stop :
  List.length (slice_incr incr m r start stop) = List.length m.
Proof. apply map_from_length. Qed.

Lemma closed_runs_within timeout hi es : forall c0 d0 start stop,
  0 <= start <= stop -> stop <= hi ->
  chronological_from (c0, d0, stop) es = true ->
  Forall (fun e => 0 <= ev_secs e <= hi) es ->
  Forall (run_within hi) (closed_runs timeout d0 start stop es).
Proof.
  induction es as [|[[c d] s] es IH]; intros c0 d0 start stop H1 H2 C B;
    [constructor|].
  simpl in C. apply andb_true_iff in C as [C1 C2].
  inversion B as [|? ? Bs Bes]; subst. unfold ev_secs in Bs; simpl in Bs.
  simpl closed_runs.
  destruct (negb (date_eqb d d0) || (s >? stop + timeout)) eqn:E.
  - constructor; [unfold run_within; lia|].
    apply (IH c d s s); auto; lia.
  - apply orb_false_iff in E as [E _].
    apply negb_false_iff, date_eqb_eq in E.
    apply event_leb_cases in C1 as (_ & Ls & _).
    specialize (Ls E). unfold ev_secs in Ls; simpl in Ls.
    apply (IH c d0 start s); auto; try lia.
    subst d. exact C2.
Qed.

Lemma matrix_sum_apply_runs cols rs : forall m,
  shaped cols m -> List.length m = 7%nat ->
  Forall (run_within (cols - 1)) rs ->
  matrix_sum (apply_runs Z.succ m rs) = matrix_sum m + total_inclusive_length rs.
Proof.
  unfold apply_runs, total_inclusive_length.
  induction rs as [|[[d a] b] rs IH]; intros m Hm Hl Hr; simpl; [lia|].
  inversion Hr as [|? ? R Hrs]; subst. destruct R as [R1 R2].
  pose proof (weekday_range d) as W. unfold _DAYS_IN_WEEK in W.
  rewrite IH.
  - rewrite (matrix_sum_slice_incr cols) by (auto; lia).
    unfold inclusive_length. lia.
  - apply slice_incr_shaped, Hm.
  - rewrite slice_incr_length. exact Hl.
  - exact Hrs.
Qed.

(** On a chronological stream whose seconds all lie in [0, 86398], the
    sum of all cells is the sum of the inclusive lengths of the closed
    runs. *)
Lemma occupancy_sum_below_last_second s timeout :
  chronological (heartbeats s) = true ->
  Forall (fun e => 0 <= ev_secs e <= 86398) (heartbeats s) ->
  matrix_sum (TopLevel.calc_duration_counts s timeout)
  = total_inclusive_length
      match heartbeats s with
      | [] => []
      | (_, d, t) :: es => closed_runs timeout d t t es
      end.
Proof.
  intros C B. destruct (heartbeats s) as [|[[c d] t] es] eqn:H.
  - unfold TopLevel.calc_duration_counts. rewrite H. simpl.
    apply matrix_sum_zeros.
  - rewrite (calc_duration_counts_TopLevel s timeout c d t es H).
    inversion B as [|? ? Bt Bes]; subst. unfold ev_secs in Bt; simpl in Bt.
    rewrite (matrix_sum_apply_runs (_SECS_IN_DAY - 1)).
    + rewrite matrix_sum_zeros. lia.
    + apply zeros_shaped. unfold _SECS_IN_DAY, _SECS_IN_HOUR, _MINS_IN_HOUR,
        _SECS_IN_MIN, _HOURS_IN_DAY. lia.
    + unfold zeros. rewrite repeat_length. reflexivity.
    + apply (closed_runs_within timeout _ es c d t t); auto;
        unfold _SECS_IN_DAY, _SECS_IN_HOUR, _MINS_IN_HOUR,
          _SECS_IN_MIN, _HOURS_IN_DAY; lia.
Qed.

(** ** More on [add_hb] *)

Lemma add_hb_store_aligned hb_type timestamp s :
  aligned s -> aligned (add_hb_store hb_type timestamp s).
Proof.
  intros [H1 H2]. unfold aligned, add_hb_store.
  destruct (String.eqb hb_type ""); simpl; rewrite !length_app; simpl; lia.
Qed.

Lemma add_hbs_aligned calls : forall s, aligned s -> aligned (add_hbs calls s).
Proof.
  induction calls as [|c calls IH]; intros s H; [exact H|].
  apply IH, add_hb_store_aligned, H.
Qed.

Lemma heartbeats_add_hbs calls : forall s,
  aligned s ->
  heartbeats (add_hbs calls s)
  = heartbeats s ++ map (fun c => recorded (fst c) (snd c)) calls.
Proof.
  induction calls as [|c calls IH]; intros s H; simpl.
  - rewrite app_nil_r. reflexivity.
  - rewrite (IH _ (add_hb_store_aligned (fst c) (snd c) s H)).
    destruct H as [H1 H2].
    rewrite (heartbeats_add_hb_store _ _ s H1 H2), <- app_assoc. reflexivity.
Qed.

(** X1: whatever the calls, [add_hb] keeps the three lists at one length,
    so [zip] drops nothing: after any sequence of calls on the empty
    store the stream read by the two computations is the sequence of
    recorded events, one per call, in call order. *)
Theorem X1_stream_is_the_calls :
  forall calls : list (string * datetime),
    aligned (add_hbs calls empty_store)
    /\ heartbeats (add_hbs calls empty_store)
       = map (fun c => recorded (fst c) (snd c)) calls.
Proof.
  intros calls.
  assert (A : aligned empty_store) by (split; reflexivity).
  split; [apply add_hbs_aligned, A|].
  rewrite (heartbeats_add_hbs calls empty_store A). reflexivity.
Qed.

(** X2: for a timestamp whose fields are in the ranges of [datetime], the
    second recorded by [add_hb] lies in 0..86399 (so 86399, one past the
    last column 86398 of the matrix, is reached at 23:59:59), and hour,
    minute and second are recovered from it by division. *)
Theorem X2_seconds_in_day :
  forall t : datetime,
    valid_time t ->
    let s := secs_since_midnight_of t in
    0 <= s <= _SECS_IN_DAY - 1
    /\ s / _SECS_IN_HOUR = hour t
    /\ (s mod _SECS_IN_HOUR) / _SECS_IN_MIN = minute t
    /\ s mod _SECS_IN_MIN = second t.
Proof.
  intros t (Hh & Hm & Hs) s. unfold s, secs_since_midnight_of, _SECS_IN_DAY,
    _SECS_IN_HOUR, _HOURS_IN_DAY, _MINS_IN_HOUR, _SECS_IN_MIN.
  change (60 * 60) with 3600. change (3600 * 24 - 1) with 86399.
  set (h := hour t) in *. set (m := minute t) in *. set (c := second t) in *.
  assert (E1 : (h * 3600 + m * 60 + c) / 3600 = h).
  { symmetry. apply (Z.div_unique_pos _ 3600 h (m * 60 + c)); lia. }
  assert (E2 : (h * 3600 + m * 60 + c) mod 3600 = m * 60 + c).
  { symmetry. apply (Z.mod_unique_pos _ 3600 h (m * 60 + c)); lia. }
  assert (E3 : (m * 60 + c) / 60 = m).
  { symmetry. apply (Z.div_unique_pos _ 60 m c); lia. }
  assert (E4 : (h * 3600 + m * 60 + c) mod 60 = c).
  { symmetry. apply (Z.mod_unique_pos _ 60 (h * 60 + m) c); lia. }
  rewrite E1, E2, E3, E4. repeat split; lia.
Qed.

Lemma X2_seconds_in_day_witness :
  valid_time (mkdatetime d_2024_01_01 23 59 59)
  /\ secs_since_midnight_of (mkdatetime d_2024_01_01 23 59 59) = 86399
  /\ 86399 / _SECS_IN_HOUR = 23.
Proof.
  assert (V : valid_time (mkdatetime d_2024_01_01 23 59 59))
    by (unfold valid_time; simpl; lia).
  destruct (X2_seconds_in_day _ V) as (_ & H & _).
  split; [exact V|]. split; [reflexivity | exact H].
Defined.

Lemma counter_get_incr c k k' :
  counter_get (counter_incr c k) k'
  = counter_get c k' + (if String.eqb k k' then 1 else 0).
Proof.
  induction c as [|[k0 n] c IH]; simpl.
  - destruct (String.eqb k k'); lia.
  - destruct (String.eqb k0 k) eqn:E0; simpl.
    + apply String.eqb_eq in E0. subst k0.
      destruct (String.eqb k k'); lia.
    + rewrite IH. destruct (String.eqb k0 k') eqn:E1; [|reflexivity].
      apply String.eqb_eq in E1. subst k'.
      rewrite String.eqb_sym, E0. lia.
Qed.

Lemma counter_incr_keys c k x :
  In x (map fst (counter_incr c k)) -> x = k \/ In x (map fst c).
Proof.
  induction c as [|[k0 n] c IH]; simpl.
  - intros [H|[]]; auto.
  - destruct (String.eqb k0 k); simpl; [tauto|].
    intros [H|H]; [tauto|]. apply IH in H. tauto.
Qed.

Lemma counter_incr_NoDup c k :
  NoDup (map fst c) -> NoDup (map fst (counter_incr c k)).
Proof.
  induction c as [|[k0 n] c IH]; intros H; simpl.
  - constructor; [intros []|constructor].
  - inversion H as [|? ? Hn Hc]; subst.
    destruct (String.eqb k0 k) eqn:E0; simpl; [exact H|].
    constructor; [|apply IH, Hc].
    intros Hin. apply counter_incr_keys in Hin as [Hin|Hin]; [|auto].
    subst k0. rewrite String.eqb_refl in E0. discriminate.
Qed.

Lemma counter_add_hbs calls : forall s k,
  counter_get (hb_type_counter (add_hbs calls s)) k
  = counter_get (hb_type_counter s) k
    + (if String.eqb k "" then 0 else Z.of_nat (calls_with k calls)).
Proof.
  unfold calls_with.
  induction calls as [|[h t] calls IH]; intros s k; simpl.
  - destruct (String.eqb k ""); lia.
  - rewrite IH. unfold add_hb_store.
    destruct (String.eqb h "") eqn:Eh; simpl.
    + apply String.eqb_eq in Eh. subst h.
      destruct (String.eqb k "") eqn:Ek; [lia|].
      rewrite String.eqb_sym, Ek. lia.
    + rewrite counter_get_incr.
      destruct (String.eqb h k) eqn:Ehk.
      * apply String.eqb_eq in Ehk. subst k. rewrite Eh. simpl List.length. lia.
      * destruct (String.eqb k ""); lia.
Qed.

Lemma counter_add_hbs_NoDup calls : forall s,
  NoDup (map fst (hb_type_counter s)) ->
  NoDup (map fst (hb_type_counter (add_hbs calls s))).
Proof.
  induction calls as [|[h t] calls IH]; intros s H; [exact H|].
  simpl. apply IH. unfold add_hb_store.
  destruct (String.eqb h ""); simpl; [exact H|].
  apply counter_incr_NoDup, H.
Qed.

(** X3: after any sequence of [add_hb] calls on the empty store the
    counter holds, for every non-empty category, the number of calls made
    with it; calls with the empty category are recorded as "Other" in
    [hb_types] but counted nowhere, so the count of "Other" is the number
    of calls that passed "Other" literally; no key is listed twice. *)
Theorem X3_counter_counts_calls :
  forall (calls : list (string * datetime)) (k : string),
    let c := hb_type_counter (add_hbs calls empty_store) in
    counter_get c k
    = (if String.eqb k "" then 0 else Z.of_nat (calls_with k calls))
    /\ NoDup (map fst c).
Proof.
  intros calls k c. unfold c. split.
  - rewrite counter_add_hbs. reflexivity.
  - apply counter_add_hbs_NoDup. constructor.
Qed.

(** ** More on [calc_durations] *)

Lemma memb_inv_body (P : event -> Prop) timeout st e :
  P e -> memb_inv P st -> memb_inv P (Package.dur_body timeout st e).
Proof.
  intros Pe (M1 & M2 & M3). destruct e as [[c d] s].
  unfold Package.dur_body.
  destruct (Package.dur_breaks timeout st (c, d, s)) eqn:B.
  - unfold memb_inv; simpl. split; [exact Pe|]. split; [exact Pe|].
    intros k l x. rewrite dict_get_setdefault_append.
    destruct (date_eqb (Package.curr_date st) k) eqn:Ek; [|apply M3].
    apply date_eqb_eq in Ek. subst k. intros H Hx. injection H as <-.
    assert (V : ends_at P (Package.curr_date st)
                  (Package.curr_hb_type st, Package.curr_start st,
                   Package.curr_end st - Package.curr_start st)).
    { unfold ends_at, dur_stop, dur_start, dur_length, dur_type; simpl.
      replace (Package.curr_start st
               + (Package.curr_end st - Package.curr_start st))
        with (Package.curr_end st) by lia.
      split; assumption. }
    destruct (dict_get (Package.durations st) (Package.curr_date st))
      as [l0|] eqn:G.
    + apply in_app_or in Hx as [Hx|[<-|[]]]; [apply (M3 _ _ _ G Hx) | exact V].
    + destruct Hx as [<-|[]]. exact V.
  - unfold Package.dur_breaks in B.
    apply orb_false_iff in B as [B _]. apply orb_false_iff in B as [B1 B2].
    apply negb_false_iff in B1, B2.
    apply String.eqb_eq in B1. apply date_eqb_eq in B2. subst c d.
    unfold memb_inv; simpl. split; [exact M1|]. split; [exact Pe | exact M3].
Qed.

Lemma memb_inv_loop (P : event -> Prop) timeout es : forall st,
  Forall P es -> memb_inv P st -> memb_inv P (Package.dur_loop timeout st es).
Proof.
  induction es as [|e es IH]; intros st H M; [exact M|].
  inversion H as [|? ? He Hes]; subst.
  unfold Package.dur_loop in *; simpl fold_left.
  apply IH; [exact Hes|]. apply memb_inv_body; assumption.
Qed.

Lemma durations_ends_at s timeout d l x :
  dict_get (attr (Package.calc_durations s timeout)) d = Some l -> In x l ->
  ends_at (fun e => In e (heartbeats s)) d x.
Proof.
  unfold Package.calc_durations.
  destruct (heartbeats s) as [|[[c0 d0] s0] es] eqn:H; [discriminate|].
  simpl attr. intros G Hx.
  refine (proj2 (proj2 (memb_inv_loop (fun e => In e ((c0, d0, s0) :: es))
                          timeout es (Package.mkdur c0 d0 s0 s0 []) _ _))
            d l x G Hx).
  - apply Forall_forall. intros e He. right. exact He.
  - unfold memb_inv; simpl. split; [auto|]. split; [auto|].
    intros; discriminate.
Qed.

Lemma in_zip3 c d t : forall a b e,
  In (c, d, t) (zip3 a b e) -> In c a /\ In d b /\ In t e.
Proof.
  induction a as [|x a IH]; intros [|y b] [|z e]; simpl; try tauto.
  intros [H|H].
  - injection H as -> -> ->. auto.
  - apply IH in H. tauto.
Qed.

(** X4: every duration [(c, start, length)] that either copy of
    [calc_durations] lists under a date [d] begins and ends at
    heartbeats: the stream holds an event [(c, d, start)] and an event
    [(c, d, start + length)].  In particular [c] is one of [hb_types] and
    [d] one of [dates]. *)
Theorem X4_durations_span_heartbeats :
  forall (s : store) (timeout : Z) (d : date) (l : list duration)
         (x : duration),
    dict_get (TopLevel.calc_durations s timeout) d = Some l
    \/ dict_get (attr (Package.calc_durations s timeout)) d = Some l ->
    In x l ->
    In (dur_type x, d, dur_start x) (heartbeats s)
    /\ In (dur_type x, d, dur_start x + dur_length x) (heartbeats s)
    /\ In (dur_type x) (hb_types s)
    /\ In d (dates s).
Proof.
  intros s timeout d l x H Hx.
  assert (G : dict_get (attr (Package.calc_durations s timeout)) d = Some l).
  { destruct H as [H|H]; [|exact H].
    rewrite <- calc_durations_agree. exact H. }
  destruct (durations_ends_at s timeout d l x G Hx) as [E1 E2].
  split; [exact E1|]. split; [exact E2|].
  apply in_zip3 in E1. tauto.
Qed.

Lemma X4_durations_span_heartbeats_witness :
  In ("A"%string, d_2024_01_01, 32400) (heartbeats scenario_A_next_day)
  /\ In ("A"%string, d_2024_01_01, 33000) (heartbeats scenario_A_next_day).
Proof.
  destruct (X4_durations_span_heartbeats scenario_A_next_day 900 d_2024_01_01
              [("A"%string, 32400, 600)] ("A"%string, 32400, 600)
              (or_introl eq_refl) (or_introl eq_refl)) as (H1 & H2 & _).
  split; [exact H1 | exact H2].
Defined.

Lemma setdefault_append_keys m k v x :
  In x (map fst (setdefault_append m k v)) -> x = k \/ In x (map fst m).
Proof.
  induction m as [|[k0 l] m IH]; simpl.
  - intros [H|[]]; auto.
  - destruct (date_eqb k0 k); simpl; [tauto|].
    intros [H|H]; [tauto|]. apply IH in H. tauto.
Qed.

Lemma setdefault_append_well_formed m k v :
  well_formed_dict m -> well_formed_dict (setdefault_append m k v).
Proof.
  intros [N F]. induction m as [|[k0 l] m IH]; simpl.
  - split; [constructor; [intros []|constructor]|].
    constructor; [discriminate|constructor].
  - inversion N as [|? ? Hn Nm]; subst. inversion F as [|? ? Hl Fm]; subst.
    destruct (date_eqb k0 k) eqn:E; simpl.
    + split; [exact N|]. constructor; [|exact Fm].
      simpl. destruct l; discriminate.
    + destruct (IH Nm Fm) as [N' F']. split.
      * constructor; [|exact N']. intros Hin.
        apply setdefault_append_keys in Hin as [Hin|Hin]; [|auto].
        simpl in Hin. subst k0. rewrite date_eqb_refl in E. discriminate.
      * constructor; assumption.
Qed.

Lemma well_formed_body timeout st e :
  well_formed_dict (Package.durations st) ->
  well_formed_dict (Package.durations (Package.dur_body timeout st e)).
Proof.
  intros W. destruct e as [[c d] s]. unfold Package.dur_body.
  destruct (Package.dur_breaks timeout st (c, d, s)); simpl; [|exact W].
  apply setdefault_append_well_formed, W.
Qed.

Lemma well_formed_loop timeout es : forall st,
  well_formed_dict (Package.durations st) ->
  well_formed_dict (Package.durations (Package.dur_loop timeout st es)).
Proof.
  induction es as [|e es IH]; intros st W; [exact W|].
  unfold Package.dur_loop in *; simpl fold_left.
  apply IH, well_formed_body, W.
Qed.

Lemma dict_get_In m k l :
  NoDup (map fst m) -> (dict_get m k = Some l <-> In (k, l) m).
Proof.
  induction m as [|[k0 l0] m IH]; intros N; simpl.
  - split; [discriminate | intros []].
  - inversion N as [|? ? Hn Nm]; subst.
    destruct (date_eqb k0 k) eqn:E.
    + apply date_eqb_eq in E. subst k0. split.
      * intros H; injection H as <-. auto.
      * intros [H|H]; [congruence|]. exfalso. apply Hn.
        apply (in_map fst) in H. exact H.
    + rewrite (IH Nm). split; [auto|].
      intros [H|H]; [|exact H]. injection H as -> ->.
      rewrite date_eqb_refl in E. discriminate.
Qed.

(** X5: the association list left by either copy of [calc_durations] is
    a dict: no date is a key twice, so lookup by date and membership of
    the pair coincide; and no key holds an empty list, a date being
    entered only together with its first duration. *)
Theorem X5_durations_is_a_dict :
  forall (s : store) (timeout : Z),
    let m := TopLevel.calc_durations s timeout in
    m = attr (Package.calc_durations s timeout)
    /\ NoDup (map fst m)
    /\ Forall (fun kv => snd kv <> []) m
    /\ forall d l, dict_get m d = Some l <-> In (d, l) m.
Proof.
  intros s timeout m.
  assert (W : well_formed_dict m).
  { unfold m. rewrite calc_durations_agree. unfold Package.calc_durations.
    destruct (heartbeats s) as [|[[c0 d0] s0] es].
    - split; constructor.
    - apply well_formed_loop. split; constructor. }
  split; [apply calc_durations_agree|].
  destruct W as [N F]. split; [exact N|]. split; [exact F|].
  intros d l. apply dict_get_In, N.
Qed.

Lemma closed_runs_le_splits timeout es : forall c0 d0 start stop,
  (List.length (closed_runs timeout d0 start stop es)
   <= List.length (split_dates timeout (c0, d0, stop) es))%nat.
Proof.
  induction es as [|[[c d] s] es IH]; intros c0 d0 start stop; [simpl; lia|].
  cbn [closed_runs split_dates].
  destruct (negb (date_eqb d d0) || (s >? stop + timeout)) eqn:C.
  - assert (Sp : splits timeout (c0, d0, stop) (c, d, s) = true).
    { unfold splits. cbn [ev_type ev_date ev_secs fst snd].
      rewrite <- orb_assoc, C. apply orb_true_r. }
    rewrite Sp. simpl. specialize (IH c d s s). lia.
  - apply orb_false_iff in C as [C _].
    apply negb_false_iff, date_eqb_eq in C. subst d.
    rewrite length_app. specialize (IH c d0 start s). lia.
Qed.

(** ** More on [calc_duration_counts] *)

Lemma apply_runs_snoc incr m rs d a b :
  apply_runs incr m (rs ++ [(d, a, b)])
  = slice_incr incr (apply_runs incr m rs) (weekday d) a (b + 1).
Proof. unfold apply_runs. rewrite fold_left_app. reflexivity. Qed.

Lemma apply_runs_shaped incr cols rs : forall m,
  shaped cols m ->
  shaped cols (apply_runs incr m rs)
  /\ List.length (apply_runs incr m rs) = List.length m.
Proof.
  unfold apply_runs.
  induction rs as [|[[d a] b] rs IH]; intros m Hm; simpl; [auto|].
  destruct (IH _ (slice_incr_shaped incr cols m (weekday d) a (b + 1) Hm))
    as [H1 H2].
  split; [exact H1|]. rewrite H2. apply slice_incr_length.
Qed.

Lemma Forall_map_from {A : Type} (P Q : A -> Prop) (f : Z -> A -> A) l :
  (forall i x, P x -> Q (f i x)) ->
  forall i, Forall P l -> Forall Q (map_from f i l).
Proof.
  intros Hf. induction l as [|x l IH]; intros i H; simpl; [constructor|].
  inversion H; subst. constructor; [apply Hf; assumption | apply IH; assumption].
Qed.

Lemma slice_incr_cells (P Q : Z -> Prop) incr m r start stop :
  (forall x, P x -> Q x) -> (forall x, P x -> Q (incr x)) ->
  cells P m -> cells Q (slice_incr incr m r start stop).
Proof.
  intros H1 H2 Hm. unfold cells, slice_incr.
  apply (Forall_map_from (Forall P) (Forall Q)); [|exact Hm].
  intros i row Hrow. destruct (i =? r).
  - unfold row_slice_incr. apply (Forall_map_from P Q); [|exact Hrow].
    intros j x Hx. destruct (_ && _); auto.
  - eapply Forall_impl; [|exact Hrow]. exact H1.
Qed.

Lemma cells_zeros (P : Z -> Prop) rows cols : P 0 -> cells P (zeros rows cols).
Proof.
  intros H. unfold cells, zeros. apply Forall_forall. intros row Hrow.
  apply repeat_spec in Hrow. subst row.
  apply Forall_forall. intros x Hx. apply repeat_spec in Hx. subst x. exact H.
Qed.

Lemma apply_runs_succ_cells rs : forall m k K,
  cells (fun x => 0 <= x <= k) m ->
  k + Z.of_nat (List.length rs) <= K ->
  cells (fun x => 0 <= x <= K) (apply_runs Z.succ m rs).
Proof.
  unfold apply_runs, run.
  induction rs as [|[[d a] b] rs IH]; intros m k K Hm HK; simpl fold_left.
  - cbn [List.length] in HK. unfold cells in *.
    eapply Forall_impl; [|exact Hm]. intros row Hrow.
    eapply Forall_impl; [|exact Hrow]. simpl. intros x Hx. lia.
  - cbn [List.length] in HK. apply (IH _ (k + 1)); [|lia].
    revert Hm. apply slice_incr_cells; intros x Hx; lia.
Qed.

Lemma int16_wrap_range z :
  -32768 <= Package.int16_wrap z <= 32767.
Proof.
  unfold Package.int16_wrap.
  pose proof (Z.mod_pos_bound (z + 32768) 65536 ltac:(lia)). lia.
Qed.

Lemma int16_incr_small x :
  -32768 <= x < 32767 -> Package.int16_incr x = Z.succ x.
Proof.
  intros H. unfold Package.int16_incr, Package.int16_wrap.
  rewrite Z.mod_small by lia. lia.
Qed.

Lemma apply_runs_int16_cells rs : forall m,
  cells (fun x => -32768 <= x <= 32767) m ->
  cells (fun x => -32768 <= x <= 32767) (apply_runs Package.int16_incr m rs).
Proof.
  unfold apply_runs.
  induction rs as [|[[d a] b] rs IH]; intros m Hm; simpl fold_left;
    [exact Hm|].
  apply IH. revert Hm. apply slice_incr_cells; [auto|].
  intros x _. apply int16_wrap_range.
Qed.

Lemma map_from_ext_Forall {A : Type} (P : A -> Prop) (f g : Z -> A -> A) l :
  (forall i x, P x -> f i x = g i x) ->
  forall i, Forall P l -> map_from f i l = map_from g i l.
Proof.
  intros Hfg. induction l as [|x l IH]; intros i H; simpl; [reflexivity|].
  inversion H; subst. rewrite Hfg, IH by assumption. reflexivity.
Qed.

Lemma slice_incr_ext (P : Z -> Prop) incr incr' m r start stop :
  (forall x, P x -> incr x = incr' x) -> cells P m ->
  slice_incr incr m r start stop = slice_incr incr' m r start stop.
Proof.
  intros H Hm. unfold slice_incr.
  apply (map_from_ext_Forall (Forall P)); [|exact Hm].
  intros i row Hrow. destruct (i =? r); [|reflexivity].
  unfold row_slice_incr. apply (map_from_ext_Forall P); [|exact Hrow].
  intros j x Hx. destruct (_ && _); [apply H, Hx | reflexivity].
Qed.

Lemma apply_runs_int16_succ rs : forall m k,
  cells (fun x => 0 <= x <= k) m ->
  k + Z.of_nat (List.length rs) <= 32767 ->
  apply_runs Package.int16_incr m rs = apply_runs Z.succ m rs.
Proof.
  unfold apply_runs.
  induction rs as [|[[d a] b] rs IH]; intros m k Hm Hk; [reflexivity|].
  unfold run in *. cbn [List.length] in Hk. simpl fold_left.
  rewrite (slice_incr_ext (fun x => 0 <= x <= k) Package.int16_incr Z.succ)
    by (auto; intros x Hx; apply int16_incr_small; lia).
  apply (IH _ (k + 1)); [|lia].
  revert Hm. apply slice_incr_cells; intros x Hx; lia.
Qed.

Lemma calc_duration_counts_runs s timeout :
  TopLevel.calc_duration_counts s timeout
  = apply_runs Z.succ (zeros _DAYS_IN_WEEK (_SECS_IN_DAY - 1))
               (stream_runs timeout (heartbeats s))
  /\ attr (Package.calc_duration_counts s timeout)
     = apply_runs Package.int16_incr (zeros _DAYS_IN_WEEK (_SECS_IN_DAY - 1))
                  (stream_runs timeout (heartbeats s)).
Proof.
  destruct (heartbeats s) as [|[[c d] t] es] eqn:H.
  - unfold TopLevel.calc_duration_counts, Package.calc_duration_counts.
    rewrite H. split; reflexivity.
  - rewrite (calc_duration_counts_TopLevel s timeout c d t es H),
      (calc_duration_counts_Package s timeout c d t es H).
    split; reflexivity.
Qed.

(** X6: the matrix of [calc_duration_counts] is built by one slice
    increment per closed run of the stream, and for one timeout there are
    at most as many closed runs as [calc_durations] lists durations: a
    date change or a gap ends a run in both loops, a category change
    only in [calc_durations].  So no cell of the matrix exceeds the
    number of durations that [calc_durations] lists. *)
Theorem X6_counted_runs_at_most_durations :
  forall (s : store) (timeout : Z),
    let rs := stream_runs timeout (heartbeats s) in
    let n := dict_size (TopLevel.calc_durations s timeout) in
    TopLevel.calc_duration_counts s timeout
    = apply_runs Z.succ (zeros _DAYS_IN_WEEK (_SECS_IN_DAY - 1)) rs
    /\ attr (Package.calc_duration_counts s timeout)
       = apply_runs Package.int16_incr
                    (zeros _DAYS_IN_WEEK (_SECS_IN_DAY - 1)) rs
    /\ (List.length rs <= n)%nat
    /\ cells (fun x => 0 <= x <= Z.of_nat n)
             (TopLevel.calc_duration_counts s timeout).
Proof.
  intros s timeout rs n.
  destruct (calc_duration_counts_runs s timeout) as [E1 E2].
  assert (L : (List.length rs <= n)%nat).
  { unfold rs, n. rewrite calc_durations_agree.
    unfold stream_runs, Package.calc_durations.
    destruct (heartbeats s) as [|[[c0 d0] s0] es]; simpl; [lia|].
    rewrite (dict_size_loop timeout es _ (c0, d0, s0))
      by (unfold follows; simpl; auto).
    simpl. apply closed_runs_le_splits. }
  split; [exact E1|]. split; [exact E2|]. split; [exact L|].
  rewrite E1. apply (apply_runs_succ_cells _ _ 0).
  - apply cells_zeros. lia.
  - fold rs. unfold run in *. lia.
Qed.

Lemma secs_in_day_minus_1 : _SECS_IN_DAY - 1 = 86399.
Proof. reflexivity. Qed.

(** X7: whatever the store and the timeout, the matrix left by either
    copy of [calc_duration_counts] has 7 rows of 86399 cells.  In
    [src/heartbeats_data.py] every cell lies between 0 and the number of
    closed runs; in the packaged copy every cell is an int16 value. *)
Theorem X7_matrix_shape_and_range :
  forall (s : store) (timeout : Z),
    let m1 := TopLevel.calc_duration_counts s timeout in
    let m2 := attr (Package.calc_duration_counts s timeout) in
    let n := Z.of_nat (List.length (stream_runs timeout (heartbeats s))) in
    List.length m1 = 7%nat /\ shaped 86399 m1
    /\ List.length m2 = 7%nat /\ shaped 86399 m2
    /\ cells (fun x => 0 <= x <= n) m1
    /\ cells (fun x => -32768 <= x <= 32767) m2.
Proof.
  intros s timeout m1 m2 n.
  destruct (calc_duration_counts_runs s timeout) as [E1 E2].
  unfold m1, m2, n. rewrite E1, E2, secs_in_day_minus_1.
  assert (Z0 : shaped 86399 (zeros _DAYS_IN_WEEK 86399))
    by (apply zeros_shaped; lia).
  assert (L0 : List.length (zeros _DAYS_IN_WEEK 86399) = 7%nat)
    by (unfold zeros; rewrite repeat_length; reflexivity).
  destruct (apply_runs_shaped Z.succ 86399
              (stream_runs timeout (heartbeats s)) _ Z0) as [S1 L1].
  destruct (apply_runs_shaped Package.int16_incr 86399
              (stream_runs timeout (heartbeats s)) _ Z0) as [S2 L2].
  split; [congruence|]. split; [exact S1|].
  split; [congruence|]. split; [exact S2|]. split.
  - apply (apply_runs_succ_cells _ _ 0); [apply cells_zeros|]; lia.
  - apply apply_runs_int16_cells. apply cells_zeros. lia.
Qed.

(** X8: when [calc_duration_counts] closes at most 32767 runs, the int16
    matrix of the packaged copy cannot wrap around, and on a non-empty
    stream the packaged copy returns exactly the matrix of
    [src/heartbeats_data.py]. *)
Theorem X8_count_copies_agree :
  forall (s : store) (timeout : Z),
    heartbeats s <> [] ->
    Z.of_nat (List.length (stream_runs timeout (heartbeats s))) <= 32767 ->
    Package.calc_duration_counts s timeout
    = Returned (TopLevel.calc_duration_counts s timeout).
Proof.
  intros s timeout Hne Hn.
  destruct (calc_duration_counts_runs s timeout) as [E1 _]. rewrite E1.
  destruct (heartbeats s) as [|[[c d] t] es] eqn:H; [congruence|].
  rewrite (calc_duration_counts_Package s timeout c d t es H).
  f_equal. apply (apply_runs_int16_succ _ _ 0).
  - apply cells_zeros. lia.
  - simpl stream_runs in Hn. unfold run in *. lia.
Qed.

Lemma X8_count_copies_agree_witness :
  heartbeats scenario_A_next_day <> []
  /\ Package.calc_duration_counts scenario_A_next_day 900
     = Returned (TopLevel.calc_duration_counts scenario_A_next_day 900).
Proof.
  assert (Hne : heartbeats scenario_A_next_day <> []) by discriminate.
  split; [exact Hne|].
  apply (X8_count_copies_agree scenario_A_next_day 900 Hne).
  discriminate.
Defined.

(** X9: on a store without events, [calc_duration_counts] of
    [src/heartbeats_data.py] returns the all-zero matrix, while the
    packaged copy allocates the matrix and then raises [StopIteration]
    at [next(heartbeats)]. *)
Theorem X9_counts_of_empty_stream :
  forall (s : store) (timeout : Z),
    heartbeats s = [] ->
    TopLevel.calc_duration_counts s timeout
    = zeros _DAYS_IN_WEEK (_SECS_IN_DAY - 1)
    /\ Package.calc_duration_counts s timeout
       = Raised StopIteration (zeros _DAYS_IN_WEEK (_SECS_IN_DAY - 1))
    /\ matrix_sum (TopLevel.calc_duration_counts s timeout) = 0.
Proof.
  intros s timeout H.
  unfold TopLevel.calc_duration_counts, Package.calc_duration_counts.
  rewrite H. split; [reflexivity|]. split; [reflexivity|].
  apply matrix_sum_zeros.
Qed.

Lemma X9_counts_of_empty_stream_witness :
  heartbeats empty_store = []
  /\ Package.calc_duration_counts empty_store 900
     = Raised StopIteration (zeros _DAYS_IN_WEEK (_SECS_IN_DAY - 1)).
Proof.
  split; [reflexivity|].
  exact (proj1 (proj2 (X9_counts_of_empty_stream empty_store 900 eq_refl))).
Defined.

Lemma closed_runs_when timeout es : forall es' d a b,
  map ev_when es = map ev_when es' ->
  closed_runs timeout d a b es = closed_runs timeout d a b es'.
Proof.
  induction es as [|[[c d1] s1] es IH]; intros [|[[c' d1'] s1'] es'] d a b H;
    try discriminate; [reflexivity|].
  unfold ev_when, ev_date, ev_secs in H. simpl in H. injection H as -> -> H.
  simpl. rewrite (IH es' d1' s1' s1' H), (IH es' d a s1' H). reflexivity.
Qed.

Lemma stream_runs_when timeout es es' :
  map ev_when es = map ev_when es' ->
  stream_runs timeout es = stream_runs timeout es'.
Proof.
  destruct es as [|[[c d] s] es], es' as [|[[c' d'] s'] es']; intros H;
    try discriminate; [reflexivity|].
  unfold ev_when, ev_date, ev_secs in H. simpl in H. injection H as -> -> H.
  apply closed_runs_when, H.
Qed.

Lemma map_ev_when_zip3 b c : forall a a',
  List.length a = List.length a' ->
  map ev_when (zip3 a b c) = map ev_when (zip3 a' b c).
Proof.
  revert c. induction b as [|y b IH]; intros c a a' H.
  - destruct a, a'; reflexivity.
  - destruct a as [|x a], a' as [|x' a']; try discriminate; [reflexivity|].
    destruct c as [|z c]; [reflexivity|]. simpl.
    rewrite (IH c a a') by (simpl in H; congruence). reflexivity.
Qed.

(** X10: [calc_duration_counts] does not look at the categories: two
    stores with the same dates and seconds and as many categories give
    the same matrix, and the packaged copy ends the same way on both. *)
Theorem X10_counts_ignore_categories :
  forall (s s' : store) (timeout : Z),
    dates s = dates s' ->
    secs_since_midnights s = secs_since_midnights s' ->
    List.length (hb_types s) = List.length (hb_types s') ->
    TopLevel.calc_duration_counts s timeout
    = TopLevel.calc_duration_counts s' timeout
    /\ Package.calc_duration_counts s timeout
       = Package.calc_duration_counts s' timeout.
Proof.
  intros s s' timeout Hd Hs Hl.
  assert (W : map ev_when (heartbeats s) = map ev_when (heartbeats s')).
  { unfold heartbeats. rewrite Hd, Hs. apply map_ev_when_zip3, Hl. }
  pose proof (stream_runs_when timeout _ _ W) as R.
  destruct (calc_duration_counts_runs s timeout) as [E1 E2].
  destruct (calc_duration_counts_runs s' timeout) as [E1' E2'].
  split; [rewrite E1, E1', R; reflexivity|].
  assert (A : attr (Package.calc_duration_counts s timeout)
              = attr (Package.calc_duration_counts s' timeout))
    by (rewrite E2, E2', R; reflexivity).
  unfold Package.calc_duration_counts in *.
  destruct (heartbeats s) as [|[[c d] t] es],
           (heartbeats s') as [|[[c' d'] t'] es']; try discriminate W.
  - reflexivity.
  - cbn [attr] in A. f_equal. exact A.
Qed.

Lemma X10_counts_ignore_categories_witness :
  TopLevel.calc_duration_counts
    (mkstore [] ["A"; "B"]%string [d_2024_01_01; d_2024_01_02] [5; 7]) 900
  = TopLevel.calc_duration_counts
      (mkstore [] ["C"; "C"]%string [d_2024_01_01; d_2024_01_02] [5; 7]) 900.
Proof.
  exact (proj1 (X10_counts_ignore_categories
                  (mkstore [] ["A"; "B"]%string
                           [d_2024_01_01; d_2024_01_02] [5; 7])
                  (mkstore [] ["C"; "C"]%string
                           [d_2024_01_01; d_2024_01_02] [5; 7])
                  900 eq_refl eq_refl eq_refl)).
Defined.

Lemma covering_cons r j x rs :
  covering r j (x :: rs) = (if covers r j x then 1 else 0) + covering r j rs.
Proof.
  unfold covering. simpl filter. destruct (covers r j x); [|lia].
  cbn [List.length]. lia.
Qed.

Lemma cell_apply_runs r j rs : forall m,
  Forall run_nonneg rs ->
  cell (apply_runs Z.succ m rs) r j
  = option_map (fun x => x + covering r j rs) (cell m r j).
Proof.
  unfold apply_runs.
  induction rs as [|[[d a] b] rs IH]; intros m H.
  - simpl. unfold covering. simpl.
    destruct (cell m r j); simpl; [f_equal; lia | reflexivity].
  - inversion H as [|? ? Hab Hrs]; subst. destruct Hab as [Ha Hb].
    simpl fold_left.
    rewrite (IH _ Hrs), cell_slice_incr by lia.
    rewrite covering_cons. unfold covers.
    destruct (cell m r j) as [x|]; [|reflexivity]. simpl. f_equal.
    rewrite (Z.eqb_sym r).
    destruct ((weekday d =? r) && (a <=? j) && (j <=? b)); lia.
Qed.

Lemma closed_runs_nonneg timeout es : forall d0 start stop,
  0 <= start -> 0 <= stop -> Forall (fun e => 0 <= ev_secs e) es ->
  Forall run_nonneg (closed_runs timeout d0 start stop es).
Proof.
  induction es as [|[[c d] s] es IH]; intros d0 start stop H1 H2 H;
    [constructor|].
  inversion H as [|? ? Hs Hes]; subst. unfold ev_secs in Hs; simpl in Hs.
  simpl. destruct (negb (date_eqb d d0) || (s >? stop + timeout)).
  - constructor; [split; assumption|]. apply IH; assumption.
  - apply IH; assumption.
Qed.

(** X11: in [src/heartbeats_data.py], on a stream whose seconds are not
    negative (as [add_hb] records them), the cell of weekday [r] and
    second [j], for every cell of the matrix, holds the number of closed
    runs whose date has weekday [r] and whose seconds [start..end]
    include [j]. *)
Theorem X11_cell_counts_covering_runs :
  forall (s : store) (timeout r j : Z),
    Forall (fun e => 0 <= ev_secs e) (heartbeats s) ->
    0 <= r < 7 -> 0 <= j < 86399 ->
    cell (TopLevel.calc_duration_counts s timeout) r j
    = Some (covering r j (stream_runs timeout (heartbeats s))).
Proof.
  intros s timeout r j H Hr Hj.
  destruct (calc_duration_counts_runs s timeout) as [E _]. rewrite E.
  rewrite cell_apply_runs.
  - rewrite secs_in_day_minus_1, cell_zeros by (unfold _DAYS_IN_WEEK; lia).
    reflexivity.
  - unfold stream_runs. destruct (heartbeats s) as [|[[c d] t] es];
      [constructor|].
    inversion H as [|? ? Ht Hes]; subst. unfold ev_secs in Ht; simpl in Ht.
    apply closed_runs_nonneg; assumption.
Qed.

Lemma X11_cell_counts_covering_runs_witness :
  cell (TopLevel.calc_duration_counts scenario_A_next_day 900) 0 32500
  = Some 1.
Proof.
  apply (X11_cell_counts_covering_runs scenario_A_next_day 900 0 32500).
  - repeat constructor; discriminate.
  - lia.
  - lia.
Defined.

(** ** The weekly and the daily profile *)

Lemma row_sum_app a b : row_sum (a ++ b) = row_sum a + row_sum b.
Proof.
  unfold row_sum. induction a as [|x a IH]; simpl; [reflexivity|].
  rewrite IH. lia.
Qed.

Lemma row_sum_flatten m : row_sum (flatten m) = matrix_sum m.
Proof.
  unfold flatten, matrix_sum. induction m as [|row m IH]; simpl;
    [reflexivity|].
  rewrite row_sum_app, IH. reflexivity.
Qed.

Lemma flatten_length cols m :
  shaped cols m ->
  Z.of_nat (List.length (flatten m)) = Z.of_nat (List.length m) * cols.
Proof.
  unfold flatten. induction 1 as [|row m Hrow Hm IH]; [reflexivity|].
  cbn [List.concat List.length]. rewrite length_app. lia.
Qed.

Lemma add_rows_spec a : forall b,
  List.length a = List.length b ->
  List.length (add_rows a b) = List.length a
  /\ row_sum (add_rows a b) = row_sum a + row_sum b.
Proof.
  unfold row_sum.
  induction a as [|x a IH]; intros [|y b] H; try discriminate;
    [split; reflexivity|].
  simpl in H. destruct (IH b ltac:(congruence)) as [L S].
  simpl. rewrite L, S. split; [reflexivity | lia].
Qed.

Lemma fold_add_rows cols rows : forall acc,
  shaped cols rows -> Z.of_nat (List.length acc) = cols ->
  Z.of_nat (List.length (fold_left add_rows rows acc)) = cols
  /\ row_sum (fold_left add_rows rows acc)
     = row_sum acc + matrix_sum rows.
Proof.
  unfold matrix_sum.
  induction rows as [|row rows IH]; intros acc Hm Hacc; simpl.
  - split; [exact Hacc | lia].
  - inversion Hm as [|? ? Hrow Hrows]; subst.
    destruct (add_rows_spec acc row ltac:(lia)) as [L S].
    destruct (IH (add_rows acc row) Hrows ltac:(lia)) as [L' S'].
    split; [exact L'|]. rewrite S', S. lia.
Qed.

Lemma calc_duration_counts_shaped s timeout :
  (List.length (TopLevel.calc_duration_counts s timeout) = 7%nat
   /\ shaped 86399 (TopLevel.calc_duration_counts s timeout))
  /\ (List.length (attr (Package.calc_duration_counts s timeout)) = 7%nat
      /\ shaped 86399 (attr (Package.calc_duration_counts s timeout))).
Proof.
  destruct (calc_duration_counts_runs s timeout) as [E1 E2].
  rewrite E1, E2, secs_in_day_minus_1.
  assert (Z0 : shaped 86399 (zeros _DAYS_IN_WEEK 86399))
    by (apply zeros_shaped; lia).
  assert (L0 : List.length (zeros _DAYS_IN_WEEK 86399) = 7%nat)
    by (unfold zeros; rewrite repeat_length; reflexivity).
  destruct (apply_runs_shaped Z.succ 86399
              (stream_runs timeout (heartbeats s)) _ Z0) as [S1 L1].
  destruct (apply_runs_shaped Package.int16_incr 86399
              (stream_runs timeout (heartbeats s)) _ Z0) as [S2 L2].
  split; split; congruence || assumption.
Qed.

Lemma profiles_of_shaped m :
  List.length m = 7%nat -> shaped 86399 m ->
  Z.of_nat (List.length (flatten m)) = 604793
  /\ Z.of_nat (List.length (npsum_axis0 m)) = 86399
  /\ row_sum (flatten m) = matrix_sum m
  /\ row_sum (npsum_axis0 m) = matrix_sum m.
Proof.
  intros L S. split; [rewrite (flatten_length 86399 m S), L; reflexivity|].
  split; [|split; [apply row_sum_flatten|]];
    destruct m as [|row rows]; try discriminate L;
    inversion S as [|? ? Hrow Hrows]; subst;
    destruct (fold_add_rows 86399 rows row Hrows Hrow) as [L' S'].
  - exact L'.
  - simpl npsum_axis0. rewrite S'. unfold matrix_sum. simpl. reflexivity.
Qed.

(** X12: for the matrix of either copy of [calc_duration_counts], the
    weekly profile [flatten()] has 7 * 86399 = 604793 entries and the
    daily profile [npsum(axis=0)] has 86399, and each of the two profiles
    adds up to the sum of all cells of the matrix. *)
Theorem X12_profiles_keep_the_total :
  forall (s : store) (timeout : Z),
    let m1 := TopLevel.calc_duration_counts s timeout in
    let m2 := attr (Package.calc_duration_counts s timeout) in
    (Z.of_nat (List.length (flatten m1)) = 604793
     /\ Z.of_nat (List.length (npsum_axis0 m1)) = 86399
     /\ row_sum (flatten m1) = matrix_sum m1
     /\ row_sum (npsum_axis0 m1) = matrix_sum m1)
    /\ (Z.of_nat (List.length (flatten m2)) = 604793
        /\ Z.of_nat (List.length (npsum_axis0 m2)) = 86399
        /\ row_sum (flatten m2) = matrix_sum m2
        /\ row_sum (npsum_axis0 m2) = matrix_sum m2).
Proof.
  intros s timeout m1 m2.
  destruct (calc_duration_counts_shaped s timeout) as [[L1 S1] [L2 S2]].
  split; apply profiles_of_shaped; assumption.
Qed.

Lemma nth_error_concat (c : nat) (m : matrix) : forall r j : nat,
  Forall (fun row => List.length row = c) m -> (j < c)%nat ->
  nth_error (List.concat m) (r * c + j)
  = match nth_error m r with
    | Some row => nth_error row j
    | None => None
    end.
Proof.
  induction m as [|row m IH]; intros r j H Hj.
  - simpl. destruct (r * c + j)%nat, r; reflexivity.
  - inversion H as [|? ? Hrow Hm]; subst. destruct r as [|r]; simpl.
    + apply nth_error_app1. exact Hj.
    + rewrite nth_error_app2 by lia.
      replace (List.length row + r * List.length row + j - List.length row)%nat
        with (r * List.length row + j)%nat by lia.
      apply IH; assumption.
Qed.

(** X13: in the weekly profile of either copy, the entry at index
    [r * 86399 + j] is the cell of weekday [r] and second [j]. *)
Theorem X13_weekly_profile_index :
  forall (s : store) (timeout r j : Z),
    0 <= r < 7 -> 0 <= j < 86399 ->
    nth_error (flatten (TopLevel.calc_duration_counts s timeout))
              (Z.to_nat (r * 86399 + j))
    = cell (TopLevel.calc_duration_counts s timeout) r j
    /\ nth_error (flatten (attr (Package.calc_duration_counts s timeout)))
                 (Z.to_nat (r * 86399 + j))
       = cell (attr (Package.calc_duration_counts s timeout)) r j.
Proof.
  intros s timeout r j Hr Hj.
  destruct (calc_duration_counts_shaped s timeout) as [[L1 S1] [L2 S2]].
  assert (G : forall m, shaped 86399 m ->
                nth_error (flatten m) (Z.to_nat (r * 86399 + j)) = cell m r j).
  { intros m S. unfold cell, flatten.
    replace ((r <? 0) || (j <? 0)) with false
      by (symmetry; apply orb_false_iff; split; apply Z.ltb_ge; lia).
    replace (Z.to_nat (r * 86399 + j))
      with (Z.to_nat r * Z.to_nat 86399 + Z.to_nat j)%nat by lia.
    apply nth_error_concat; [|lia].
    eapply Forall_impl; [|exact S]. simpl. intros row Hrow. lia. }
  split; apply G; assumption.
Qed.

Lemma X13_weekly_profile_index_witness :
  nth_error (flatten (TopLevel.calc_duration_counts scenario_A_next_day 900))
            (Z.to_nat (0 * 86399 + 32500))
  = cell (TopLevel.calc_duration_counts scenario_A_next_day 900) 0 32500.
Proof.
  exact (proj1 (X13_weekly_profile_index scenario_A_next_day 900 0 32500
                  ltac:(lia) ltac:(lia))).
Defined.

(** ** Tick labels *)

Lemma div_mod_hours x h r :
  0 <= r < 3600 -> x = h * 3600 + r -> x / 3600 = h /\ x mod 3600 = r.
Proof.
  intros Hr ->. split; symmetry.
  - apply (Z.div_unique_pos _ 3600 h r); lia.
  - apply (Z.mod_unique_pos _ 3600 h r); lia.
Qed.

Lemma minutes_of m c : 0 <= c < 60 -> (m * 60 + c) / 60 = m.
Proof.
  intros H. symmetry. apply (Z.div_unique_pos _ 60 m c); lia.
Qed.

(** X14: the label [format_time] computes for the second that [add_hb]
    recorded for a valid timestamp is the timestamp's hour and minute,
    each formatted with ['{:02d}']; with [weekdays], the position
    [r * 86400 + second], for a day [r] in 0..6, is labelled with the
    [r]-th day name and the same hour and minute. *)
Theorem X14_label_of_recorded_second :
  forall (t : datetime) (day_abbr : list string) (r : Z),
    valid_time t ->
    List.length day_abbr = 7%nat ->
    0 <= r < 7 ->
    format_time false day_abbr (secs_since_midnight_of t)
    = inr (format_02d (hour t) ++ ":" ++ format_02d (minute t))%string
    /\ format_time true day_abbr
         (r * _SECS_IN_DAY + secs_since_midnight_of t)
       = inr (nth (Z.to_nat r) day_abbr ""%string ++ " "
              ++ format_02d (hour t) ++ ":" ++ format_02d (minute t))%string.
Proof.
  intros t day_abbr r (Hh & Hm & Hs) Hl Hr.
  unfold secs_since_midnight_of, format_time.
  set (h := hour t) in *. set (m := minute t) in *. set (c := second t) in *.
  change _SECS_IN_HOUR with 3600. change _SECS_IN_MIN with 60.
  change _MINS_IN_HOUR with 60. change _SECS_IN_DAY with 86400.
  change _HOURS_IN_DAY with 24.
  split.
  - destruct (div_mod_hours (h * 3600 + m * 60 + c) h (m * 60 + c)
                ltac:(lia) ltac:(lia)) as [-> ->].
    rewrite minutes_of by lia. reflexivity.
  - assert (D : (r * 86400 + (h * 3600 + m * 60 + c)) / 86400 = r).
    { symmetry.
      apply (Z.div_unique_pos _ 86400 r (h * 3600 + m * 60 + c)); lia. }
    rewrite D.
    destruct (div_mod_hours (r * 86400 + (h * 3600 + m * 60 + c))
                (r * 24 + h) (m * 60 + c) ltac:(lia) ltac:(lia)) as [-> ->].
    rewrite minutes_of by lia.
    replace ((r * 24 + h) mod 24) with h
      by (apply (Z.mod_unique_pos _ 24 r h); lia).
    unfold py_index. rewrite Hl.
    replace ((r <? - Z.of_nat 7) || (Z.of_nat 7 <=? r)) with false
      by (symmetry; apply orb_false_iff; split;
          [apply Z.ltb_ge | apply Z.leb_gt]; lia).
    replace (r <? 0) with false by (symmetry; apply Z.ltb_ge; lia).
    destruct (nth_error day_abbr (Z.to_nat r)) as [name|] eqn:E.
    + rewrite (nth_error_nth _ _ _ E). reflexivity.
    + apply nth_error_None in E. lia.
Qed.

Lemma X14_label_of_recorded_second_witness :
  format_time true day_abbr_C
    (2 * _SECS_IN_DAY
     + secs_since_midnight_of (mkdatetime d_2024_01_01 9 5 30))
  = inr "Wed 09:05"%string.
Proof.
  refine (proj2 (X14_label_of_recorded_second
                   (mkdatetime d_2024_01_01 9 5 30) day_abbr_C 2 _ eq_refl _)).
  - unfold valid_time; simpl; lia.
  - lia.
Defined.

(** X15: the weekly profile has 86399 entries per day while
    [format_time] divides positions by 86400, so the entry of weekday
    [r] and second [j] (position [r * 86399 + j], with [r <= j]) is
    labelled with day [r] and the hour and minute of second [j - r]:
    the labels of day [r] run [r] seconds early. *)
Theorem X15_weekly_labels_run_early :
  forall (day_abbr : list string) (r j : Z),
    List.length day_abbr = 7%nat ->
    0 <= r < 7 -> r <= j < 86399 ->
    format_time true day_abbr (r * (_SECS_IN_DAY - 1) + j)
    = inr (nth (Z.to_nat r) day_abbr ""%string ++ " "
           ++ format_02d ((j - r) / 3600) ++ ":"
           ++ format_02d (((j - r) mod 3600) / 60))%string.
Proof.
  intros day_abbr r j Hl Hr Hj. unfold format_time.
  change _SECS_IN_HOUR with 3600. change _MINS_IN_HOUR with 60.
  change _SECS_IN_DAY with 86400. change _HOURS_IN_DAY with 24.
  pose proof (Z.div_mod (j - r) 3600 ltac:(lia)) as K.
  pose proof (Z.mod_pos_bound (j - r) 3600 ltac:(lia)) as P.
  set (q := (j - r) / 3600) in *. set (p := (j - r) mod 3600) in *.
  assert (Q : 0 <= q < 24).
  { unfold q. split; [apply Z.div_pos; lia|].
    apply Z.div_lt_upper_bound; lia. }
  assert (D : (r * (86400 - 1) + j) / 86400 = r).
  { symmetry. apply (Z.div_unique_pos _ 86400 r (j - r)); lia. }
  rewrite D.
  destruct (div_mod_hours (r * (86400 - 1) + j) (r * 24 + q) p
              ltac:(lia) ltac:(lia)) as [-> ->].
  replace ((r * 24 + q) mod 24) with q
    by (apply (Z.mod_unique_pos _ 24 r q); lia).
  unfold py_index. rewrite Hl.
  replace ((r <? - Z.of_nat 7) || (Z.of_nat 7 <=? r)) with false
    by (symmetry; apply orb_false_iff; split;
        [apply Z.ltb_ge | apply Z.leb_gt]; lia).
  replace (r <? 0) with false by (symmetry; apply Z.ltb_ge; lia).
  destruct (nth_error day_abbr (Z.to_nat r)) as [name|] eqn:E.
  - rewrite (nth_error_nth _ _ _ E). reflexivity.
  - apply nth_error_None in E. lia.
Qed.

Lemma X15_weekly_labels_run_early_witness :
  format_time true day_abbr_C (6 * (_SECS_IN_DAY - 1) + 3600)
  = inr "Sun 00:59"%string.
Proof.
  exact (X15_weekly_labels_run_early day_abbr_C 6 3600 eq_refl
           ltac:(lia) ltac:(lia)).
Defined.

(** ** [legend] *)

Lemma color_get_set {color : Type} (m : color_dict color) k v k' :
  color_get (color_set m k v) k'
  = if String.eqb k k' then Some v else color_get m k'.
Proof.
  induction m as [|[k0 v0] m IH]; simpl.
  - reflexivity.
  - destruct (String.eqb k0 k) eqn:E0; simpl.
    + apply String.eqb_eq in E0. subst k0.
      destruct (String.eqb k k'); reflexivity.
    + rewrite IH. destruct (String.eqb k k') eqn:E1; [|reflexivity].
      apply String.eqb_eq in E1. subst k'. rewrite E0. reflexivity.
Qed.

Lemma color_set_length {color : Type} (m : color_dict color) k v :
  (List.length (color_set m k v) <= S (List.length m))%nat.
Proof.
  induction m as [|[k0 v0] m IH]; simpl; [lia|].
  destruct (String.eqb k0 k); simpl; lia.
Qed.

Lemma assign_colors_ok {color : Type} (palette : list color) common :
  forall i m,
    (i + List.length common < List.length palette)%nat \/ common = [] <->
    exists m', assign_colors palette i common m = inr m'.
Proof.
  induction common as [|[h n] common IH]; intros i m;
    cbn [assign_colors List.length].
  - split; [eauto | auto].
  - destruct (nth_error palette (S i)) as [c|] eqn:E.
    + specialize (IH (S i) (color_set m h c)).
      assert (L : (S i < List.length palette)%nat)
        by (apply nth_error_Some; congruence).
      split.
      * intros [H|H]; [|discriminate]. apply IH.
        destruct common; [right; reflexivity | left; simpl in *; lia].
      * intros H. apply IH in H. left.
        destruct H as [H|H]; [lia | subst common; simpl; lia].
    + apply nth_error_None in E. split.
      * intros [H|H]; [lia | discriminate].
      * intros [m' H]. discriminate.
Qed.

Lemma assign_colors_mem {color : Type} (palette : list color) common :
  forall i m m' h,
    assign_colors palette i common m = inr m' ->
    color_mem m' h
    = color_mem m h || existsb (fun kv => String.eqb (fst kv) h) common.
Proof.
  induction common as [|[k n] common IH]; intros i m m' h H;
    cbn [assign_colors existsb fst] in *.
  - injection H as <-. rewrite orb_false_r. reflexivity.
  - destruct (nth_error palette (S i)) as [c|]; [|discriminate].
    rewrite (IH _ _ _ h H). unfold color_mem at 1.
    rewrite color_get_set. unfold color_mem.
    destruct (String.eqb k h); simpl.
    + rewrite orb_true_r. reflexivity.
    + reflexivity.
Qed.

Lemma assign_colors_length {color : Type} (palette : list color) common :
  forall i m m',
    assign_colors palette i common m = inr m' ->
    (List.length m' <= List.length m + List.length common)%nat.
Proof.
  induction common as [|[k n] common IH]; intros i m m' H;
    cbn [assign_colors List.length] in *.
  - injection H as <-. lia.
  - destruct (nth_error palette (S i)) as [c|]; [|discriminate].
    apply IH in H. pose proof (color_set_length m k c). lia.
Qed.

Lemma insert_desc_length x l :
  List.length (insert_desc x l) = S (List.length l).
Proof.
  induction l as [|y l IH]; simpl; [reflexivity|].
  destruct (snd y <=? snd x); simpl; [reflexivity | rewrite IH; reflexivity].
Qed.

Lemma sorted_desc_length c : List.length (sorted_desc c) = List.length c.
Proof.
  induction c as [|x c IH]; simpl; [reflexivity|].
  rewrite insert_desc_length, IH. reflexivity.
Qed.

Lemma most_common_length n c :
  List.length (most_common n c) = Nat.min (Z.to_nat n) (List.length c).
Proof.
  unfold most_common. rewrite length_firstn, sorted_desc_length. reflexivity.
Qed.

Lemma assign_colors_error {color : Type} (palette : list color) common :
  forall i m e, assign_colors palette i common m = inl e -> e = IndexError.
Proof.
  induction common as [|[k n] common IH]; intros i m e E;
    cbn [assign_colors] in E; [discriminate|].
  destruct (nth_error palette (S i)); [|congruence].
  apply (IH _ _ _ E).
Qed.

Lemma legend_ok_iff {color : Type} legend_length other_name
  (palette : list color) s :
  ((exists r, legend legend_length other_name palette s = inr r)
   <-> (Nat.min (Z.to_nat (legend_length - 1))
                (List.length (hb_type_counter s))
        < List.length palette)%nat)
  /\ (forall e, legend legend_length other_name palette s = inl e ->
                e = IndexError).
Proof.
  unfold legend. rewrite <- most_common_length.
  destruct palette as [|c0 palette].
  - split; [|intros e H; congruence].
    split; [intros [r H]; discriminate H | simpl; lia].
  - set (common := most_common (legend_length - 1) (hb_type_counter s)).
    pose proof (assign_colors_ok (c0 :: palette) common 0
                  [(other_name, c0)]) as A.
    pose proof (assign_colors_error (c0 :: palette) common 0
                  [(other_name, c0)]) as B.
    destruct (assign_colors (c0 :: palette) 0 common [(other_name, c0)])
      as [e|m] eqn:E.
    + split; [|intros e' H; injection H as <-; apply B; reflexivity].
      split; [intros [r H]; discriminate H|].
      intros H. destruct A as [A _].
      destruct A as [m' A]; [left; simpl in *; lia | discriminate A].
    + split; [|intros e H; discriminate H].
      split; [|eauto]. intros _. destruct A as [_ A].
      destruct (A (ex_intro _ m eq_refl)) as [H|H]; [simpl in *; lia|].
      rewrite H. simpl. lia.
Qed.

(** X16: how [legend] proceeds up to its final call of [ax.legend]: it
    fails with [KeyError] when the colormap name is not registered, with
    [AttributeError] when the colormap has no [colors], with
    [IndexError] (at [color_map[0]] or [color_map[i+1]]) when [colors]
    has at most [min(legend_length - 1, number of counted categories)]
    entries, and in every other case it reaches [ax.legend], with the
    results of [legend] on that list of colours. *)
Theorem X16_legend_succeeds_iff :
  forall (color : Type) (colormaps : string -> option (colormap color))
         (legend_length : Z) (other_name color_map : string) (s : store),
    let call := legend_call colormaps legend_length other_name color_map s in
    let entered := Nat.min (Z.to_nat (legend_length - 1))
                           (List.length (hb_type_counter s)) in
    match colormaps color_map with
    | None => call = inl (ColormapKeyError color_map)
    | Some Unlisted => call = inl ColorsAttributeError
    | Some (Listed palette) =>
        if (entered <? List.length palette)%nat
        then exists r, call = inr r
                       /\ legend legend_length other_name palette s = inr r
        else call = inl (LoopError IndexError)
    end.
Proof.
  intros color colormaps legend_length other_name color_map s call entered.
  unfold call, legend_call.
  destruct (colormaps color_map) as [[palette|]|]; try reflexivity.
  destruct (legend_ok_iff legend_length other_name palette s) as [I E].
  fold entered in I.
  destruct (entered <? List.length palette)%nat eqn:L.
  - apply Nat.ltb_lt in L. apply I in L as [r L]. exists r.
    rewrite L. split; reflexivity.
  - apply Nat.ltb_ge in L.
    destruct (legend legend_length other_name palette s) as [e|r] eqn:G.
    + rewrite (E e eq_refl). reflexivity.
    + exfalso. assert (H : (entered < List.length palette)%nat)
        by (apply I; eauto). lia.
Qed.

Lemma legend_inr {color : Type} legend_length other_name
  (palette : list color) s s' m cs :
  legend legend_length other_name palette s = inr (s', m, cs) ->
  exists c0 rest,
    palette = c0 :: rest
    /\ assign_colors palette 0
         (most_common (legend_length - 1) (hb_type_counter s))
         [(other_name, c0)] = inr m
    /\ s' = mkstore (hb_type_counter s) (relabel m other_name (hb_types s))
                    (dates s) (secs_since_midnights s)
    /\ cs = map (fun hb_type => match color_get m hb_type with
                                | Some c => c
                                | None => c0
                                end) (hb_types s').
Proof.
  unfold legend. destruct palette as [|c0 rest]; [discriminate|].
  destruct (assign_colors (c0 :: rest) 0
              (most_common (legend_length - 1) (hb_type_counter s))
              [(other_name, c0)]) as [e|m0] eqn:A; [discriminate|].
  intros H. injection H as <- <- <-. exists c0, rest.
  split; [reflexivity|]. split; [exact A|]. split; reflexivity.
Qed.

Lemma legend_mem {color : Type} legend_length other_name
  (palette : list color) s s' m cs h :
  legend legend_length other_name palette s = inr (s', m, cs) ->
  color_mem m h = kept legend_length other_name (hb_type_counter s) h.
Proof.
  intros H. apply legend_inr in H as (c0 & rest & _ & A & _ & _).
  rewrite (assign_colors_mem _ _ _ _ _ h A). unfold kept, color_mem. simpl.
  rewrite (String.eqb_sym other_name h).
  destruct (String.eqb h other_name); reflexivity.
Qed.

Lemma kept_other legend_length other_name c :
  kept legend_length other_name c other_name = true.
Proof. unfold kept. rewrite String.eqb_refl. reflexivity. Qed.

Lemma relabel_all_mem {color : Type} (m : color_dict color) other_name l :
  color_mem m other_name = true ->
  Forall (fun h => color_mem m h = true) (relabel m other_name l).
Proof.
  intros Ho. unfold relabel. apply Forall_forall. intros h Hin.
  apply in_map_iff in Hin as (h0 & <- & _).
  destruct (color_mem m h0) eqn:E; assumption.
Qed.

Lemma relabel_fixed {color : Type} (m : color_dict color) other_name l :
  Forall (fun h => color_mem m h = true) l -> relabel m other_name l = l.
Proof.
  unfold relabel. induction 1 as [|h l Hh Hl IH]; simpl; [reflexivity|].
  rewrite Hh, IH. reflexivity.
Qed.

(** X17: when [legend] returns, [hb_types] has been rewritten in place
    so that a label stays if it is [other_name] or one of the
    [legend_length - 1] most common counted categories, and is replaced
    by [other_name] otherwise; every label then has an entry in
    [hb_type_color_map] and [colors] lists these entries, one per label
    (the default of [.get] is never used); the dates, the seconds and the
    counter are untouched; and the map has at most
    [max(1, legend_length)] entries. *)
Theorem X17_legend_colours_every_label :
  forall (color : Type) (legend_length : Z) (other_name : string)
         (palette : list color) (s s' : store) (m : color_dict color)
         (cs : list color),
    legend legend_length other_name palette s = inr (s', m, cs) ->
    hb_types s'
    = map (fun h => if kept legend_length other_name (hb_type_counter s) h
                    then h else other_name) (hb_types s)
    /\ map Some cs = map (color_get m) (hb_types s')
    /\ List.length cs = List.length (hb_types s)
    /\ dates s' = dates s
    /\ secs_since_midnights s' = secs_since_midnights s
    /\ hb_type_counter s' = hb_type_counter s
    /\ Z.of_nat (List.length m) <= Z.max 1 legend_length.
Proof.
  intros color legend_length other_name palette s s' m cs H.
  pose proof (fun h => legend_mem _ _ _ _ _ _ _ h H) as M.
  destruct (legend_inr _ _ _ _ _ _ _ H) as (c0 & rest & _ & A & -> & ->).
  simpl. split; [|split; [|split; [|split; [|split; [|split]]]]];
    try reflexivity.
  - unfold relabel. apply map_ext. intros h. rewrite M. reflexivity.
  - rewrite map_map. apply map_ext_in. intros h Hin.
    assert (E : color_mem m h = true).
    { pose proof (relabel_all_mem m other_name (hb_types s)) as F.
      rewrite Forall_forall in F. apply F; [|exact Hin].
      rewrite M. apply kept_other. }
    unfold color_mem in E. destruct (color_get m h); [reflexivity|discriminate].
  - unfold relabel. rewrite !length_map. reflexivity.
  - apply assign_colors_length in A.
    rewrite most_common_length in A. simpl in A. lia.
Qed.

Lemma X17_legend_colours_every_label_witness :
  hb_types (mkstore [("A", 2); ("B", 1)]%string ["A"; "B"; "A"]%string
              [d_2024_01_01; d_2024_01_01; d_2024_01_01] [1; 2; 3])
  = ["A"; "B"; "A"]%string
  /\ map Some [1; 0; 1]
     = map (color_get [("Other", 0); ("A", 1)]%string)
           ["A"; "Other"; "A"]%string.
Proof.
  split; [reflexivity|].
  exact (proj1 (proj2 (X17_legend_colours_every_label Z 2 "Other" [0; 1; 2]
           (mkstore [("A", 2); ("B", 1)]%string ["A"; "B"; "A"]%string
              [d_2024_01_01; d_2024_01_01; d_2024_01_01] [1; 2; 3])
           (mkstore [("A", 2); ("B", 1)]%string ["A"; "Other"; "A"]%string
              [d_2024_01_01; d_2024_01_01; d_2024_01_01] [1; 2; 3])
           [("Other", 0); ("A", 1)]%string [1; 0; 1] eq_refl))).
Defined.

(** X18: [legend] called again with the same arguments changes nothing:
    the counter was not touched by the first call, so the same map is
    built, and every label already has an entry. *)
Theorem X18_legend_idempotent :
  forall (color : Type) (legend_length : Z) (other_name : string)
         (palette : list color) (s s' : store) (m : color_dict color)
         (cs : list color),
    legend legend_length other_name palette s = inr (s', m, cs) ->
    legend legend_length other_name palette s' = inr (s', m, cs).
Proof.
  intros color legend_length other_name palette s s' m cs H.
  pose proof (legend_mem _ _ _ _ _ _ _ other_name H) as Mo.
  rewrite kept_other in Mo.
  destruct (legend_inr _ _ _ _ _ _ _ H) as (c0 & rest & -> & A & -> & ->).
  unfold legend. cbn [hb_type_counter hb_types dates secs_since_midnights].
  rewrite A.
  rewrite (relabel_fixed m other_name _
             (relabel_all_mem m other_name (hb_types s) Mo)).
  reflexivity.
Qed.

Lemma X18_legend_idempotent_witness :
  legend 2 "Other" [0; 1; 2]
    (mkstore [("A", 2); ("B", 1)]%string ["A"; "Other"; "A"]%string
       [d_2024_01_01; d_2024_01_01; d_2024_01_01] [1; 2; 3])
  = inr (mkstore [("A", 2); ("B", 1)]%string ["A"; "Other"; "A"]%string
           [d_2024_01_01; d_2024_01_01; d_2024_01_01] [1; 2; 3],
         [("Other", 0); ("A", 1)]%string, [1; 0; 1]).
Proof.
  exact (X18_legend_idempotent Z 2 "Other" [0; 1; 2]
           (mkstore [("A", 2); ("B", 1)]%string ["A"; "B"; "A"]%string
              [d_2024_01_01; d_2024_01_01; d_2024_01_01] [1; 2; 3])
           _ _ _ eq_refl).
Defined.

(** X19: [legend] rewrites categories only, so the matrix of
    [calc_duration_counts] is the same before and after it, in both
    copies. *)
Theorem X19_legend_keeps_the_counts :
  forall (color : Type) (legend_length : Z) (other_name : string)
         (palette : list color) (s s' : store) (m : color_dict color)
         (cs : list color) (timeout : Z),
    legend legend_length other_name palette s = inr (s', m, cs) ->
    TopLevel.calc_duration_counts s' timeout
    = TopLevel.calc_duration_counts s timeout
    /\ Package.calc_duration_counts s' timeout
       = Package.calc_duration_counts s timeout.
Proof.
  intros color legend_length other_name palette s s' m cs timeout H.
  destruct (legend_inr _ _ _ _ _ _ _ H) as (c0 & rest & _ & _ & -> & _).
  assert (W : map ev_when
                (heartbeats (mkstore (hb_type_counter s)
                               (relabel m other_name (hb_types s))
                               (dates s) (secs_since_midnights s)))
              = map ev_when (heartbeats s)).
  { unfold heartbeats. simpl. apply map_ev_when_zip3.
    unfold relabel. apply length_map. }
  pose proof (stream_runs_when timeout _ _ W) as R.
  destruct (calc_duration_counts_runs s timeout) as [E1 E2].
  destruct (calc_duration_counts_runs
              (mkstore (hb_type_counter s) (relabel m other_name (hb_types s))
                       (dates s) (secs_since_midnights s)) timeout)
    as [E1' E2'].
  split; [rewrite E1, E1', R; reflexivity|].
  assert (A : attr (Package.calc_duration_counts
                      (mkstore (hb_type_counter s)
                         (relabel m other_name (hb_types s))
                         (dates s) (secs_since_midnights s)) timeout)
              = attr (Package.calc_duration_counts s timeout))
    by (rewrite E2, E2', R; reflexivity).
  unfold Package.calc_duration_counts in *.
  destruct (heartbeats s) as [|[[c d] t] es],
           (heartbeats _) as [|[[c' d'] t'] es']; try discriminate W.
  - reflexivity.
  - cbn [attr] in A. f_equal. exact A.
Qed.

Lemma X19_legend_keeps_the_counts_witness :
  TopLevel.calc_duration_counts
    (mkstore [("A", 2); ("B", 1)]%string ["A"; "Other"; "A"]%string
       [d_2024_01_01; d_2024_01_01; d_2024_01_01] [1; 2; 3]) 900
  = TopLevel.calc_duration_counts
      (mkstore [("A", 2); ("B", 1)]%string ["A"; "B"; "A"]%string
         [d_2024_01_01; d_2024_01_01; d_2024_01_01] [1; 2; 3]) 900.
Proof.
  exact (proj1 (X19_legend_keeps_the_counts Z 2 "Other" [0; 1; 2]
                  (mkstore [("A", 2); ("B", 1)]%string
                     ["A"; "B"; "A"]%string
                     [d_2024_01_01; d_2024_01_01; d_2024_01_01] [1; 2; 3])
                  _ _ _ 900 eq_refl)).
Defined.

Lemma facecolors_total {color : Type} (m : color_dict color) l :
  Forall (fun x => color_mem m (dur_type x) = true) l ->
  exists cs, facecolors m l = inr cs
             /\ map Some cs = map (fun x => color_get m (dur_type x)) l.
Proof.
  induction 1 as [|x l Hx Hl IH]; simpl; [exists []; auto|].
  destruct IH as (cs & E & M). unfold color_mem in Hx.
  destruct (color_get m (dur_type x)) as [c|]; [|discriminate].
  rewrite E. exists (c :: cs). simpl. rewrite M. auto.
Qed.

(** X20: after [legend], either copy of [calc_durations] lists only
    categories that have an entry in [hb_type_color_map]: the colour
    lookup of [plot_durations] succeeds for every list of durations,
    raising no [KeyError], and gives one colour per duration. *)
Theorem X20_durations_after_legend_have_colours :
  forall (color : Type) (legend_length : Z) (other_name : string)
         (palette : list color) (s s' : store) (m : color_dict color)
         (cs : list color) (timeout : Z) (d : date) (l : list duration),
    legend legend_length other_name palette s = inr (s', m, cs) ->
    dict_get (TopLevel.calc_durations s' timeout) d = Some l
    \/ dict_get (attr (Package.calc_durations s' timeout)) d = Some l ->
    exists fc, facecolors m l = inr fc
               /\ map Some fc = map (fun x => color_get m (dur_type x)) l.
Proof.
  intros color legend_length other_name palette s s' m cs timeout d l H G.
  assert (G' : dict_get (attr (Package.calc_durations s' timeout)) d = Some l).
  { destruct G as [G|G]; [|exact G].
    rewrite <- calc_durations_agree. exact G. }
  apply facecolors_total. apply Forall_forall. intros x Hx.
  destruct (durations_ends_at s' timeout d l x G' Hx) as [E _].
  apply in_zip3 in E as (E & _ & _).
  pose proof (legend_mem _ _ _ _ _ _ _ other_name H) as Mo.
  rewrite kept_other in Mo.
  destruct (legend_inr _ _ _ _ _ _ _ H) as (c0 & rest & _ & _ & -> & _).
  simpl in E.
  pose proof (relabel_all_mem m other_name (hb_types s) Mo) as F.
  rewrite Forall_forall in F. apply F, E.
Qed.

Lemma X20_durations_after_legend_have_colours_witness :
  exists fc,
    facecolors [("Other", 0); ("A", 1)]%string
               [("A"%string, 1, 0); ("Other"%string, 2, 0)] = inr fc
    /\ map Some fc
       = map (fun x => color_get [("Other", 0); ("A", 1)]%string (dur_type x))
             [("A"%string, 1, 0); ("Other"%string, 2, 0)].
Proof.
  exact (X20_durations_after_legend_have_colours Z 2 "Other" [0; 1; 2]
           (mkstore [("A", 2); ("B", 1)]%string ["A"; "B"; "A"]%string
              [d_2024_01_01; d_2024_01_01; d_2024_01_01] [1; 2; 3])
           (mkstore [("A", 2); ("B", 1)]%string ["A"; "Other"; "A"]%string
              [d_2024_01_01; d_2024_01_01; d_2024_01_01] [1; 2; 3])
           [("Other", 0); ("A", 1)]%string [1; 0; 1] 900 d_2024_01_01
           [("A"%string, 1, 0); ("Other"%string, 2, 0)]
           eq_refl (or_introl eq_refl)).
Defined.

(** ** [Counter.most_common] as [legend] uses it *)

Lemma insert_desc_In x l y : In y (insert_desc x l) <-> y = x \/ In y l.
Proof.
  induction l as [|z l IH]; simpl.
  - split; [intros [H|[]]; auto | intros [H|[]]; auto].
  - destruct (snd z <=? snd x); simpl; [intuition congruence|].
    rewrite IH. intuition congruence.
Qed.

Lemma sorted_desc_In c y : In y (sorted_desc c) <-> In y c.
Proof.
  induction c as [|x c IH]; simpl; [tauto|].
  rewrite insert_desc_In, IH. intuition congruence.
Qed.

Lemma insert_desc_sorted x l :
  StronglySorted (fun a b => snd b <= snd a) l ->
  StronglySorted (fun a b => snd b <= snd a) (insert_desc x l).
Proof.
  induction 1 as [|y l Hl IH Hy]; simpl.
  - constructor; constructor.
  - destruct (snd y <=? snd x) eqn:E.
    + apply Z.leb_le in E. constructor; [constructor; assumption|].
      constructor; [exact E|].
      eapply Forall_impl; [|exact Hy]. simpl. intros z Hz. lia.
    + apply Z.leb_gt in E. constructor; [exact IH|].
      apply Forall_forall. intros z Hz. apply insert_desc_In in Hz as [->|Hz].
      * lia.
      * rewrite Forall_forall in Hy. apply Hy, Hz.
Qed.

Lemma sorted_desc_sorted c :
  StronglySorted (fun a b => snd b <= snd a) (sorted_desc c).
Proof.
  induction c as [|x c IH]; simpl; [constructor|].
  apply insert_desc_sorted, IH.
Qed.

Lemma sorted_app_order {A : Type} (R : A -> A -> Prop) l1 : forall l2 a b,
  StronglySorted R (l1 ++ l2) -> In a l1 -> In b l2 -> R a b.
Proof.
  induction l1 as [|x l1 IH]; intros l2 a b S Ha Hb; [destruct Ha|].
  simpl in S. inversion S as [|? ? S' F]; subst.
  destruct Ha as [->|Ha].
  - rewrite Forall_forall in F. apply F, in_or_app. right. exact Hb.
  - apply (IH l2); assumption.
Qed.

Lemma insert_desc_perm x l : Permutation (insert_desc x l) (x :: l).
Proof.
  induction l as [|y l IH]; simpl; [reflexivity|].
  destruct (snd y <=? snd x); [reflexivity|].
  rewrite IH. apply perm_swap.
Qed.

Lemma sorted_desc_perm c : Permutation (sorted_desc c) c.
Proof.
  induction c as [|x c IH]; simpl; [reflexivity|].
  rewrite insert_desc_perm, IH. reflexivity.
Qed.

Lemma sorted_firstn {A : Type} (R : A -> A -> Prop) (n : nat) (l : list A) :
  StronglySorted R l -> StronglySorted R (firstn n l).
Proof.
  intros S. revert n. induction S as [|x l S IH F]; intros [|n]; simpl;
    try constructor.
  - apply IH.
  - rewrite Forall_forall in *. intros y Hy. apply F.
    rewrite <- (firstn_skipn n l). apply in_or_app. left. exact Hy.
Qed.

(** X21: [most_common(n)], as [legend] calls it, returns exactly
    [min(n, number of keys)] items, none when [n <= 0] and all of them
    when [n] is at least the number of keys; the items returned are
    items of the counter, each taken once (together with the items left
    out they are a rearrangement of the counter, so distinct keys stay
    distinct); they come in order of decreasing count; and no item left
    out has a larger count than an item returned. *)
Theorem X21_most_common_keeps_the_largest :
  forall (n : Z) (c : counter),
    let mc := most_common n c in
    List.length mc = Nat.min (Z.to_nat n) (List.length c)
    /\ (exists rest,
          Permutation (mc ++ rest) c
          /\ forall x y, In x mc -> In y rest -> snd y <= snd x)
    /\ StronglySorted (fun a b => snd b <= snd a) mc
    /\ (NoDup (map fst c) -> NoDup (map fst mc))
    /\ (n <= 0 -> mc = [])
    /\ (Z.of_nat (List.length c) <= n -> Permutation mc c).
Proof.
  intros n c mc.
  assert (P : Permutation (mc ++ skipn (Z.to_nat n) (sorted_desc c)) c).
  { unfold mc, most_common. rewrite firstn_skipn. apply sorted_desc_perm. }
  split; [apply most_common_length|].
  split; [|split; [|split; [|split]]].
  - exists (skipn (Z.to_nat n) (sorted_desc c)). split; [exact P|].
    intros x y Hx Hy.
    apply (sorted_app_order (fun a b => snd b <= snd a) mc
             (skipn (Z.to_nat n) (sorted_desc c))); try assumption.
    unfold mc, most_common. rewrite firstn_skipn. apply sorted_desc_sorted.
  - unfold mc, most_common. apply sorted_firstn, sorted_desc_sorted.
  - intros N.
    assert (N' : NoDup (map fst (mc ++ skipn (Z.to_nat n) (sorted_desc c)))).
    { eapply Permutation_NoDup; [|exact N].
      apply Permutation_map, Permutation_sym, P. }
    rewrite map_app in N'. apply NoDup_app_remove_r in N'. exact N'.
  - intros Hn. unfold mc, most_common.
    replace (Z.to_nat n) with 0%nat by lia. reflexivity.
  - intros Hn. unfold mc, most_common.
    rewrite firstn_all2 by (rewrite sorted_desc_length; lia).
    apply sorted_desc_perm.
Qed.

(** ** Durations computed before [legend] *)

(** X23: if [legend] has replaced a category, durations that were
    computed before it and still carry that category cannot be coloured:
    the lookup of [plot_durations] raises [KeyError] for a category
    without entry in [hb_type_color_map] as soon as the list holds one. *)
Theorem X23_stale_durations_raise_KeyError :
  forall (color : Type) (legend_length : Z) (other_name : string)
         (palette : list color) (s s' : store) (m : color_dict color)
         (cs : list color) (l : list duration),
    legend legend_length other_name palette s = inr (s', m, cs) ->
    Exists (fun x => kept legend_length other_name (hb_type_counter s)
                          (dur_type x) = false) l ->
    exists k, facecolors m l = inl (KeyError k)
              /\ kept legend_length other_name (hb_type_counter s) k = false
              /\ In k (map dur_type l).
Proof.
  intros color legend_length other_name palette s s' m cs l H.
  pose proof (fun h => legend_mem _ _ _ _ _ _ _ h H) as M.
  induction l as [|x l IH]; intros E; [inversion E|].
  cbn [facecolors map].
  destruct (color_get m (dur_type x)) as [c|] eqn:G.
  - assert (K : kept legend_length other_name (hb_type_counter s) (dur_type x)
                = true)
      by (rewrite <- M; unfold color_mem; rewrite G; reflexivity).
    inversion E as [? ? Hx|? ? Hl]; subst; [congruence|].
    destruct (IH Hl) as (k & F & Kk & Ik). rewrite F.
    exists k. split; [reflexivity|]. split; [exact Kk | right; exact Ik].
  - exists (dur_type x). split; [reflexivity|]. split; [|left; reflexivity].
    rewrite <- M. unfold color_mem. rewrite G. reflexivity.
Qed.

Lemma X23_stale_durations_raise_KeyError_witness :
  exists k,
    facecolors [("Other", 0); ("A", 1)]%string
               [("A"%string, 1, 0); ("B"%string, 2, 0)] = inl (KeyError k)
    /\ kept 2 "Other" [("A", 2); ("B", 1)]%string k = false
    /\ In k (map dur_type [("A"%string, 1, 0); ("B"%string, 2, 0)]).
Proof.
  refine (X23_stale_durations_raise_KeyError Z 2 "Other" [0; 1; 2]
            (mkstore [("A", 2); ("B", 1)]%string ["A"; "B"; "A"]%string
               [d_2024_01_01; d_2024_01_01; d_2024_01_01] [1; 2; 3])
            _ _ _ [("A"%string, 1, 0); ("B"%string, 2, 0)] eq_refl _).
  right. left. reflexivity.
Defined.

(** ** Streams that grow *)

Lemma extends_dict_refl m : extends_dict m m.
Proof. intros d l H. exists []. rewrite app_nil_r. exact H. Qed.

Lemma extends_dict_trans m1 m2 m3 :
  extends_dict m1 m2 -> extends_dict m2 m3 -> extends_dict m1 m3.
Proof.
  intros H12 H23 d l H. destruct (H12 d l H) as (l' & H').
  destruct (H23 d _ H') as (l'' & H''). exists (l' ++ l'').
  rewrite app_assoc. exact H''.
Qed.

Lemma extends_dict_append m k v : extends_dict m (setdefault_append m k v).
Proof.
  intros d l H. rewrite dict_get_setdefault_append.
  destruct (date_eqb k d) eqn:E.
  - apply date_eqb_eq in E. subst d. rewrite H. exists [v]. reflexivity.
  - exists []. rewrite app_nil_r. exact H.
Qed.

Lemma extends_dict_loop timeout es : forall st,
  extends_dict (Package.durations st)
               (Package.durations (Package.dur_loop timeout st es)).
Proof.
  induction es as [|e es IH]; intros st; [apply extends_dict_refl|].
  unfold Package.dur_loop in *; simpl fold_left.
  eapply extends_dict_trans; [|apply IH].
  destruct e as [[c d] s]. unfold Package.dur_body.
  destruct (Package.dur_breaks timeout st (c, d, s)); simpl.
  - apply extends_dict_append.
  - apply extends_dict_refl.
Qed.

(** X24: the output of [calc_durations] only grows with the stream: when
    more events are added after those of [s], every date listed for [s]
    is still listed, with the same durations in front and possibly more
    behind them; no listed duration is changed or removed.  Both copies. *)
Theorem X24_durations_only_grow :
  forall (s s' : store) (timeout : Z),
    continues s s' ->
    extends_dict (TopLevel.calc_durations s timeout)
                 (TopLevel.calc_durations s' timeout)
    /\ extends_dict (attr (Package.calc_durations s timeout))
                    (attr (Package.calc_durations s' timeout)).
Proof.
  intros s s' timeout [es H].
  assert (G : extends_dict (attr (Package.calc_durations s timeout))
                           (attr (Package.calc_durations s' timeout))).
  { unfold Package.calc_durations. rewrite H.
    destruct (heartbeats s) as [|[[c d] t] es0]; simpl.
    - intros d l D. discriminate D.
    - unfold Package.dur_loop. rewrite fold_left_app.
      apply (extends_dict_loop timeout es). }
  split; [rewrite !calc_durations_agree|]; exact G.
Qed.

Lemma X24_durations_only_grow_witness :
  dict_get (TopLevel.calc_durations two_categories_store 900) d_2024_01_01
  = Some [("A"%string, 10, 0)]
  /\ dict_get (TopLevel.calc_durations same_second_store 900) d_2024_01_01
     = Some ([("A"%string, 10, 0)] ++ [("B"%string, 10, 0)])
  /\ extends_dict (TopLevel.calc_durations two_categories_store 900)
                  (TopLevel.calc_durations same_second_store 900).
Proof.
  split; [reflexivity|]. split; [reflexivity|].
  refine (proj1 (X24_durations_only_grow two_categories_store
                   same_second_store 900 _)).
  exists [("C"%string, d_2024_01_01, 10)]. reflexivity.
Defined.

(** ** More on the runs of [calc_duration_counts] *)

Lemma closed_runs_antitone t1 t2 es : forall d a a' b,
  t1 <= t2 ->
  (List.length (closed_runs t2 d a b es)
   <= List.length (closed_runs t1 d a' b es))%nat.
Proof.
  induction es as [|[[c d1] s] es IH]; intros d a a' b Ht; simpl; [lia|].
  destruct (date_eqb d1 d) eqn:Ed; simpl.
  - apply date_eqb_eq in Ed. subst d1.
    destruct (s >? b + t2) eqn:E2.
    + apply Z.gtb_lt in E2.
      replace (s >? b + t1) with true by (symmetry; apply Z.gtb_lt; lia).
      simpl. specialize (IH d s s s Ht). lia.
    + destruct (s >? b + t1); simpl.
      * specialize (IH d a s s Ht). lia.
      * apply IH, Ht.
  - specialize (IH d1 s s s Ht). lia.
Qed.

(** X25: the matrix of [calc_duration_counts] is built by one slice
    increment per closed run of the stream, and raising the timeout
    never raises the number of these runs. *)
Theorem X25_counted_runs_antitone_in_timeout :
  forall (s : store) (t1 t2 : Z),
    t1 <= t2 ->
    let rs1 := stream_runs t1 (heartbeats s) in
    let rs2 := stream_runs t2 (heartbeats s) in
    TopLevel.calc_duration_counts s t1
    = apply_runs Z.succ (zeros _DAYS_IN_WEEK (_SECS_IN_DAY - 1)) rs1
    /\ TopLevel.calc_duration_counts s t2
       = apply_runs Z.succ (zeros _DAYS_IN_WEEK (_SECS_IN_DAY - 1)) rs2
    /\ attr (Package.calc_duration_counts s t1)
       = apply_runs Package.int16_incr
                    (zeros _DAYS_IN_WEEK (_SECS_IN_DAY - 1)) rs1
    /\ attr (Package.calc_duration_counts s t2)
       = apply_runs Package.int16_incr
                    (zeros _DAYS_IN_WEEK (_SECS_IN_DAY - 1)) rs2
    /\ (List.length rs2 <= List.length rs1)%nat.
Proof.
  intros s t1 t2 Ht rs1 rs2.
  destruct (calc_duration_counts_runs s t1) as [A1 B1].
  destruct (calc_duration_counts_runs s t2) as [A2 B2].
  split; [exact A1|]. split; [exact A2|]. split; [exact B1|].
  split; [exact B2|].
  unfold rs1, rs2, stream_runs.
  destruct (heartbeats s) as [|[[c d] t] es]; [simpl; lia|].
  apply closed_runs_antitone, Ht.
Qed.

Lemma X25_counted_runs_antitone_in_timeout_witness :
  List.length (stream_runs 900 (heartbeats three_runs_store)) = 1%nat
  /\ List.length (stream_runs 300 (heartbeats three_runs_store)) = 2%nat
  /\ TopLevel.calc_duration_counts three_runs_store 900
     = apply_runs Z.succ (zeros _DAYS_IN_WEEK (_SECS_IN_DAY - 1))
                  (stream_runs 900 (heartbeats three_runs_store))
  /\ (List.length (stream_runs 900 (heartbeats three_runs_store))
      <= List.length (stream_runs 300 (heartbeats three_runs_store)))%nat.
Proof.
  destruct (X25_counted_runs_antitone_in_timeout three_runs_store 300 900
              ltac:(lia)) as (_ & H2 & _ & _ & H5).
  split; [reflexivity|]. split; [reflexivity|].
  split; [exact H2 | exact H5].
Defined.

(** X26: on a chronological stream whose seconds all lie in 0..86398,
    the sum of all cells of the matrix of [src/heartbeats_data.py] is
    the sum of the inclusive lengths [end - start + 1] of the runs that
    [calc_duration_counts] closed; the packaged copy gives the same sum
    when it closes at most 32767 runs. *)
Theorem X26_cell_sum_below_last_second :
  forall (s : store) (timeout : Z),
    chronological (heartbeats s) = true ->
    Forall (fun e => 0 <= ev_secs e <= 86398) (heartbeats s) ->
    let rs := stream_runs timeout (heartbeats s) in
    TopLevel.calc_duration_counts s timeout
    = apply_runs Z.succ (zeros _DAYS_IN_WEEK (_SECS_IN_DAY - 1)) rs
    /\ matrix_sum (TopLevel.calc_duration_counts s timeout)
       = total_inclusive_length rs
    /\ (Z.of_nat (List.length rs) <= 32767 ->
        matrix_sum (attr (Package.calc_duration_counts s timeout))
        = total_inclusive_length rs).
Proof.
  intros s timeout C B rs.
  assert (T : matrix_sum (TopLevel.calc_duration_counts s timeout)
              = total_inclusive_length rs).
  { rewrite (occupancy_sum_below_last_second s timeout C B).
    unfold rs, stream_runs. reflexivity. }
  destruct (calc_duration_counts_runs s timeout) as [E1 E2].
  split; [exact E1|]. split; [exact T|].
  intros N. rewrite <- T, E1, E2. f_equal.
  apply (apply_runs_int16_succ _ _ 0); [apply cells_zeros; lia|].
  fold rs. lia.
Qed.

Lemma X26_cell_sum_below_last_second_witness :
  total_inclusive_length (stream_runs 300 (heartbeats three_runs_store)) = 2
  /\ matrix_sum (TopLevel.calc_duration_counts three_runs_store 300)
     = total_inclusive_length (stream_runs 300 (heartbeats three_runs_store))
  /\ matrix_sum (attr (Package.calc_duration_counts three_runs_store 300))
     = total_inclusive_length (stream_runs 300 (heartbeats three_runs_store)).
Proof.
  assert (B : Forall (fun e => 0 <= ev_secs e <= 86398)
                     (heartbeats three_runs_store)).
  { rewrite Forall_forall. intros e He. vm_compute in He.
    repeat (destruct He as [<-|He]; [unfold ev_secs; simpl; lia|]).
    destruct He. }
  destruct (X26_cell_sum_below_last_second three_runs_store 300 eq_refl B)
    as (_ & H1 & H2).
  split; [reflexivity|]. split; [exact H1|]. apply H2. discriminate.
Defined.

Lemma int16_incr_wrap z :
  Package.int16_incr (Package.int16_wrap z) = Package.int16_wrap (z + 1).
Proof.
  unfold Package.int16_incr, Package.int16_wrap. f_equal.
  replace ((z + 32768) mod 65536 - 32768 + 1 + 32768)
    with ((z + 32768) mod 65536 + 1) by lia.
  replace (z + 1 + 32768) with ((z + 32768) + 1) by lia.
  rewrite Zplus_mod_idemp_l. reflexivity.
Qed.

Lemma covering_snoc r j rs x :
  covering r j (rs ++ [x]) = covering r j rs + (if covers r j x then 1 else 0).
Proof.
  unfold covering. rewrite filter_app, length_app. simpl filter.
  destruct (covers r j x); cbn [List.length]; lia.
Qed.

(** X27: in the packaged copy, on a stream whose seconds are not
    negative, the cell of weekday [r] and second [j] holds the number of
    closed runs that cover it, reduced to int16: it is that number up to
    32767 and wraps around to -32768 beyond. *)
Theorem X27_int16_cell_counts_covering_runs :
  forall (s : store) (timeout r j : Z),
    Forall (fun e => 0 <= ev_secs e) (heartbeats s) ->
    0 <= r < 7 -> 0 <= j < 86399 ->
    cell (attr (Package.calc_duration_counts s timeout)) r j
    = Some (Package.int16_wrap
              (covering r j (stream_runs timeout (heartbeats s)))).
Proof.
  intros s timeout r j H Hr Hj.
  destruct (calc_duration_counts_runs s timeout) as [_ E]. rewrite E.
  rewrite secs_in_day_minus_1.
  assert (N : Forall run_nonneg (stream_runs timeout (heartbeats s))).
  { unfold stream_runs. destruct (heartbeats s) as [|[[c d] t] es];
      [constructor|].
    inversion H as [|? ? Ht Hes]; subst. unfold ev_secs in Ht; simpl in Ht.
    apply closed_runs_nonneg; assumption. }
  clear E H.
  induction (stream_runs timeout (heartbeats s)) as [|x rs IH] using rev_ind.
  - unfold apply_runs. simpl fold_left.
    rewrite cell_zeros by (unfold _DAYS_IN_WEEK; lia).
    reflexivity.
  - apply Forall_app in N as [Nrs Nx]. inversion Nx as [|? ? Hx _]; subst.
    destruct x as [[d a] b]. destruct Hx as [Ha Hb].
    rewrite apply_runs_snoc, cell_slice_incr, (IH Nrs) by lia.
    rewrite covering_snoc. unfold covers. simpl option_map. f_equal.
    rewrite (Z.eqb_sym r).
    destruct ((weekday d =? r) && (a <=? j) && (j <=? b)).
    + apply int16_incr_wrap.
    + rewrite Z.add_0_r. reflexivity.
Qed.

Lemma X27_int16_cell_counts_covering_runs_witness :
  cell (attr (Package.calc_duration_counts scenario_A_next_day 900)) 0 32500
  = Some (Package.int16_wrap
            (covering 0 32500
               (stream_runs 900 (heartbeats scenario_A_next_day)))).
Proof.
  apply (X27_int16_cell_counts_covering_runs scenario_A_next_day 900 0 32500).
  - repeat constructor; discriminate.
  - lia.
  - lia.
Defined.

(** ** Attribute lookup and the shared containers *)

Lemma attr_name_eqb_refl a : attr_name_eqb a a = true.
Proof. destruct a; reflexivity. Qed.

Lemma attr_name_eqb_eq a b : attr_name_eqb a b = true -> a = b.
Proof. destruct a, b; simpl; congruence. Qed.

Lemma ns_get_ns_set_same ns a v : ns_get (ns_set ns a v) a = Some v.
Proof.
  induction ns as [|[a' v'] ns IH]; simpl.
  - rewrite attr_name_eqb_refl. reflexivity.
  - destruct (attr_name_eqb a' a) eqn:E; simpl; rewrite E; auto.
Qed.

Lemma ns_get_ns_set_other ns a b v :
  attr_name_eqb a b = false -> ns_get (ns_set ns a v) b = ns_get ns b.
Proof.
  intros H. induction ns as [|[a' v'] ns IH]; simpl.
  - rewrite H. reflexivity.
  - destruct (attr_name_eqb a' a) eqn:E; simpl.
    + apply attr_name_eqb_eq in E. subst a'. rewrite H. reflexivity.
    + rewrite IH. reflexivity.
Qed.

Lemma length_list_set {A : Type} (l : list A) x : forall n,
  List.length (list_set l n x) = List.length l.
Proof.
  induction l as [|y l IH]; intros [|n]; simpl; auto.
Qed.

Lemma nth_error_list_set_same {A : Type} (l : list A) x : forall n,
  (n < List.length l)%nat -> nth_error (list_set l n x) n = Some x.
Proof.
  induction l as [|y l IH]; intros [|n]; simpl; intros H; try lia; auto.
  apply IH. lia.
Qed.

Lemma nth_error_list_set_other {A : Type} (l : list A) x : forall n m,
  n <> m -> nth_error (list_set l n x) m = nth_error l m.
Proof.
  induction l as [|y l IH]; intros [|n] [|m]; simpl; intros H; auto;
    try congruence.
Qed.

Lemma nth_error_list_set {A : Type} (l : list A) x n m y :
  nth_error l n = Some y ->
  nth_error (list_set l n x) m = if Nat.eqb n m then Some x else nth_error l m.
Proof.
  intros H. destruct (Nat.eqb n m) eqn:E.
  - apply Nat.eqb_eq in E. subst m. apply nth_error_list_set_same.
    apply nth_error_Some. congruence.
  - apply Nat.eqb_neq in E. apply nth_error_list_set_other, E.
Qed.

Lemma Forall_list_set {A : Type} (P : A -> Prop) (l : list A) x : forall n,
  Forall P l -> P x -> Forall P (list_set l n x).
Proof.
  induction l as [|y l IH]; intros [|n] H Hx; simpl; auto;
    inversion H; subst; constructor; auto.
Qed.

(** An instance that binds no container itself finds each on the
    class. *)
Lemma getattr_container st s self a :
  shared st s -> is_instance st self -> is_container a = true ->
  getattr st self a = ns_get (class_ns st) a.
Proof.
  intros [_ H] Hi Ha. unfold getattr, is_instance in *.
  destruct (nth_error (instance_ns st) self) as [ns|] eqn:E.
  - rewrite Forall_forall in H. rewrite (H ns (nth_error_In _ _ E) a Ha).
    reflexivity.
  - apply nth_error_None in E. lia.
Qed.

Lemma update_attr_object_eq st self a f l o o' :
  getattr st self a = Some (VRef l) ->
  nth_error (heap st) l = Some o -> f o = Some o' ->
  update_attr_object st self a f
  = Some (mkpystate (list_set (heap st) l o') (class_ns st) (instance_ns st)).
Proof.
  intros G H F. unfold update_attr_object. rewrite G, H, F. reflexivity.
Qed.

(** Changing the heap keeps what names refer to. *)
Lemma getattr_heap h st self a :
  getattr (mkpystate h (class_ns st) (instance_ns st)) self a
  = getattr st self a.
Proof. reflexivity. Qed.

(** The containers sit at four different places of the heap. *)
Lemma shared_distinct h lc l1 l2 l3 c a b d :
  nth_error h lc = Some (OCounter c) -> nth_error h l1 = Some (OStrList a) ->
  nth_error h l2 = Some (ODateList b) -> nth_error h l3 = Some (OIntList d) ->
  lc <> l1 /\ lc <> l2 /\ lc <> l3 /\ l1 <> l2 /\ l1 <> l3 /\ l2 <> l3.
Proof.
  intros Hc H1 H2 H3. repeat split; intros ->; congruence.
Qed.

(** [add_hb] through any instance changes the objects the class refers
    to, and no namespace. *)
Lemma add_hb_heap st s self hb_type timestamp :
  shared st s -> is_instance st self ->
  exists st',
    add_hb self hb_type timestamp st = Some st'
    /\ class_ns st' = class_ns st
    /\ instance_ns st' = instance_ns st
    /\ List.length (heap st') = List.length (heap st)
    /\ shared st' (add_hb_store hb_type timestamp s).
Proof.
  intros Hs Hi.
  pose proof (fun a => getattr_container st s self a Hs Hi) as G.
  destruct Hs as [(lc & l1 & l2 & l3 & Nc & N1 & N2 & N3 & Hc & H1 & H2 & H3) HF].
  assert (Gc := G A_hb_type_counter eq_refl).
  assert (G1 := G A_hb_types eq_refl).
  assert (G2 := G A_dates eq_refl).
  assert (G3 := G A_secs_since_midnights eq_refl).
  rewrite Nc in Gc. rewrite N1 in G1. rewrite N2 in G2. rewrite N3 in G3.
  clear G.
  destruct (shared_distinct _ _ _ _ _ _ _ _ _ Hc H1 H2 H3)
    as (Dc1 & Dc2 & Dc3 & D12 & D13 & D23).
  assert (Lc : (lc < List.length (heap st))%nat)
    by (apply nth_error_Some; congruence).
  assert (L1 : (l1 < List.length (heap st))%nat)
    by (apply nth_error_Some; congruence).
  assert (L2 : (l2 < List.length (heap st))%nat)
    by (apply nth_error_Some; congruence).
  assert (L3 : (l3 < List.length (heap st))%nat)
    by (apply nth_error_Some; congruence).
  unfold add_hb, add_hb_store.
  destruct (String.eqb hb_type "") eqn:Eh; cbn [bind option_map fst snd].
  - rewrite (update_attr_object_eq st self A_hb_types (append_str "Other") l1 _ _
               G1 H1 eq_refl).
    cbn [bind].
    erewrite (update_attr_object_eq _ self A_dates _ l2);
      [ | exact G2
        | cbn [heap]; rewrite nth_error_list_set_other by congruence; exact H2
        | reflexivity ].
    cbn [bind heap class_ns instance_ns].
    erewrite (update_attr_object_eq _ self A_secs_since_midnights _ l3);
      [ | exact G3
        | cbn [heap]; rewrite !nth_error_list_set_other by congruence;
          exact H3
        | reflexivity ].
    cbn [heap class_ns instance_ns].
    eexists. split; [reflexivity|]. cbn [heap class_ns instance_ns].
    repeat split; try (rewrite !length_list_set; reflexivity); try exact HF.
    exists lc, l1, l2, l3. cbn [heap class_ns instance_ns hb_type_counter
      hb_types dates secs_since_midnights].
    repeat split; try assumption.
    + rewrite !nth_error_list_set_other by congruence. exact Hc.
    + rewrite !(nth_error_list_set_other _ _ _ l1) by congruence.
      apply nth_error_list_set_same. exact L1.
    + rewrite (nth_error_list_set_other _ _ l3 l2) by congruence.
      apply nth_error_list_set_same. rewrite length_list_set. exact L2.
    + apply nth_error_list_set_same. rewrite !length_list_set. exact L3.
  - rewrite (update_attr_object_eq st self A_hb_type_counter
               (counter_bump hb_type) lc _ _ Gc Hc eq_refl).
    cbn [bind option_map fst snd].
    erewrite (update_attr_object_eq _ self A_hb_types _ l1);
      [ | exact G1
        | cbn [heap]; rewrite nth_error_list_set_other by congruence; exact H1
        | reflexivity ].
    cbn [bind heap class_ns instance_ns].
    erewrite (update_attr_object_eq _ self A_dates _ l2);
      [ | exact G2
        | cbn [heap]; rewrite !nth_error_list_set_other by congruence;
          exact H2
        | reflexivity ].
    cbn [bind heap class_ns instance_ns].
    erewrite (update_attr_object_eq _ self A_secs_since_midnights _ l3);
      [ | exact G3
        | cbn [heap]; rewrite !nth_error_list_set_other by congruence;
          exact H3
        | reflexivity ].
    cbn [heap class_ns instance_ns].
    eexists. split; [reflexivity|]. cbn [heap class_ns instance_ns].
    repeat split; try (rewrite !length_list_set; reflexivity); try exact HF.
    exists lc, l1, l2, l3. cbn [heap class_ns instance_ns hb_type_counter
      hb_types dates secs_since_midnights].
    repeat split; try assumption.
    + rewrite !(nth_error_list_set_other _ _ _ lc) by congruence.
      apply nth_error_list_set_same. exact Lc.
    + rewrite !(nth_error_list_set_other _ _ _ l1) by congruence.
      apply nth_error_list_set_same. rewrite length_list_set. exact L1.
    + rewrite (nth_error_list_set_other _ _ l3 l2) by congruence.
      apply nth_error_list_set_same. rewrite !length_list_set. exact L2.
    + apply nth_error_list_set_same. rewrite !length_list_set. exact L3.
Qed.

Lemma read_events_shared st s self :
  shared st s -> is_instance st self ->
  read_events st self
  = Some (zip3 (hb_types s) (dates s) (secs_since_midnights s)).
Proof.
  intros Hs Hi.
  pose proof (fun a => getattr_container st s self a Hs Hi) as G.
  destruct Hs as [(lc & l1 & l2 & l3 & Nc & N1 & N2 & N3 & Hc & H1 & H2 & H3) _].
  unfold read_events, attr_object.
  rewrite (G A_hb_types eq_refl), (G A_dates eq_refl),
    (G A_secs_since_midnights eq_refl), N1, N2, N3, H1, H2, H3.
  reflexivity.
Qed.

(** A state with the same class namespace, the old heap as a prefix of
    its heap, and no instance binding a container shares the same
    containers. *)
Lemma shared_frame st st' s :
  shared st s ->
  class_ns st' = class_ns st ->
  (forall l, (l < List.length (heap st))%nat ->
             nth_error (heap st') l = nth_error (heap st) l) ->
  Forall (fun ns => forall a, is_container a = true -> ns_get ns a = None)
         (instance_ns st') ->
  shared st' s.
Proof.
  intros [(lc & l1 & l2 & l3 & Nc & N1 & N2 & N3 & Hc & H1 & H2 & H3) _]
    Ec Eh HF.
  split; [|exact HF].
  exists lc, l1, l2, l3. rewrite Ec.
  repeat split; try assumption;
    (rewrite Eh; [assumption | apply nth_error_Some; congruence]).
Qed.

Lemma shared_new_instance st s :
  shared st s -> shared (snd (new_instance st)) s.
Proof.
  intros Hs. apply (shared_frame st _ s Hs); simpl.
  - reflexivity.
  - intros l Hl. apply nth_error_app1, Hl.
  - apply Forall_app. split; [apply Hs|].
    constructor; [|constructor]. intros [] Ha; try discriminate; reflexivity.
Qed.

Lemma is_instance_new_instance st :
  is_instance (snd (new_instance st)) (fst (new_instance st))
  /\ forall i, is_instance st i -> is_instance (snd (new_instance st)) i.
Proof.
  unfold is_instance. simpl. rewrite length_app. simpl. split; intros; lia.
Qed.

Lemma shared_class_body_TopLevel : shared class_body_TopLevel empty_store.
Proof.
  split; [|constructor].
  exists 0%nat, 1%nat, 2%nat, 3%nat. repeat split.
Qed.

Lemma shared_class_body_Package : shared class_body_Package empty_store.
Proof.
  split; [|constructor].
  exists 0%nat, 1%nat, 2%nat, 3%nat. repeat split.
Qed.

(** [self.a = <new object>] followed by changes of that object, for an
    attribute [a] that is not a container: [self.a] then refers to the
    result, and the containers are as before. *)
Lemma bind_new_store_result st s self a o o' :
  shared st s -> is_instance st self -> is_container a = false ->
  exists st1 st2,
    bind_new st self a o = Some st1
    /\ shared st1 s /\ is_instance st1 self
    /\ attr_object st1 self a = Some o
    /\ List.length (instance_ns st1) = List.length (instance_ns st)
    /\ assigned st self a st1
    /\ store_result st1 self a o' = Some st2
    /\ shared st2 s
    /\ attr_object st2 self a = Some o'
    /\ List.length (instance_ns st2) = List.length (instance_ns st)
    /\ assigned st self a st2.
Proof.
  intros Hs Hi Ha. unfold bind_new, setattr. cbn [instance_ns heap class_ns].
  destruct (nth_error (instance_ns st) self) as [ns|] eqn:E;
    [|apply nth_error_None in E; unfold is_instance in Hi; lia].
  set (st1 := mkpystate (heap st ++ [o]) (class_ns st)
                (list_set (instance_ns st) self
                   (ns_set ns a (VRef (List.length (heap st)))))).
  assert (HF1 : Forall (fun ns => forall a, is_container a = true ->
                                            ns_get ns a = None)
                       (instance_ns st1)).
  { apply Forall_list_set; [apply Hs|].
    intros b Hb. rewrite ns_get_ns_set_other.
    - destruct Hs as [_ HF]. rewrite Forall_forall in HF.
      apply (HF ns (nth_error_In _ _ E) b Hb).
    - destruct a, b; try reflexivity; discriminate. }
  assert (Hs1 : shared st1 s).
  { apply (shared_frame st st1 s Hs); [reflexivity| |exact HF1].
    intros l Hl. apply nth_error_app1, Hl. }
  assert (Hi1 : is_instance st1 self).
  { unfold is_instance, st1. cbn [instance_ns]. rewrite length_list_set.
    exact Hi. }
  assert (G : getattr st1 self a = Some (VRef (List.length (heap st)))).
  { unfold getattr, st1. cbn [instance_ns].
    rewrite nth_error_list_set_same by exact Hi.
    rewrite ns_get_ns_set_same. reflexivity. }
  assert (H : nth_error (heap st1) (List.length (heap st)) = Some o).
  { unfold st1. cbn [heap]. rewrite nth_error_app2 by lia.
    rewrite Nat.sub_diag. reflexivity. }
  exists st1.
  exists (mkpystate (list_set (heap st1) (List.length (heap st)) o')
                    (class_ns st1) (instance_ns st1)).
  split; [reflexivity|]. split; [exact Hs1|]. split; [exact Hi1|].
  split; [unfold attr_object; rewrite G; exact H|].
  split; [unfold st1; cbn [instance_ns]; apply length_list_set|].
  split.
  { unfold assigned, st1. cbn [class_ns heap instance_ns].
    split; [reflexivity|]. split; [rewrite length_app; simpl; lia|].
    split; [intros l Hl; apply nth_error_app1, Hl|].
    exists ns. split; [exact E | reflexivity]. }
  split.
  { unfold store_result.
    apply (update_attr_object_eq st1 self a _ _ o o' G H eq_refl). }
  split.
  { apply (shared_frame st _ s Hs); cbn [class_ns heap instance_ns].
    - reflexivity.
    - intros l Hl. rewrite nth_error_list_set_other by lia.
      unfold st1. cbn [heap]. apply nth_error_app1, Hl.
    - exact HF1. }
  split.
  { unfold attr_object. rewrite getattr_heap, G. cbn [heap].
    apply nth_error_list_set_same. apply nth_error_Some. congruence. }
  split; [cbn [instance_ns]; unfold st1; cbn [instance_ns];
          apply length_list_set|].
  unfold assigned, st1. cbn [class_ns heap instance_ns].
  split; [reflexivity|].
  split; [rewrite length_list_set, length_app; simpl; lia|].
  split.
  { intros l Hl. rewrite nth_error_list_set_other by lia.
    apply nth_error_app1, Hl. }
  exists ns. split; [exact E | reflexivity].
Qed.

(** A method that returned was called on an instance. *)
Lemma update_attr_object_instance st self a f st' :
  update_attr_object st self a f = Some st' -> is_instance st self.
Proof.
  unfold update_attr_object, getattr, is_instance. intros H.
  apply nth_error_Some. destruct (nth_error (instance_ns st) self);
    [discriminate|discriminate H].
Qed.

Lemma add_hb_instance st self hb_type timestamp st' :
  add_hb self hb_type timestamp st = Some st' -> is_instance st self.
Proof.
  unfold add_hb. destruct (String.eqb hb_type ""); cbn [bind fst snd].
  - destruct (update_attr_object st self A_hb_types (append_str "Other"))
      eqn:E; [|discriminate].
    intros _. eapply update_attr_object_instance, E.
  - destruct (update_attr_object st self A_hb_type_counter
                (counter_bump hb_type)) eqn:E; [|discriminate].
    intros _. eapply update_attr_object_instance, E.
Qed.

Lemma bind_new_instance st self a o st' :
  bind_new st self a o = Some st' -> is_instance st self.
Proof.
  unfold bind_new, setattr, is_instance. cbn [instance_ns]. intros H.
  apply nth_error_Some. destruct (nth_error (instance_ns st) self);
    [discriminate|discriminate H].
Qed.

(** The four methods on a state where the containers are shared. *)
Lemma calc_durations_TopLevel_shared st s self timeout :
  shared st s -> is_instance st self ->
  exists st',
    TopLevelObject.calc_durations self timeout st = Some st'
    /\ shared st' s
    /\ List.length (instance_ns st') = List.length (instance_ns st)
    /\ assigned st self A_durations st'
    /\ durations_of st' self
       = Some (TopLevel.durations
                 (TopLevel.dur_loop timeout TopLevel.dur_init
                    (zip3 (hb_types s) (dates s) (secs_since_midnights s)))).
Proof.
  intros Hs Hi.
  destruct (bind_new_store_result st s self A_durations (ODict [])
              (ODict (TopLevel.durations
                 (TopLevel.dur_loop timeout TopLevel.dur_init
                    (zip3 (hb_types s) (dates s) (secs_since_midnights s)))))
              Hs Hi eq_refl)
    as (st1 & st2 & E1 & Hs1 & Hi1 & Ho1 & Hl1 & As1 & E2 & Hs2 & Ho & Hl & As2).
  exists st2. unfold TopLevelObject.calc_durations.
  rewrite E1. cbn [bind]. rewrite (read_events_shared st1 s self Hs1 Hi1).
  cbn [bind]. split; [exact E2|]. split; [exact Hs2|]. split; [exact Hl|].
  split; [exact As2|].
  unfold durations_of. rewrite Ho. reflexivity.
Qed.

Lemma calc_duration_counts_TopLevel_shared st s self timeout :
  shared st s -> is_instance st self ->
  exists st',
    TopLevelObject.calc_duration_counts self timeout st = Some st'
    /\ shared st' s
    /\ List.length (instance_ns st') = List.length (instance_ns st)
    /\ assigned st self A_duration_counts st'
    /\ duration_counts_of st' self
       = Some (TopLevel.duration_counts
                 (TopLevel.cnt_loop timeout TopLevel.cnt_init
                    (zip3 (hb_types s) (dates s) (secs_since_midnights s)))).
Proof.
  intros Hs Hi.
  destruct (bind_new_store_result st s self A_duration_counts
              (OMatrix (zeros _DAYS_IN_WEEK (_SECS_IN_DAY - 1)))
              (OMatrix (TopLevel.duration_counts
                 (TopLevel.cnt_loop timeout TopLevel.cnt_init
                    (zip3 (hb_types s) (dates s) (secs_since_midnights s)))))
              Hs Hi eq_refl)
    as (st1 & st2 & E1 & Hs1 & Hi1 & Ho1 & Hl1 & As1 & E2 & Hs2 & Ho & Hl & As2).
  exists st2. unfold TopLevelObject.calc_duration_counts.
  rewrite E1. cbn [bind]. rewrite (read_events_shared st1 s self Hs1 Hi1).
  cbn [bind]. split; [exact E2|]. split; [exact Hs2|]. split; [exact Hl|].
  split; [exact As2|].
  unfold duration_counts_of. rewrite Ho. reflexivity.
Qed.

Lemma calc_durations_Package_shared st s self timeout :
  shared st s -> is_instance st self ->
  exists st' e,
    PackageObject.calc_durations self timeout st = Some (st', e)
    /\ shared st' s
    /\ List.length (instance_ns st') = List.length (instance_ns st)
    /\ assigned st self A_durations st'
    /\ match zip3 (hb_types s) (dates s) (secs_since_midnights s) with
       | [] => e = Some StopIteration /\ durations_of st' self = Some []
       | (c, d, t) :: es =>
           e = None
           /\ durations_of st' self
              = Some (Package.durations
                        (Package.dur_loop timeout (Package.mkdur c d t t [])
                           es))
       end.
Proof.
  intros Hs Hi.
  unfold PackageObject.calc_durations.
  destruct (zip3 (hb_types s) (dates s) (secs_since_midnights s))
    as [|[[c d] t] es] eqn:Ez.
  - destruct (bind_new_store_result st s self A_durations (ODict [])
                (ODict []) Hs Hi eq_refl)
      as (st1 & st2 & E1 & Hs1 & Hi1 & Ho1 & Hl1 & As1 & E2 & Hs2 & Ho & Hl & As2).
    exists st1, (Some StopIteration).
    rewrite E1. cbn [bind]. rewrite (read_events_shared st1 s self Hs1 Hi1).
    rewrite Ez. cbn [bind]. split; [reflexivity|]. split; [exact Hs1|].
    split; [exact Hl1|]. split; [exact As1|]. split; [reflexivity|].
    unfold durations_of. rewrite Ho1. reflexivity.
  - destruct (bind_new_store_result st s self A_durations (ODict [])
                (ODict (Package.durations
                          (Package.dur_loop timeout (Package.mkdur c d t t [])
                             es))) Hs Hi eq_refl)
      as (st1 & st2 & E1 & Hs1 & Hi1 & Ho1 & Hl1 & As1 & E2 & Hs2 & Ho & Hl & As2).
    exists st2, None.
    rewrite E1. cbn [bind]. rewrite (read_events_shared st1 s self Hs1 Hi1).
    rewrite Ez. cbn [bind]. rewrite E2. cbn [option_map].
    split; [reflexivity|]. split; [exact Hs2|]. split; [exact Hl|].
    split; [exact As2|]. split; [reflexivity|].
    unfold durations_of. rewrite Ho. reflexivity.
Qed.

Lemma calc_duration_counts_Package_shared st s self timeout :
  shared st s -> is_instance st self ->
  exists st' e,
    PackageObject.calc_duration_counts self timeout st = Some (st', e)
    /\ shared st' s
    /\ List.length (instance_ns st') = List.length (instance_ns st)
    /\ assigned st self A_duration_counts st'
    /\ match zip3 (hb_types s) (dates s) (secs_since_midnights s) with
       | [] =>
           e = Some StopIteration
           /\ duration_counts_of st' self
              = Some (zeros _DAYS_IN_WEEK (_SECS_IN_DAY - 1))
       | (c, d, t) :: es =>
           e = None
           /\ duration_counts_of st' self
              = Some (Package.duration_counts
                        (Package.cnt_loop timeout
                           (Package.mkcnt d t t
                              (zeros _DAYS_IN_WEEK (_SECS_IN_DAY - 1))) es))
       end.
Proof.
  intros Hs Hi.
  unfold PackageObject.calc_duration_counts.
  destruct (zip3 (hb_types s) (dates s) (secs_since_midnights s))
    as [|[[c d] t] es] eqn:Ez.
  - destruct (bind_new_store_result st s self A_duration_counts
                (OMatrix (zeros _DAYS_IN_WEEK (_SECS_IN_DAY - 1)))
                (OMatrix []) Hs Hi eq_refl)
      as (st1 & st2 & E1 & Hs1 & Hi1 & Ho1 & Hl1 & As1 & E2 & Hs2 & Ho & Hl & As2).
    exists st1, (Some StopIteration).
    rewrite E1. cbn [bind]. rewrite (read_events_shared st1 s self Hs1 Hi1).
    rewrite Ez. cbn [bind]. split; [reflexivity|]. split; [exact Hs1|].
    split; [exact Hl1|]. split; [exact As1|]. split; [reflexivity|].
    unfold duration_counts_of. rewrite Ho1. reflexivity.
  - destruct (bind_new_store_result st s self A_duration_counts
                (OMatrix (zeros _DAYS_IN_WEEK (_SECS_IN_DAY - 1)))
                (OMatrix (Package.duration_counts
                        (Package.cnt_loop timeout
                           (Package.mkcnt d t t
                              (zeros _DAYS_IN_WEEK (_SECS_IN_DAY - 1))) es)))
                Hs Hi eq_refl)
      as (st1 & st2 & E1 & Hs1 & Hi1 & Ho1 & Hl1 & As1 & E2 & Hs2 & Ho & Hl & As2).
    exists st2, None.
    rewrite E1. cbn [bind]. rewrite (read_events_shared st1 s self Hs1 Hi1).
    rewrite Ez. cbn [bind]. rewrite E2. cbn [option_map].
    split; [reflexivity|]. split; [exact Hs2|]. split; [exact Hl|].
    split; [exact As2|]. split; [reflexivity|].
    unfold duration_counts_of. rewrite Ho. reflexivity.
Qed.

(** Relabelling [hb_types] in place changes the one list every instance
    refers to. *)
Lemma relabel_shared st s self keep other_name st' :
  shared st s ->
  update_attr_object st self A_hb_types (relabel_in_place keep other_name)
  = Some st' ->
  class_ns st' = class_ns st
  /\ instance_ns st' = instance_ns st
  /\ List.length (heap st') = List.length (heap st)
  /\ shared st'
       (mkstore (hb_type_counter s)
                (map (fun hb_type => if keep hb_type then hb_type
                                     else other_name) (hb_types s))
                (dates s) (secs_since_midnights s)).
Proof.
  intros Hs E.
  pose proof (update_attr_object_instance _ _ _ _ _ E) as Hi.
  pose proof (getattr_container st s self A_hb_types Hs Hi eq_refl) as G1.
  destruct Hs as [(lc & l1 & l2 & l3 & Nc & N1 & N2 & N3 & Hc & H1 & H2 & H3) HF].
  rewrite N1 in G1.
  destruct (shared_distinct _ _ _ _ _ _ _ _ _ Hc H1 H2 H3)
    as (Dc1 & Dc2 & Dc3 & D12 & D13 & D23).
  rewrite (update_attr_object_eq st self A_hb_types
             (relabel_in_place keep other_name) l1 _ _ G1 H1 eq_refl) in E.
  injection E as <-. cbn [class_ns instance_ns heap].
  split; [reflexivity|]. split; [reflexivity|].
  split; [apply length_list_set|].
  split; [|exact HF].
  exists lc, l1, l2, l3. cbn [heap class_ns instance_ns hb_type_counter
    hb_types dates secs_since_midnights].
  repeat split; try assumption.
  - rewrite nth_error_list_set_other by congruence. exact Hc.
  - apply nth_error_list_set_same. apply nth_error_Some. congruence.
  - rewrite nth_error_list_set_other by congruence. exact H2.
  - rewrite nth_error_list_set_other by congruence. exact H3.
Qed.

(** In every state the program reaches, the class refers to the four
    containers, no instance binds one of its own, and the three lists
    have one length. *)
Lemma reachable_shared st :
  reachable st -> exists s, shared st s /\ aligned s.
Proof.
  induction 1 as [ | | st R IH | st self h t st' R IH E
                   | st self timeout st' R IH E
                   | st self timeout st' R IH E
                   | st self timeout st' e R IH E
                   | st self timeout st' e R IH E
                   | st self a o st' R IH Ca E
                   | st self keep other_name st' R IH E ].
  - exists empty_store. split; [apply shared_class_body_TopLevel|].
    split; reflexivity.
  - exists empty_store. split; [apply shared_class_body_Package|].
    split; reflexivity.
  - destruct IH as (s & Hs & Ha). exists s.
    split; [apply shared_new_instance, Hs | exact Ha].
  - destruct IH as (s & Hs & Ha).
    destruct (add_hb_heap st s self h t Hs (add_hb_instance _ _ _ _ _ E))
      as (st2 & E2 & _ & _ & _ & Hs2).
    rewrite E in E2. injection E2 as ->.
    exists (add_hb_store h t s).
    split; [exact Hs2 | apply add_hb_store_aligned, Ha].
  - destruct IH as (s & Hs & Ha). exists s. split; [|exact Ha].
    assert (Hi : is_instance st self).
    { unfold TopLevelObject.calc_durations in E.
      destruct (bind_new st self A_durations (ODict [])) eqn:B;
        [|discriminate]. eapply bind_new_instance, B. }
    destruct (calc_durations_TopLevel_shared st s self timeout Hs Hi)
      as (st2 & E2 & Hs2 & _).
    rewrite E in E2. injection E2 as ->. exact Hs2.
  - destruct IH as (s & Hs & Ha). exists s. split; [|exact Ha].
    assert (Hi : is_instance st self).
    { unfold TopLevelObject.calc_duration_counts in E.
      destruct (bind_new st self A_duration_counts _) eqn:B;
        [|discriminate]. eapply bind_new_instance, B. }
    destruct (calc_duration_counts_TopLevel_shared st s self timeout Hs Hi)
      as (st2 & E2 & Hs2 & _).
    rewrite E in E2. injection E2 as ->. exact Hs2.
  - destruct IH as (s & Hs & Ha). exists s. split; [|exact Ha].
    assert (Hi : is_instance st self).
    { unfold PackageObject.calc_durations in E.
      destruct (bind_new st self A_durations (ODict [])) eqn:B;
        [|discriminate]. eapply bind_new_instance, B. }
    destruct (calc_durations_Package_shared st s self timeout Hs Hi)
      as (st2 & e2 & E2 & Hs2 & _).
    rewrite E in E2. injection E2 as -> _. exact Hs2.
  - destruct IH as (s & Hs & Ha). exists s. split; [|exact Ha].
    assert (Hi : is_instance st self).
    { unfold PackageObject.calc_duration_counts in E.
      destruct (bind_new st self A_duration_counts _) eqn:B;
        [|discriminate]. eapply bind_new_instance, B. }
    destruct (calc_duration_counts_Package_shared st s self timeout Hs Hi)
      as (st2 & e2 & E2 & Hs2 & _).
    rewrite E in E2. injection E2 as -> _. exact Hs2.
  - destruct IH as (s & Hs & Ha). exists s. split; [|exact Ha].
    destruct (bind_new_store_result st s self a o o Hs
                (bind_new_instance _ _ _ _ _ E) Ca)
      as (st1 & _ & E1 & Hs1 & _).
    rewrite E in E1. injection E1 as ->. exact Hs1.
  - destruct IH as (s & Hs & Ha).
    destruct (relabel_shared st s self keep other_name st' Hs E)
      as (_ & _ & _ & Hs').
    eexists. split; [exact Hs'|].
    destruct Ha as [A1 A2]. split; cbn [hb_types dates secs_since_midnights];
      [rewrite length_map; exact A1 | exact A2].
Qed.

Lemma zip3_add_hb_store hb_type timestamp s :
  aligned s ->
  let s' := add_hb_store hb_type timestamp s in
  zip3 (hb_types s') (dates s') (secs_since_midnights s')
  = zip3 (hb_types s) (dates s) (secs_since_midnights s)
    ++ [recorded hb_type timestamp].
Proof.
  intros [H1 H2]. apply (heartbeats_add_hb_store hb_type timestamp s H1 H2).
Qed.

(** ** C10: the containers are shared by all instances *)

(** C10.  In every state a program reaches by running the class body,
    creating instances and calling methods on them, any two instances
    [a] and [b] (they may be the same) find each of [hb_type_counter],
    [hb_types], [dates] and [secs_since_midnights] at one and the same
    object, before and after [a.add_hb(hb_type, timestamp)].  That call returns and appends the
    recorded event to these objects (bumping the counter unless the
    category is empty), so the events [b] zips afterwards are the
    earlier ones followed by the recorded one, and [b.calc_durations]
    and [b.calc_duration_counts], in either file, return with
    [b.durations] and [b.duration_counts] the result of their loop over
    that extended sequence. *)
Theorem C10_containers_shared_across_instances :
  forall (st : pystate) (a b : nat) (hb_type : string) (timestamp : datetime)
         (timeout : Z),
    reachable st -> is_instance st a -> is_instance st b ->
    let e := recorded hb_type timestamp in
    let z := zeros _DAYS_IN_WEEK (_SECS_IN_DAY - 1) in
    exists (lc l1 l2 l3 : nat) (c : counter) (ts : list string)
           (ds : list date) (ss : list Z) (st' : pystate),
      (forall i st0, i = a \/ i = b -> st0 = st \/ st0 = st' ->
         getattr st0 i A_hb_type_counter = Some (VRef lc)
         /\ getattr st0 i A_hb_types = Some (VRef l1)
         /\ getattr st0 i A_dates = Some (VRef l2)
         /\ getattr st0 i A_secs_since_midnights = Some (VRef l3))
      /\ nth_error (heap st) lc = Some (OCounter c)
      /\ nth_error (heap st) l1 = Some (OStrList ts)
      /\ nth_error (heap st) l2 = Some (ODateList ds)
      /\ nth_error (heap st) l3 = Some (OIntList ss)
      /\ read_events st b = Some (zip3 ts ds ss)
      /\ add_hb a hb_type timestamp st = Some st'
      /\ nth_error (heap st') lc
         = Some (OCounter (if String.eqb hb_type "" then c
                           else counter_incr c hb_type))
      /\ nth_error (heap st') l1 = Some (OStrList (ts ++ [ev_type e]))
      /\ nth_error (heap st') l2 = Some (ODateList (ds ++ [ev_date e]))
      /\ nth_error (heap st') l3 = Some (OIntList (ss ++ [ev_secs e]))
      /\ read_events st' b = Some (zip3 ts ds ss ++ [e])
      /\ (exists st2,
            TopLevelObject.calc_durations b timeout st' = Some st2
            /\ durations_of st2 b
               = Some (TopLevel.durations
                         (TopLevel.dur_loop timeout TopLevel.dur_init
                            (zip3 ts ds ss ++ [e]))))
      /\ (exists st2,
            TopLevelObject.calc_duration_counts b timeout st' = Some st2
            /\ duration_counts_of st2 b
               = Some (TopLevel.duration_counts
                         (TopLevel.cnt_loop timeout TopLevel.cnt_init
                            (zip3 ts ds ss ++ [e]))))
      /\ (exists c0 d0 t0 es,
            zip3 ts ds ss ++ [e] = (c0, d0, t0) :: es
            /\ (exists st2,
                  PackageObject.calc_durations b timeout st' = Some (st2, None)
                  /\ durations_of st2 b
                     = Some (Package.durations
                               (Package.dur_loop timeout
                                  (Package.mkdur c0 d0 t0 t0 []) es)))
            /\ (exists st2,
                  PackageObject.calc_duration_counts b timeout st'
                  = Some (st2, None)
                  /\ duration_counts_of st2 b
                     = Some (Package.duration_counts
                               (Package.cnt_loop timeout
                                  (Package.mkcnt d0 t0 t0 z) es)))).
Proof.
  intros st a b hb_type timestamp timeout R Ia Ib e z.
  destruct (reachable_shared st R) as (s & Hs & Hal).
  destruct (add_hb_heap st s a hb_type timestamp Hs Ia)
    as (st' & E & Ecn & Ein & _ & Hs').
  assert (Ib' : is_instance st' b) by (unfold is_instance; rewrite Ein; exact Ib).
  assert (Ia' : is_instance st' a) by (unfold is_instance; rewrite Ein; exact Ia).
  pose proof (zip3_add_hb_store hb_type timestamp s Hal) as Z3.
  cbv zeta in Z3. fold e in Z3.
  pose proof (read_events_shared st s b Hs Ib) as Rb.
  pose proof (read_events_shared st' _ b Hs' Ib') as Rb'.
  rewrite Z3 in Rb'.
  destruct (calc_durations_TopLevel_shared st' _ b timeout Hs' Ib')
    as (t1 & T1 & _ & _ & _ & T1r).
  destruct (calc_duration_counts_TopLevel_shared st' _ b timeout Hs' Ib')
    as (t2 & T2 & _ & _ & _ & T2r).
  destruct (calc_durations_Package_shared st' _ b timeout Hs' Ib')
    as (p1 & e1 & P1 & _ & _ & _ & P1r).
  destruct (calc_duration_counts_Package_shared st' _ b timeout Hs' Ib')
    as (p2 & e2 & P2 & _ & _ & _ & P2r).
  rewrite Z3 in T1r, T2r, P1r, P2r.
  pose proof Hs as [(lc & l1 & l2 & l3 & Nc & N1 & N2 & N3 & Hc & H1 & H2 & H3) _].
  pose proof Hs'
    as [(lc' & l1' & l2' & l3' & Nc' & N1' & N2' & N3' & Hc' & H1' & H2' & H3') _].
  rewrite Ecn in Nc', N1', N2', N3'.
  assert (lc' = lc) by congruence. assert (l1' = l1) by congruence.
  assert (l2' = l2) by congruence. assert (l3' = l3) by congruence.
  subst lc' l1' l2' l3'.
  exists lc, l1, l2, l3, (hb_type_counter s), (hb_types s), (dates s),
    (secs_since_midnights s), st'.
  split.
  { intros i st0 Hi Hst.
    assert (G : forall x, is_container x = true ->
                          getattr st0 i x = ns_get (class_ns st) x).
    { intros x Hx. destruct Hst as [-> | ->].
      - apply (getattr_container st s i x Hs); [|exact Hx].
        destruct Hi as [-> | ->]; assumption.
      - rewrite <- Ecn. apply (getattr_container st' _ i x Hs'); [|exact Hx].
        destruct Hi as [-> | ->]; assumption. }
    rewrite !G by reflexivity. repeat split; assumption. }
  split; [exact Hc|]. split; [exact H1|]. split; [exact H2|].
  split; [exact H3|]. split; [exact Rb|]. split; [exact E|].
  split.
  { rewrite Hc'. unfold add_hb_store.
    destruct (String.eqb hb_type ""); reflexivity. }
  split.
  { rewrite H1'. unfold add_hb_store, e, recorded, ev_type.
    destruct (String.eqb hb_type ""); reflexivity. }
  split.
  { rewrite H2'. unfold add_hb_store, e, recorded, ev_date.
    destruct (String.eqb hb_type ""); reflexivity. }
  split.
  { rewrite H3'. unfold add_hb_store, e, recorded, ev_secs.
    destruct (String.eqb hb_type ""); reflexivity. }
  split; [exact Rb'|].
  split; [exists t1; split; assumption|].
  split; [exists t2; split; assumption|].
  destruct (zip3 (hb_types s) (dates s) (secs_since_midnights s) ++ [e])
    as [|[[c0 d0] t0] es] eqn:Ez.
  { destruct (zip3 (hb_types s) (dates s) (secs_since_midnights s));
      discriminate. }
  destruct P1r as [-> P1r]. destruct P2r as [-> P2r].
  exists c0, d0, t0, es. split; [reflexivity|].
  split; [exists p1; split; assumption | exists p2; split; assumption].
Qed.

Lemma C10_containers_shared_across_instances_witness :
  exists st,
    shared_scenario = Some st
    /\ reachable st /\ is_instance st 0%nat /\ is_instance st 1%nat
    /\ read_events st 1%nat
       = Some [("A"%string, d_2024_01_01, 32400);
               ("A"%string, d_2024_01_01, 33000)]
    /\ exists st' st2,
         add_hb 0%nat "" (mkdatetime d_2024_01_02 0 0 0) st = Some st'
         /\ TopLevelObject.calc_durations 1%nat 900 st' = Some st2
         /\ durations_of st2 1%nat
            = Some [(d_2024_01_01, [("A"%string, 32400, 600)])]
         /\ durations_of st2 0%nat = None.
Proof.
  assert (R0 : reachable (snd (new_instance (snd (new_instance
                 class_body_TopLevel)))))
    by (apply reach_new, reach_new, reach_TopLevel).
  destruct (add_hb 0%nat "A" (mkdatetime d_2024_01_01 9 0 0)
              (snd (new_instance (snd (new_instance class_body_TopLevel)))))
    as [s1|] eqn:E1; [|discriminate E1].
  pose proof (reach_add_hb _ _ _ _ _ R0 E1) as R1.
  destruct (add_hb 1%nat "A" (mkdatetime d_2024_01_01 9 10 0) s1)
    as [s2|] eqn:E2; [|vm_compute in E1; injection E1 as <-; discriminate E2].
  pose proof (reach_add_hb _ _ _ _ _ R1 E2) as R2.
  assert (Es : shared_scenario = Some s2).
  { unfold shared_scenario. rewrite E1. exact E2. }
  vm_compute in E1. injection E1 as <-.
  vm_compute in E2. injection E2 as <-.
  eexists. split; [exact Es|]. split; [exact R2|].
  split; [unfold is_instance; simpl; lia|].
  split; [unfold is_instance; simpl; lia|].
  split; [reflexivity|].
  destruct (C10_containers_shared_across_instances _ 0%nat 1%nat ""
              (mkdatetime d_2024_01_02 0 0 0) 900 R2
              ltac:(unfold is_instance; simpl; lia)
              ltac:(unfold is_instance; simpl; lia))
    as (lc & l1 & l2 & l3 & c & ts & ds & ss & st' & _ & _ & _ & _ & _ & Hr
        & Ha & _ & _ & _ & _ & _ & (st2 & Hc & Hd) & _).
  exists st', st2. split; [exact Ha|]. split; [exact Hc|].
  assert (Hz : Some [("A"%string, d_2024_01_01, 32400);
                     ("A"%string, d_2024_01_01, 33000)]
               = Some (zip3 ts ds ss)) by (rewrite <- Hr; reflexivity).
  injection Hz as Hz. rewrite <- Hz in Hd.
  split; [exact Hd|].
  vm_compute in Ha. injection Ha as <-.
  vm_compute in Hc. injection Hc as <-. reflexivity.
Defined.

(** ** Results are kept per instance *)

Lemma attr_name_eqb_neq a b : a <> b -> attr_name_eqb a b = false.
Proof.
  intros H. destruct (attr_name_eqb a b) eqn:E; [|reflexivity].
  apply attr_name_eqb_eq in E. contradiction.
Qed.

Lemma ns_get_ns_set ns a v b :
  ns_get (ns_set ns a v) b = if attr_name_eqb a b then Some v else ns_get ns b.
Proof.
  destruct (attr_name_eqb a b) eqn:E.
  - apply attr_name_eqb_eq in E. subst b. apply ns_get_ns_set_same.
  - apply ns_get_ns_set_other, E.
Qed.

Lemma refs_valid_assigned st self a st' :
  refs_valid st -> assigned st self a st' -> refs_valid st'.
Proof.
  intros [Vc Vi] (Ec & El & _ & ns & En & Ei). split.
  - intros x l H. rewrite Ec in H. apply Vc in H. lia.
  - rewrite Ei. apply Forall_list_set.
    + apply (Forall_impl _ (P := fun ns => forall a l,
               ns_get ns a = Some (VRef l) ->
               (l < List.length (heap st))%nat)); [|exact Vi].
      intros ns0 H x l Hx. apply H in Hx. lia.
    + intros x l H. rewrite ns_get_ns_set in H.
      destruct (attr_name_eqb a x).
      * injection H as <-. lia.
      * rewrite Forall_forall in Vi.
        apply (Vi ns (nth_error_In _ _ En)) in H. lia.
Qed.

(** No namespace of a state the program reaches holds a dangling
    reference. *)
Lemma reachable_refs_valid st : reachable st -> refs_valid st.
Proof.
  induction 1 as [ | | st R IH | st self h t st' R IH E
                   | st self timeout st' R IH E
                   | st self timeout st' R IH E
                   | st self timeout st' e R IH E
                   | st self timeout st' e R IH E
                   | st self a o st' R IH Ca E
                   | st self keep other_name st' R IH E ].
  - split; [|constructor].
    intros [] l H; simpl in H; try discriminate; injection H as <-;
      simpl; lia.
  - split; [|constructor].
    intros [] l H; simpl in H; try discriminate; injection H as <-;
      simpl; lia.
  - destruct IH as [Vc Vi]. split; simpl.
    + intros x l H. apply Vc in H. rewrite length_app. lia.
    + apply Forall_app. split.
      * apply (Forall_impl _ (P := fun ns => forall a l,
                 ns_get ns a = Some (VRef l) ->
                 (l < List.length (heap st))%nat)); [|exact Vi].
        intros ns0 H x l Hx. apply H in Hx. rewrite length_app. lia.
      * constructor; [|constructor].
        intros [] l H; simpl in H; try discriminate; injection H as <-;
          rewrite length_app; simpl; lia.
  - destruct (reachable_shared st R) as (s & Hs & _).
    destruct (add_hb_heap st s self h t Hs (add_hb_instance _ _ _ _ _ E))
      as (st2 & E2 & Ec & Ei & El & _).
    rewrite E in E2. injection E2 as <-.
    unfold refs_valid. rewrite Ec, Ei, El. exact IH.
  - destruct (reachable_shared st R) as (s & Hs & _).
    assert (Hi : is_instance st self).
    { unfold TopLevelObject.calc_durations in E.
      destruct (bind_new st self A_durations (ODict [])) eqn:B;
        [|discriminate]. eapply bind_new_instance, B. }
    destruct (calc_durations_TopLevel_shared st s self timeout Hs Hi)
      as (st2 & E2 & _ & _ & As & _).
    rewrite E in E2. injection E2 as <-.
    apply (refs_valid_assigned _ _ _ _ IH As).
  - destruct (reachable_shared st R) as (s & Hs & _).
    assert (Hi : is_instance st self).
    { unfold TopLevelObject.calc_duration_counts in E.
      destruct (bind_new st self A_duration_counts _) eqn:B;
        [|discriminate]. eapply bind_new_instance, B. }
    destruct (calc_duration_counts_TopLevel_shared st s self timeout Hs Hi)
      as (st2 & E2 & _ & _ & As & _).
    rewrite E in E2. injection E2 as <-.
    apply (refs_valid_assigned _ _ _ _ IH As).
  - destruct (reachable_shared st R) as (s & Hs & _).
    assert (Hi : is_instance st self).
    { unfold PackageObject.calc_durations in E.
      destruct (bind_new st self A_durations (ODict [])) eqn:B;
        [|discriminate]. eapply bind_new_instance, B. }
    destruct (calc_durations_Package_shared st s self timeout Hs Hi)
      as (st2 & e2 & E2 & _ & _ & As & _).
    rewrite E in E2. injection E2 as <- _.
    apply (refs_valid_assigned _ _ _ _ IH As).
  - destruct (reachable_shared st R) as (s & Hs & _).
    assert (Hi : is_instance st self).
    { unfold PackageObject.calc_duration_counts in E.
      destruct (bind_new st self A_duration_counts _) eqn:B;
        [|discriminate]. eapply bind_new_instance, B. }
    destruct (calc_duration_counts_Package_shared st s self timeout Hs Hi)
      as (st2 & e2 & E2 & _ & _ & As & _).
    rewrite E in E2. injection E2 as <- _.
    apply (refs_valid_assigned _ _ _ _ IH As).
  - destruct (reachable_shared st R) as (s & Hs & _).
    destruct (bind_new_store_result st s self a o o Hs
                (bind_new_instance _ _ _ _ _ E) Ca)
      as (st1 & _ & E1 & _ & _ & _ & _ & As & _).
    rewrite E in E1. injection E1 as <-.
    apply (refs_valid_assigned _ _ _ _ IH As).
  - destruct (reachable_shared st R) as (s & Hs & _).
    destruct (relabel_shared st s self keep other_name st' Hs E)
      as (Ec & Ei & El & _).
    unfold refs_valid. rewrite Ec, Ei, El. exact IH.
Qed.

Lemma getattr_valid st i x l :
  refs_valid st -> getattr st i x = Some (VRef l) ->
  (l < List.length (heap st))%nat.
Proof.
  intros [Vc Vi] H. unfold getattr in H.
  destruct (nth_error (instance_ns st) i) as [ns|] eqn:E; [|discriminate].
  destruct (ns_get ns x) as [v|] eqn:G.
  - injection H as ->. rewrite Forall_forall in Vi.
    apply (Vi ns (nth_error_In _ _ E) x l G).
  - apply (Vc x l H).
Qed.

Lemma assigned_kept_but st self a st' :
  refs_valid st -> assigned st self a st' -> kept_but st st' self a.
Proof.
  intros V (Ec & El & Eh & ns & En & Ei) i x Hi Hor.
  assert (G : getattr st' i x = getattr st i x).
  { unfold getattr. rewrite Ei, Ec.
    destruct (Nat.eq_dec self i) as [<- | Hne].
    - rewrite nth_error_list_set_same
        by (apply nth_error_Some; congruence).
      rewrite En. rewrite ns_get_ns_set_other; [reflexivity|].
      apply attr_name_eqb_neq. destruct Hor as [H | H]; congruence.
    - rewrite nth_error_list_set_other by exact Hne. reflexivity. }
  split; [exact G|].
  unfold attr_object. rewrite G.
  destruct (getattr st i x) as [[|l]|] eqn:Gi; try reflexivity.
  apply Eh. apply (getattr_valid st i x l V Gi).
Qed.

Lemma kept_but_read_events st st' a x b :
  is_container x = false -> kept_but st st' a x -> is_instance st b ->
  read_events st' b = read_events st b.
Proof.
  intros Hx K Ib. unfold read_events.
  assert (N : forall y, is_container y = true -> y <> x)
    by (intros y Hy ->; congruence).
  rewrite (proj2 (K b A_hb_types Ib (or_intror (N A_hb_types eq_refl)))).
  rewrite (proj2 (K b A_dates Ib (or_intror (N A_dates eq_refl)))).
  rewrite (proj2 (K b A_secs_since_midnights Ib
                    (or_intror (N A_secs_since_midnights eq_refl)))).
  reflexivity.
Qed.

(** X22: each of [calc_durations] and [calc_duration_counts], in either
    file, called on an instance [a] of a state the program reaches,
    returns (or, in the package, ends with an exception), and changes
    what one attribute of [a] refers to and nothing else an instance can
    see: every attribute of every other instance, and every other
    attribute of [a], is bound as before and refers to the same object
    as before, and every instance zips the same events as before.  So
    durations another instance computed earlier are not refreshed. *)
Theorem X22_results_are_per_instance :
  forall (st : pystate) (a : nat) (timeout : Z),
    reachable st -> is_instance st a ->
    (exists st1,
       TopLevelObject.calc_durations a timeout st = Some st1
       /\ kept_but st st1 a A_durations
       /\ forall b, is_instance st b ->
                    read_events st1 b = read_events st b)
    /\ (exists st1,
          TopLevelObject.calc_duration_counts a timeout st = Some st1
          /\ kept_but st st1 a A_duration_counts
          /\ forall b, is_instance st b ->
                       read_events st1 b = read_events st b)
    /\ (exists st1 e,
          PackageObject.calc_durations a timeout st = Some (st1, e)
          /\ kept_but st st1 a A_durations
          /\ forall b, is_instance st b ->
                       read_events st1 b = read_events st b)
    /\ (exists st1 e,
          PackageObject.calc_duration_counts a timeout st = Some (st1, e)
          /\ kept_but st st1 a A_duration_counts
          /\ forall b, is_instance st b ->
                       read_events st1 b = read_events st b).
Proof.
  intros st a timeout R Ia.
  destruct (reachable_shared st R) as (s & Hs & _).
  pose proof (reachable_refs_valid st R) as V.
  destruct (calc_durations_TopLevel_shared st s a timeout Hs Ia)
    as (t1 & T1 & _ & _ & A1 & _).
  destruct (calc_duration_counts_TopLevel_shared st s a timeout Hs Ia)
    as (t2 & T2 & _ & _ & A2 & _).
  destruct (calc_durations_Package_shared st s a timeout Hs Ia)
    as (p1 & e1 & P1 & _ & _ & A3 & _).
  destruct (calc_duration_counts_Package_shared st s a timeout Hs Ia)
    as (p2 & e2 & P2 & _ & _ & A4 & _).
  apply (assigned_kept_but _ _ _ _ V) in A1, A2, A3, A4.
  split; [exists t1; split; [exact T1 | split; [exact A1|]]|].
  { intros b Ib. apply (kept_but_read_events st t1 a A_durations b eq_refl A1 Ib). }
  split; [exists t2; split; [exact T2 | split; [exact A2|]]|].
  { intros b Ib. apply (kept_but_read_events st t2 a A_duration_counts b eq_refl A2 Ib). }
  split; [exists p1, e1; split; [exact P1 | split; [exact A3|]]|].
  { intros b Ib. apply (kept_but_read_events st p1 a A_durations b eq_refl A3 Ib). }
  exists p2, e2. split; [exact P2 | split; [exact A4|]].
  intros b Ib. apply (kept_but_read_events st p2 a A_duration_counts b eq_refl A4 Ib).
Qed.

Lemma X22_results_are_per_instance_witness :
  exists st st1,
    stale_scenario = Some st
    /\ reachable st /\ is_instance st 0%nat
    /\ TopLevelObject.calc_durations 0%nat 900 st = Some st1
    /\ durations_of st1 0%nat
       = Some [(d_2024_01_01, [("A"%string, 32400, 600)])]
    /\ durations_of st1 1%nat = Some [].
Proof.
  assert (R0 : reachable (snd (new_instance (snd (new_instance
                 class_body_TopLevel)))))
    by (apply reach_new, reach_new, reach_TopLevel).
  destruct (add_hb 0%nat "A" (mkdatetime d_2024_01_01 9 0 0)
              (snd (new_instance (snd (new_instance class_body_TopLevel)))))
    as [s1|] eqn:E1; [|discriminate E1].
  pose proof (reach_add_hb _ _ _ _ _ R0 E1) as R1.
  destruct (add_hb 1%nat "A" (mkdatetime d_2024_01_01 9 10 0) s1)
    as [s2|] eqn:E2; [|vm_compute in E1; injection E1 as <-; discriminate E2].
  pose proof (reach_add_hb _ _ _ _ _ R1 E2) as R2.
  destruct (TopLevelObject.calc_durations 1%nat 900 s2)
    as [s3|] eqn:E3;
    [|vm_compute in E1; injection E1 as <-;
      vm_compute in E2; injection E2 as <-; discriminate E3].
  pose proof (reach_calc_durations _ _ _ _ R2 E3) as R3.
  destruct (add_hb 0%nat "" (mkdatetime d_2024_01_02 0 0 0) s3)
    as [s4|] eqn:E4;
    [|vm_compute in E1; injection E1 as <-;
      vm_compute in E2; injection E2 as <-;
      vm_compute in E3; injection E3 as <-; discriminate E4].
  pose proof (reach_add_hb _ _ _ _ _ R3 E4) as R4.
  assert (Es : stale_scenario = Some s4).
  { unfold stale_scenario, shared_scenario. rewrite E1. cbn [bind].
    rewrite E2. cbn [bind]. rewrite E3. exact E4. }
  vm_compute in E1. injection E1 as <-.
  vm_compute in E2. injection E2 as <-.
  vm_compute in E3. injection E3 as <-.
  vm_compute in E4. injection E4 as <-.
  match type of R4 with reachable ?s => set (st4 := s) in * end.
  assert (I0 : is_instance st4 0%nat)
    by (unfold is_instance, st4; simpl; lia).
  assert (I1 : is_instance st4 1%nat)
    by (unfold is_instance, st4; simpl; lia).
  assert (N : 1%nat <> 0%nat) by discriminate.
  destruct (X22_results_are_per_instance st4 0%nat 900 R4 I0)
    as ((st1 & Hc & K & _) & _).
  pose proof (proj2 (K 1%nat A_durations I1 (or_introl N))) as Q.
  exists st4, st1. split; [exact Es|]. split; [exact R4|].
  split; [exact I0|]. split; [exact Hc|]. split.
  - vm_compute in Hc. injection Hc as <-. reflexivity.
  - unfold durations_of. rewrite Q. reflexivity.
Defined.
